(** * neng-ai-chat-bot: request validation, rate limiting and response envelopes

    A shallow embedding of the validation core of the gateway:
    - [utils/responseHandler.js]   (module [ResponseHandler])
    - [utils/fileValidation.js]    (module [FileValidation])
    - [middleware/validation.js]   (module [Middleware])
    - [modules/genAI/controller.js] (module [Controller])
    - [services/geminiService.js]  (module [GeminiService])
    - [utils/logger.js]            (module [Logger])
    - [modules/genAI/API.js]       (module [Routes])

    JavaScript values are modelled by the inductive [jsval]; the clock
    ([Date.now()], [new Date().toISOString()]), the environment variable
    [NODE_ENV] and the upstream generation service are explicit arguments. *)

From Stdlib Require Import ZArith Ascii String List.
From stdpp Require Import gmap strings list fin_maps.

Local Open Scope Z_scope.
Local Open Scope string_scope.

(** ** JavaScript values *)

Module JS.

(** Numbers are the integer-valued doubles (sizes, counters, status codes,
    epoch milliseconds) plus [NaN]. *)
#[warnings="-register-all"]
Inductive jsval : Type :=
| JUndefined
| JNull
| JBool (b : bool)
| JNum (z : Z)
| JNaN
| JStr (s : string)
| JArr (items : list jsval)
| JObj (props : list (string * jsval)).

(** [ToBoolean]: what [if (v)] and [!v] test. *)
Definition truthy (v : jsval) : bool :=
  match v with
  | JUndefined | JNull | JNaN => false
  | JBool b => b
  | JNum z => negb (z =? 0)%Z
  | JStr s => negb (String.eqb s "")
  | JArr _ | JObj _ => true
  end.

(** The [typeof] operator. *)
Definition typeof (v : jsval) : string :=
  match v with
  | JUndefined => "undefined"
  | JNull => "object"
  | JBool _ => "boolean"
  | JNum _ | JNaN => "number"
  | JStr _ => "string"
  | JArr _ | JObj _ => "object"
  end.

(** A default parameter [x = d] takes [d] exactly when the argument is
    [undefined]. *)
Definition default (v d : jsval) : jsval :=
  match v with
  | JUndefined => d
  | _ => v
  end.

(** [a || b] *)
Definition or_else (a b : jsval) : jsval := if truthy a then a else b.

(** Thrown [Error] objects: the two properties the program reads. *)
Record js_error : Type := mkError { err_message : jsval; err_stack : jsval }.

(** Strings are sequences of code units below 256. Of the characters
    [String.prototype.trim] strips (WhiteSpace and LineTerminator), these
    are the ones in that range: TAB, LF, VT, FF, CR, SP and NBSP. *)
Definition is_white_space (a : ascii) : bool :=
  let n := N_of_ascii a in
  ((9 <=? n) && (n <=? 13) || (n =? 32) || (n =? 160))%N.

Fixpoint trimStart (s : string) : string :=
  match s with
  | EmptyString => EmptyString
  | String a s' => if is_white_space a then trimStart s' else s
  end.

Fixpoint trimEnd (s : string) : string :=
  match s with
  | EmptyString => EmptyString
  | String a s' =>
      match trimEnd s' with
      | EmptyString => if is_white_space a then EmptyString else String a EmptyString
      | r => String a r
      end
  end.

Definition trim (s : string) : string := trimEnd (trimStart s).

(** [s.length] *)
Definition strlen (s : string) : Z := Z.of_nat (String.length s).

(** The code units of a string. *)
Fixpoint code_units (s : string) : list N :=
  match s with
  | EmptyString => []
  | String a s' => N_of_ascii a :: code_units s'
  end.

(** [toUpperCase] of one code unit below 256: the letters a-z, the
    Latin-1 letters 0xE0-0xFE (the division sign 0xF7 apart), the sharp s
    (to SS), and the two whose capital lies beyond 255: the micro sign (to
    U+039C) and y with diaeresis (to U+0178). The result is a sequence of
    16-bit code units. *)
Definition upper_unit (n : N) : list N :=
  if ((97 <=? n) && (n <=? 122))%N then [(n - 32)%N]
  else if (n =? 181)%N then [924%N]
  else if (n =? 223)%N then [83%N; 83%N]
  else if ((224 <=? n) && (n <=? 254) && negb (n =? 247))%N then [(n - 32)%N]
  else if (n =? 255)%N then [376%N]
  else [n].

(** [s.toUpperCase()], as code units. *)
Fixpoint toUpperCase (s : string) : list N :=
  match s with
  | EmptyString => []
  | String a s' => (upper_unit (N_of_ascii a) ++ toUpperCase s')%list
  end.

(** [toLowerCase] of one code unit below 256: the letters A-Z and the
    Latin-1 capitals 0xC0-0xDE (the multiplication sign 0xD7 apart). *)
Definition lower_ascii (a : ascii) : ascii :=
  let n := N_of_ascii a in
  if ((65 <=? n) && (n <=? 90))%N then ascii_of_N (n + 32)
  else if ((192 <=? n) && (n <=? 222) && negb (n =? 215))%N then ascii_of_N (n + 32)
  else a.

Fixpoint map_string (f : ascii -> ascii) (s : string) : string :=
  match s with
  | EmptyString => EmptyString
  | String a s' => String (f a) (map_string f s')
  end.

(** [s.toLowerCase()] *)
Definition toLowerCase : string -> string := map_string lower_ascii.

(** [s.repeat(n)] for a one-character string. *)
Fixpoint repeat_char (a : ascii) (n : nat) : string :=
  match n with
  | O => EmptyString
  | S n' => String a (repeat_char a n')
  end.

(** The decimal digits of an integer: what a template literal prints
    for a whole number of a size up to 2^53. *)
Fixpoint digits (fuel : nat) (n : N) (acc : string) : string :=
  match fuel with
  | O => acc
  | S fuel' =>
      let acc' := String (ascii_of_N (48 + n mod 10)) acc in
      if (n <? 10)%N then acc' else digits fuel' (n / 10) acc'
  end.

Definition string_of_Z (z : Z) : string :=
  if (z <? 0)%Z
  then "-" ++ digits (S (N.to_nat (N.log2 (Z.to_N (- z))))) (Z.to_N (- z)) ""
  else digits (S (N.to_nat (N.log2 (Z.to_N z)))) (Z.to_N z) "".

(** The double nearest to a positive integer, ties to the even
    significand: the number a numeral denotes. Integers up to 2^53 are their
    own doubles. *)
Definition nearest_double (x : Z) : Z :=
  let e := Z.log2 x in
  if (e <=? 52)%Z then x
  else
    let ulp := (2 ^ (e - 52))%Z in
    let q := (x / ulp)%Z in
    let r := (x mod ulp)%Z in
    let half := (ulp / 2)%Z in
    let q' := if (r <? half)%Z then q
              else if (half <? r)%Z then (q + 1)%Z
              else if Z.even q then q else (q + 1)%Z in
    (q' * ulp)%Z.

(** Whether the real number [v] rounds to the double [x] (an integer of
    at least 2^53): [v] lies between the midpoints to the neighbouring
    doubles, the midpoints included when the significand of [x] is even. *)
Definition rounds_to (x v : Z) : bool :=
  let e := Z.log2 x in
  let ulp := (2 ^ (e - 52))%Z in
  let m := (x / ulp)%Z in
  let below := if (m =? 2 ^ 52)%Z then (ulp / 2)%Z else ulp in
  let d := (2 * (v - x))%Z in
  if Z.even m then ((- below <=? d) && (d <=? ulp))%Z
  else ((- below <? d) && (d <? ulp))%Z.

(** The decimal [s * 10^(n-k)] with the fewest digits [k] that rounds to
    [x], the nearest to [x] when several do: multiples of [10^p] are tried
    from the largest [p] down. *)
Fixpoint shortest_decimal (p : nat) (x : Z) : Z :=
  match p with
  | O => x
  | S p' =>
      let pw := (10 ^ Z.of_nat p)%Z in
      let v1 := (x / pw * pw)%Z in
      let v2 := (v1 + pw)%Z in
      let closest :=
        if (x - v1 <? v2 - x)%Z then v1
        else if (v2 - x <? x - v1)%Z then v2
        else if Z.even (x / pw) then v1 else v2 in
      if rounds_to x v1 && rounds_to x v2 then closest
      else if rounds_to x v1 then v1
      else if rounds_to x v2 then v2
      else shortest_decimal p' x
  end.

(** The digits of [v] without its trailing zeros. *)
Fixpoint strip_zeros (fuel : nat) (v : Z) : Z :=
  match fuel with
  | O => v
  | S fuel' => if (v mod 10 =? 0)%Z then strip_zeros fuel' (v / 10) else v
  end.

(** [Number::toString] of a positive integer: all digits up to 21 of
    them, the exponent form from 1e21 on; above 2^53 the digits are the
    shortest that read back as the same double, and from 2^1024 on the
    number is [Infinity]. *)
Definition positive_to_string (z : Z) : string :=
  let x := nearest_double z in
  if (2 ^ 1024 <=? x)%Z then "Infinity"
  else
    let v := if (Z.log2 x <=? 52)%Z then x
             else shortest_decimal (Z.to_nat (Z.log2 x)) x in
    let all := string_of_Z v in
    let n := Z.of_nat (String.length all) in
    if (n <=? 21)%Z then all
    else
      match string_of_Z (strip_zeros (Z.to_nat (Z.log2 x)) v) with
      | EmptyString => all
      | String d EmptyString => String d ("e+" ++ string_of_Z (n - 1))
      | String d rest => String d ("." ++ rest ++ "e+" ++ string_of_Z (n - 1))
      end.

Definition number_to_string (z : Z) : string :=
  if (z =? 0)%Z then "0"
  else if (z <? 0)%Z then "-" ++ positive_to_string (- z)
  else positive_to_string z.

(** Whether an object has a property of its own with the given name. *)
Definition has_own (props : list (string * jsval)) (key : string) : bool :=
  existsb (fun kv => String.eqb (fst kv) key) props.

(** [ToString], as a template literal applies it; [None] when it throws
    a TypeError (Cannot convert object to primitive value). Objects are plain
    data: one with no [toString] of its own prints as [[object Object]]
    through [Object.prototype.toString]; one with a [toString] of its own,
    which is data and cannot be called, falls back on [valueOf], which gives
    no primitive, and throws. Array items are joined with commas, [undefined]
    and [null] items printing as nothing. *)
Fixpoint to_string (v : jsval) : option string :=
  match v with
  | JUndefined => Some "undefined"
  | JNull => Some "null"
  | JBool b => Some (if b then "true" else "false")
  | JNum z => Some (number_to_string z)
  | JNaN => Some "NaN"
  | JStr s => Some s
  | JArr items =>
      (fix join (l : list jsval) : option string :=
         match l with
         | [] => Some ""
         | x :: l' =>
             match match x with
                   | JUndefined | JNull => Some ""
                   | _ => to_string x
                   end with
             | None => None
             | Some sx =>
                 match l' with
                 | [] => Some sx
                 | _ => match join l' with
                        | None => None
                        | Some sl => Some (sx ++ "," ++ sl)
                        end
                 end
             end
         end) items
  | JObj props => if has_own props "toString" then None else Some "[object Object]"
  end.

(** [Math.round(a / b)] for integers [a] and [b > 0]: the nearest integer,
    halves rounded up. *)
Definition Math_round_div (a b : Z) : Z := (2 * a + b) / (2 * b).

(** [s.startsWith(sub)] *)
Fixpoint starts_with (sub s : string) : bool :=
  match sub with
  | EmptyString => true
  | String a sub' =>
      match s with
      | EmptyString => false
      | String b s' => Ascii.eqb a b && starts_with sub' s'
      end
  end.

(** [s.includes(sub)] *)
Fixpoint str_includes (s sub : string) : bool :=
  starts_with sub s ||
  match s with
  | EmptyString => false
  | String _ s' => str_includes s' sub
  end.

End JS.
Import JS.

(** ** utils/responseHandler.js *)

Module ResponseHandler.

(** The JSON envelope. An absent key is [None]. *)
Record envelope : Type := mkEnvelope {
  status : bool;
  code : jsval;
  message : jsval;
  data : option jsval;
  meta : option jsval;
  errors : option jsval;
  timestamp : string
}.

(** [res.status(statusCode).json(response)] *)
Record response : Type := mkResponse {
  http_status : jsval;
  json : envelope
}.

Section WithClock.
(** [new Date().toISOString()] at the time of the call. *)
Variable now : string.

Definition sendSuccessResponse (data message meta statusCode : jsval) : response :=
  let message := default message (JStr "Success") in
  let meta := default meta JNull in
  let statusCode := default statusCode (JNum 200) in
  {| http_status := statusCode;
     json := {| status := true;
                code := statusCode;
                message := message;
                data := Some data;
                meta := if truthy meta then Some meta else None;
                errors := None;
                timestamp := now |} |}.

Definition sendErrorResponse (message statusCode errors : jsval) : response :=
  let statusCode := default statusCode (JNum 500) in
  let errors := default errors JNull in
  {| http_status := statusCode;
     json := {| status := false;
                code := statusCode;
                message := message;
                data := None;
                meta := None;
                errors := if truthy errors then Some errors else None;
                timestamp := now |} |}.

Definition sendValidationError (message validationErrors : jsval) : response :=
  let validationErrors := default validationErrors JNull in
  sendErrorResponse message (JNum 400) validationErrors.

(** [console.error('Internal Server Error:', error)] is the first
    component of the result. [NODE_ENV] is [process.env.NODE_ENV]. *)
Definition sendInternalServerError (NODE_ENV : jsval) (error : js_error)
    (customMessage : jsval) : js_error * response :=
  let customMessage := default customMessage (JStr "Internal server error") in
  let isDevelopment :=
    match NODE_ENV with
    | JStr s => String.eqb s "development"
    | _ => false
    end in
  let errorDetails :=
    if isDevelopment
    then JObj [("message", err_message error); ("stack", err_stack error)]
    else JStr "Internal server error occurred" in
  (error, sendErrorResponse customMessage (JNum 500) errorDetails).




End WithClock.

End ResponseHandler.
Import ResponseHandler.

(** ** utils/fileValidation.js *)

Module FileValidation.

Record FileTypeSpec : Type := mkSpec {
  name : string;
  maxSize : Z;
  allowedMimeTypes : list string;
  fieldName : string;
  errorMessage : string
}.

Definition IMAGE : FileTypeSpec :=
  {| name := "image";
     maxSize := 10 * 1024 * 1024;
     allowedMimeTypes :=
       ["image/jpeg"; "image/jpg"; "image/png"; "image/gif"; "image/webp";
        "image/bmp"; "image/svg+xml"];
     fieldName := "file";
     errorMessage := "Only JPEG, PNG, GIF, WebP, BMP, and SVG image files are allowed" |}.

Definition DOCUMENT : FileTypeSpec :=
  {| name := "document";
     maxSize := 50 * 1024 * 1024;
     allowedMimeTypes :=
       ["application/pdf"; "application/msword";
        "application/vnd.openxmlformats-officedocument.wordprocessingml.document";
        "text/plain"; "text/csv"; "application/vnd.ms-excel";
        "application/vnd.openxmlformats-officedocument.spreadsheetml.sheet";
        "application/vnd.openxmlformats-officedocument.presentationml.presentation"];
     fieldName := "file";
     errorMessage := "Only PDF, Word, Excel, PowerPoint, Text, and CSV files are allowed" |}.

Definition AUDIO : FileTypeSpec :=
  {| name := "audio";
     maxSize := 100 * 1024 * 1024;
     allowedMimeTypes :=
       ["audio/mpeg"; "audio/mp3"; "audio/wav"; "audio/ogg"; "audio/aac";
        "audio/flac"; "audio/webm"];
     fieldName := "file";
     errorMessage := "Only MP3, WAV, OGG, AAC, FLAC, and WebM audio files are allowed" |}.

Definition VIDEO : FileTypeSpec :=
  {| name := "video";
     maxSize := 200 * 1024 * 1024;
     allowedMimeTypes :=
       ["video/mp4"; "video/avi"; "video/mov"; "video/wmv"; "video/flv";
        "video/webm"; "video/mkv"];
     fieldName := "file";
     errorMessage := "Only MP4, AVI, MOV, WMV, FLV, WebM, and MKV video files are allowed" |}.

(** The registry object, keys in declaration order. *)
Definition FILE_TYPES : list (string * FileTypeSpec) :=
  [("IMAGE", IMAGE); ("DOCUMENT", DOCUMENT); ("AUDIO", AUDIO); ("VIDEO", VIDEO)].

(** Equality of two sequences of code units. *)
Fixpoint same_units (a b : list N) : bool :=
  match a, b with
  | [], [] => true
  | x :: a', y :: b' => (x =? y)%N && same_units a' b'
  | _, _ => false
  end.

(** [obj[key]] on the registry, the key given by its code units. The keys
    are the registry's own ones: every property inherited from
    [Object.prototype] has a lower-case letter a-z in its name and is never
    the result of [toUpperCase]. *)
Fixpoint property (obj : list (string * FileTypeSpec)) (key : list N)
    : option FileTypeSpec :=
  match obj with
  | [] => None
  | (k, v) :: rest => if same_units (code_units k) key then Some v else property rest key
  end.

(** The uploaded file object ([req.file]); [buffer] is the raw bytes, absent
    when the upload handler kept none. *)
Record file : Type := mkFile {
  originalname : jsval;
  mimetype : jsval;
  size : jsval;
  buffer : option string
}.

(** [null] when the name is falsy, not a string, or not a registry key. *)
Definition getFileTypeConfig (typeName : jsval) : option FileTypeSpec :=
  if negb (truthy typeName) || negb (String.eqb (typeof typeName) "string") then None
  else
    match typeName with
    | JStr s =>
        let upperTypeName := toUpperCase s in
        property FILE_TYPES upperTypeName
    | _ => None
    end.

(** [list.includes(v)] on a list of strings. *)
Definition includes (l : list string) (v : jsval) : bool :=
  match v with
  | JStr s => existsb (String.eqb s) l
  | _ => false
  end.

(** [a <= b] on numbers; anything compared with [NaN] is false. *)
Definition num_le (a b : jsval) : bool :=
  match a, b with
  | JNum x, JNum y => (x <=? y)%Z
  | _, _ => false
  end.

Definition isValidFileType (f : option file) (fileType : string) : bool :=
  match f with
  | None => false
  | Some f =>
      if negb (truthy (mimetype f)) then false
      else
        match getFileTypeConfig (JStr fileType) with
        | None => false
        | Some config => includes (allowedMimeTypes config) (mimetype f)
        end
  end.

Definition isValidFileSize (f : option file) (maxSize : Z) : bool :=
  match f with
  | None => false
  | Some f =>
      if negb (String.eqb (typeof (size f)) "number") then false
      else num_le (size f) (JNum maxSize)
  end.

Record ValidationResult : Type := mkResult {
  isValid : bool;
  error : jsval
}.

Definition validateFile (f : option file) (fileType : string) : ValidationResult :=
  match getFileTypeConfig (JStr fileType) with
  | None =>
      {| isValid := false; error := JStr ("Unknown file type: " ++ fileType) |}
  | Some config =>
      match f with
      | None =>
          {| isValid := false; error := JStr (name config ++ " file is required") |}
      | Some _ =>
          if negb (isValidFileType f fileType) then
            {| isValid := false; error := JStr (errorMessage config) |}
          else if negb (isValidFileSize f (maxSize config)) then
            let maxSizeMB := Math_round_div (maxSize config) (1024 * 1024) in
            {| isValid := false;
               error := JStr ("File size exceeds " ++ string_of_Z maxSizeMB ++ "MB limit") |}
          else
            {| isValid := true; error := JNull |}
      end
  end.

(** The payload sent upstream. *)
Record fileData : Type := mkFileData {
  mimeType : jsval;
  data : string
}.

Section Platform.
(** [Buffer.prototype.toString('base64')]. *)
Variable base64 : string -> string.
(** The stack trace the engine attaches to an error created with the
    given message. *)
Variable stack : string -> jsval.
(** [formatFileSize]: floating-point arithmetic ([Math.log], [toFixed]),
    kept abstract. *)
Variable formatFileSize : jsval -> jsval.
(** [new Date().toISOString()] *)
Variable now : string.

(** [new Error(msg)] *)
Definition new_Error (msg : string) : js_error :=
  {| err_message := JStr msg; err_stack := stack msg |}.

Definition prepareFileForAPI (f : option file) : js_error + fileData :=
  match f with
  | None => inl (new_Error "Invalid file object - missing buffer or mimetype")
  | Some f =>
      match buffer f with
      | None => inl (new_Error "Invalid file object - missing buffer or mimetype")
      | Some bytes =>
          if negb (truthy (mimetype f))
          then inl (new_Error "Invalid file object - missing buffer or mimetype")
          else inr {| mimeType := mimetype f; data := base64 bytes |}
      end
  end.

Definition formatFileMetadata (f : option file) : jsval :=
  match f with
  | None => JNull
  | Some f =>
      JObj [("originalName", or_else (originalname f) (JStr "unknown"));
            ("mimeType", or_else (mimetype f) (JStr "unknown"));
            ("size", or_else (size f) (JNum 0));
            ("sizeFormatted", formatFileSize (or_else (size f) (JNum 0)));
            ("uploadedAt", JStr now)]
end.
End Platform.

(** [getAllFileTypeConfigs]: the registry as a list for clients. *)
Definition getAllFileTypeConfigs : list jsval :=
  map (fun '(key, config) =>
         JObj [("type", JStr (toLowerCase key));
               ("name", JStr (name config));
               ("maxSize", JNum (maxSize config));
               ("maxSizeMB", JNum (Math_round_div (maxSize config) (1024 * 1024)));
               ("allowedMimeTypes", JArr (map JStr (allowedMimeTypes config)));
               ("fieldName", JStr (fieldName config));
               ("errorMessage", JStr (errorMessage config))])
      FILE_TYPES.

End FileValidation.
Import FileValidation.

(** ** middleware/validation.js *)

Module Middleware.

(** What a middleware does with a request: pass it on ([next()]), answer
    it, or throw. *)
Inductive outcome (A : Type) : Type :=
| Next (a : A)
| Responded (r : response)
| Thrown (e : js_error).
Arguments Next {A} a.
Arguments Responded {A} r.
Arguments Thrown {A} e.

(** [obj.key] on a request body: the body's own property, else
    [undefined]. *)
Definition get (b : gmap string jsval) (key : string) : jsval :=
  match b !! key with
  | Some v => v
  | None => JUndefined
  end.

Section WithClock.
(** [new Date().toISOString()] *)
Variable now : string.
(** The stack trace attached to a new error. *)
Variable stack : string -> jsval.

(** [req.body] is [None] when it is [undefined]. *)
Definition validatePrompt (body : option (gmap string jsval))
    : outcome (gmap string jsval) :=
  match body with
  | None =>
      Thrown (new_Error stack
        "Cannot destructure property 'prompt' of 'req.body' as it is undefined.")
  | Some b =>
      let prompt := get b "prompt" in
      if negb (truthy prompt) then
        Responded (sendValidationError now
                     (JStr "Prompt is required in the request body") JUndefined)
      else
        match prompt with
        | JStr p =>
            if (strlen (trim p) =? 0)%Z then
              Responded (sendValidationError now (JStr "Prompt cannot be empty") JUndefined)
            else if (strlen p >? 10000)%Z then
              Responded (sendValidationError now
                           (JStr "Prompt is too long (maximum 10,000 characters)")
                           JUndefined)
            else Next (<["prompt" := JStr (trim p)]> b)
        | _ =>
            (* typeof prompt !== 'string' *)
            Responded (sendValidationError now (JStr "Prompt must be a string") JUndefined)
        end
  end.

Definition dangerousKeys : list string := ["__proto__"; "constructor"; "prototype"].

(** One round of the first loop. [req.body.hasOwnProperty] is looked up
    on the body itself first: an own property of that name shadows
    [Object.prototype.hasOwnProperty], and no body value is callable. *)
Definition remove_dangerous (acc : js_error + gmap string jsval) (key : string)
    : js_error + gmap string jsval :=
  match acc with
  | inl e => inl e
  | inr b =>
      match b !! "hasOwnProperty" with
      | Some _ => inl (new_Error stack "req.body.hasOwnProperty is not a function")
      | None =>
          match b !! key with
          | Some _ => inr (delete key b)
          | None => inr b
          end
      end
  end.

(** [Object.keys(req.body)] *)
Definition object_keys (b : gmap string jsval) : list string := (map_to_list b).*1.

(** One round of the second loop. *)
Definition trim_field (b : gmap string jsval) (key : string) : gmap string jsval :=
  match b !! key with
  | Some (JStr s) => <[key := JStr (trim s)]> b
  | _ => b
  end.

Definition sanitizeRequestBody (body : option (gmap string jsval))
    : outcome (option (gmap string jsval)) :=
  match body with
  | None => Next None
  | Some b =>
      match foldl remove_dangerous (inr b) dangerousKeys with
      | inl e => Thrown e
      | inr b1 => Next (Some (foldl trim_field b1 (object_keys b1)))
      end
  end.
(** The middleware [validateFileUpload(fileType)] returns; when it passes
    the request on it has set [req.fileType], the value of [Next]. *)
Definition validateFileUpload (fileType : string) (f : option file) : outcome string :=
  match f with
  | None =>
      Responded (sendValidationError now
                   (JStr (fileType ++ " file is required for this endpoint")) JUndefined)
  | Some _ => Next fileType
  end.

(** [contentType] is [req.get('Content-Type')]: a string, or [undefined]
    ([None]) when the header is missing. *)
Definition validateContentType (contentType : option string) : outcome unit :=
  match contentType with
  | None =>
      Responded (sendValidationError now
                   (JStr "Content-Type must be multipart/form-data for file uploads")
                   JUndefined)
  | Some s =>
      if negb (truthy (JStr s)) || negb (str_includes s "multipart/form-data") then
        Responded (sendValidationError now
                     (JStr "Content-Type must be multipart/form-data for file uploads")
                     JUndefined)
      else Next tt
  end.

End WithClock.

(** *** The rate limiter *)

Record entry : Type := mkEntry { count : Z; resetTime : Z }.

(** The closure [createRateLimiter] returns: its two parameters and the
    [requests] map it owns. Client ids are strings or [undefined]
    ([None]). *)
Record limiter : Type := mkLimiter {
  maxRequests : Z;
  timeWindow : Z;
  requests : gmap (option string) entry
}.

Definition createRateLimiter (maxRequests timeWindow : Z) : limiter :=
  {| maxRequests := maxRequests; timeWindow := timeWindow; requests := ∅ |}.

(** [createRateLimiter()] with its default parameters. *)
Definition createRateLimiter_default : limiter :=
  createRateLimiter 100 (15 * 60 * 1000).

(** [req.ip || req.connection.remoteAddress] *)
Definition clientId (ip remoteAddress : option string) : option string :=
  match ip with
  | Some s => if String.eqb s "" then remoteAddress else Some s
  | None => remoteAddress
  end.

Section Gate.
(** [new Date(t).toISOString()] *)
Variable toISOString : Z -> string.

(** One call of the returned middleware at time [now = Date.now()]. *)
Definition rateLimiter (l : limiter) (ip remoteAddress : option string) (now : Z)
    : limiter * outcome unit :=
  let clientId := clientId ip remoteAddress in
  match requests l !! clientId with
  | None =>
      ({| maxRequests := maxRequests l; timeWindow := timeWindow l;
          requests := <[clientId := {| count := 1; resetTime := now + timeWindow l |}]>
                        (requests l) |},
       Next tt)
  | Some clientData =>
      if (now >? resetTime clientData)%Z then
        ({| maxRequests := maxRequests l; timeWindow := timeWindow l;
            requests := <[clientId := {| count := 1; resetTime := now + timeWindow l |}]>
                          (requests l) |},
         Next tt)
      else if (count clientData >=? maxRequests l)%Z then
        (l, Responded (sendValidationError (toISOString now)
                         (JStr "Too many requests. Please try again later.")
                         (JNum 429)))
      else
        ({| maxRequests := maxRequests l; timeWindow := timeWindow l;
            requests := <[clientId := {| count := count clientData + 1;
                                         resetTime := resetTime clientData |}]>
                          (requests l) |},
         Next tt)
  end.

(** A client calling at the given times, one call after the other; the
    outcomes are listed in call order. *)
Fixpoint calls (l : limiter) (ip remoteAddress : option string) (times : list Z)
    : limiter * list (outcome unit) :=
  match times with
  | [] => (l, [])
  | now :: rest =>
      let '(l1, o) := rateLimiter l ip remoteAddress now in
      let '(l2, os) := calls l1 ip remoteAddress rest in
      (l2, o :: os)
  end.
(** One request as the limiter sees it. *)
Record call : Type := mkCall {
  call_ip : option string;
  call_remoteAddress : option string;
  call_time : Z
}.

(** The limiter serving the requests of any clients, in arrival order. *)
Fixpoint serve (l : limiter) (reqs : list call) : limiter * list (outcome unit) :=
  match reqs with
  | [] => (l, [])
  | c :: rest =>
      let '(l1, o) := rateLimiter l (call_ip c) (call_remoteAddress c) (call_time c) in
      let '(l2, os) := serve l1 rest in
      (l2, o :: os)
  end.

End Gate.

End Middleware.
Import Middleware.

(** ** modules/genAI/controller.js *)

Module Controller.

(** What a handler does that can be observed: log lines, the encoding of
    the upload, calls of the upstream service, and the response. *)
Inductive event : Type :=
| Log (level endpoint : string) (detail : jsval)
| ConsoleError (e : js_error)
| Encode (f : option file)
| Upstream (prompt : string) (payload : option fileData)
| Respond (r : response).

(** Handlers run in a monad that records events in order and may throw. *)
Definition M (A : Type) : Type := (list event * (js_error + A))%type.

Definition ret {A} (a : A) : M A := ([], inr a).
Definition throw {A} (e : js_error) : M A := ([], inl e).
Definition emit (ev : event) : M unit := ([ev], inr tt).

Definition bind {A B} (m : M A) (k : A -> M B) : M B :=
  match m with
  | (t, inl e) => (t, inl e)
  | (t, inr a) => let '(t', r) := k a in ((t ++ t')%list, r)
  end.

(** [try { m } catch (error) { h error }] *)
Definition try_catch {A} (m : M A) (h : js_error -> M A) : M A :=
  match m with
  | (t, inl e) => let '(t', r) := h e in ((t ++ t')%list, r)
  | (t, inr a) => (t, inr a)
  end.

(** A function that may [throw], run inside a handler. *)
Definition lift {A} (r : js_error + A) : M A := ([], r).

Declare Scope handler_scope.
Notation "x <- m ;; k" := (bind m (fun x => k))
  (at level 100, m at next level, k at level 200, right associativity) : handler_scope.
Notation "m ;; k" := (bind m (fun _ => k))
  (at level 100, k at level 200, right associativity) : handler_scope.
Local Open Scope handler_scope.

(** The events of a run. *)
Definition trace {A} (m : M A) : list event := fst m.

Record request : Type := mkRequest {
  body : option (gmap string jsval);
  upload : option file          (* req.file *)
}.

Section Handlers.
(** [process.env.NODE_ENV] *)
Variable NODE_ENV : jsval.
(** [new Date().toISOString()] *)
Variable now : string.
Variable stack : string -> jsval.
Variable base64 : string -> string.
Variable formatFileSize : jsval -> jsval.
(** services/geminiService.js: the upstream collaborator. *)
Variable generateText : string -> js_error + jsval.
Variable generateFromFile : string -> fileData -> js_error + jsval.

(** utils/logger.js [logRequest]: reads [req.body.prompt], which throws
    when the body is [undefined]. *)
Definition logRequest (req : request) (endpoint : string) (fileType : jsval)
    : M unit :=
  match body req with
  | None =>
      throw (new_Error stack "Cannot read properties of undefined (reading 'prompt')")
  | Some _ => emit (Log "REQUEST" endpoint fileType)
  end.

Definition logValidationError (endpoint : string) (validationError : jsval) : M unit :=
  emit (Log "VALIDATION_ERROR" endpoint validationError).

Definition logSuccess (endpoint : string) : M unit :=
  emit (Log "SUCCESS" endpoint JUndefined).

Definition logError (endpoint : string) (error : js_error) : M unit :=
  emit (Log "ERROR" endpoint (err_message error)).

(** [callGeminiAPI], behind [withPerformanceMonitoring], which only logs
    the duration and re-throws. *)
Definition callGeminiAPI (prompt : string) (payload : option fileData) : M jsval :=
  emit (Upstream prompt payload) ;;
  try_catch
    (match payload with
     | Some fd => lift (generateFromFile prompt fd)
     | None => lift (generateText prompt)
     end)
    (fun error =>
       match to_string (err_message error) with
       | Some message => throw (new_Error stack ("Gemini API Error: " ++ message))
       | None => throw (new_Error stack "Cannot convert object to primitive value")
       end).

(** [x.length] throws on [undefined] and on [null], each with its own
    message. *)
Definition length_of (v : jsval) : M unit :=
  match v with
  | JUndefined =>
      throw (new_Error stack "Cannot read properties of undefined (reading 'length')")
  | JNull =>
      throw (new_Error stack "Cannot read properties of null (reading 'length')")
  | _ => ret tt
  end.

Definition internalServerError (error : js_error) (customMessage : jsval) : M unit :=
  let '(logged, r) := sendInternalServerError now NODE_ENV error customMessage in
  emit (ConsoleError logged) ;; emit (Respond r).

Definition handleFileRequest (req : request) (endpoint fileType : string) : M unit :=
  try_catch
    (logRequest req endpoint (JStr fileType) ;;
     let prompt :=
       match body req with
       | Some b => get b "prompt"
       | None => JUndefined           (* req.body || {} *)
       end in
     match prompt with
     | JStr p =>
         if String.eqb (trim p) "" then
           throw (new_Error stack "Valid prompt is required")
         else
           let validation := validateFile (upload req) fileType in
           if negb (isValid validation) then
             logValidationError endpoint (error validation) ;;
             emit (Respond (sendValidationError now (error validation) JUndefined))
           else
             emit (Encode (upload req)) ;;
             payload <- lift (prepareFileForAPI base64 stack (upload req)) ;;
             generatedText <- callGeminiAPI (trim p) (Some payload) ;;
             let meta := formatFileMetadata formatFileSize now (upload req) in
             length_of generatedText ;;
             logSuccess endpoint ;;
             emit (Respond (sendSuccessResponse now generatedText
                              (JStr ("Content generated successfully from " ++ fileType))
                              meta JUndefined))
     | _ =>
         (* !prompt || typeof prompt !== 'string' *)
         throw (new_Error stack "Valid prompt is required")
     end)
    (fun error =>
       logError endpoint error ;;
       internalServerError error
         (JStr ("Failed to generate content from " ++ fileType))).

(** [Object.entries(x)] of what [getFileTypeConfig] returns: [null]
    throws; a [FileTypeSpec] lists its five fields. *)
Definition Object_entries (config : option FileTypeSpec)
    : js_error + list (string * jsval) :=
  match config with
  | None => inl (new_Error stack "Cannot convert undefined or null to object")
  | Some c =>
      inr [("name", JStr (name c));
           ("maxSize", JNum (maxSize c));
           ("allowedMimeTypes", JArr (map JStr (allowedMimeTypes c)));
           ("fieldName", JStr (fieldName c));
           ("errorMessage", JStr (errorMessage c))]
  end.

(** [config.key] on an entry's value. *)
Definition field (config : jsval) (key : string) : jsval :=
  match config with
  | JObj props =>
      match List.find (fun kv => String.eqb (fst kv) key) props with
      | Some kv => snd kv
      | None => JUndefined
      end
  | _ => JUndefined
  end.

(** [Math.round(v / (1024 * 1024))]; dividing [undefined] gives [NaN]. *)
Definition round_MB (v : jsval) : jsval :=
  match v with
  | JNum z => JNum (Math_round_div z (1024 * 1024))
  | _ => JNaN
  end.

Definition getSupportedFileTypes : M unit :=
  try_catch
    (entries <- lift (Object_entries (getFileTypeConfig JUndefined)) ;;
     let fileTypesInfo :=
       map (fun '(key, config) =>
              JObj [("type", JStr (toLowerCase key));
                    ("name", field config "name");
                    ("maxSize", field config "maxSize");
                    ("maxSizeMB", round_MB (field config "maxSize"));
                    ("allowedMimeTypes", field config "allowedMimeTypes");
                    ("fieldName", field config "fieldName")])
           entries in
     emit (Respond (sendSuccessResponse now (JArr fileTypesInfo)
                      (JStr "Supported file types retrieved successfully")
                      JUndefined JUndefined)))
    (fun error =>
       internalServerError error (JStr "Failed to retrieve file types information")).

Definition handleTextRequest (req : request) (endpoint : string) : M unit :=
  try_catch
    (logRequest req endpoint JNull ;;
     let prompt :=
       match body req with
       | Some b => get b "prompt"
       | None => JUndefined           (* req.body || {} *)
       end in
     match prompt with
     | JStr p =>
         if String.eqb (trim p) "" then
           throw (new_Error stack "Valid prompt is required")
         else
           generatedText <- callGeminiAPI (trim p) None ;;
           length_of generatedText ;;
           logSuccess endpoint ;;
           emit (Respond (sendSuccessResponse now generatedText
                            (JStr "Content generated successfully")
                            JUndefined JUndefined))
     | _ =>
         (* !prompt || typeof prompt !== 'string' *)
         throw (new_Error stack "Valid prompt is required")
     end)
    (fun error =>
       logError endpoint error ;;
       internalServerError error (JStr "Failed to generate content")).

(** [handleGenerateRequest] and the four upload handlers. *)
Definition handleGenerateRequest (req : request) : M unit :=
  handleTextRequest req "generate-text".
Definition generateImage (req : request) : M unit :=
  handleFileRequest req "generate-from-image" "image".
Definition generateDocument (req : request) : M unit :=
  handleFileRequest req "generate-from-document" "document".
Definition generateAudio (req : request) : M unit :=
  handleFileRequest req "generate-from-audio" "audio".
Definition generateVideo (req : request) : M unit :=
  handleFileRequest req "generate-from-video" "video".

End Handlers.

(** The responses sent in a run, in order. *)
Fixpoint responses (t : list event) : list response :=
  match t with
  | [] => []
  | Respond r :: t' => r :: responses t'
  | _ :: t' => responses t'
  end.

(** Whether a run encodes the upload or calls the upstream service. *)
Definition is_upstream_work (ev : event) : bool :=
  match ev with
  | Encode _ | Upstream _ _ => true
  | _ => false
  end.

End Controller.
Import Controller.

(** ** services/geminiService.js *)

Module GeminiService.

Section Upstream.
Variable stack : string -> jsval.
(** [ai.models.generateContent({model, contents})] followed by reading
    [response.text]: the external service. *)
Variable generateContent : jsval -> js_error + jsval.

Definition generateText (prompt : string) : js_error + jsval :=
  if negb (truthy (JStr prompt)) then inl (new_Error stack "Prompt cannot be empty.")
  else generateContent (JStr prompt).

Definition generateFromFile (prompt : string) (fd : fileData) : js_error + jsval :=
  let contents :=
    JArr [JObj [("role", JStr "user");
                ("parts",
                 JArr [JObj [("text", JStr prompt)];
                       JObj [("inlineData",
                              JObj [("mimeType", mimeType fd);
                                    ("data", JStr (FileValidation.data fd))])]])]] in
  generateContent contents.
End Upstream.

(** *** The conversation with a persistent history *)

(** The module state: [conversationHistory] and [isPersonalitySet]. *)
Record chat_state : Type := mkChat {
  conversationHistory : list jsval;
  isPersonalitySet : bool
}.

Definition initial_chat : chat_state :=
  {| conversationHistory := []; isPersonalitySet := false |}.

Definition clearConversationHistory (st : chat_state) : chat_state :=
  {| conversationHistory := []; isPersonalitySet := false |}.

(** A copy of the history. *)
Definition getConversationHistory (st : chat_state) : list jsval :=
  conversationHistory st.

(** A history entry [{role, parts}]. *)
Definition history_entry (role : string) (parts : list jsval) : jsval :=
  JObj [("role", JStr role); ("parts", JArr parts)].

Definition greeting : jsval :=
  history_entry "model"
    [JObj [("text", JStr "Halo! Saya Neng AI, seorang asisten virtual yang ramah dari Sunda. Saya siap membantu Anda dengan berbagai pertanyaan dan tugas. Bagaimana saya bisa membantu Anda hari ini?")]].

Definition initializePersonality (st : chat_state) : chat_state :=
  if negb (isPersonalitySet st) && (Nat.eqb (length (conversationHistory st)) 0)
  then {| conversationHistory := conversationHistory st ++ [greeting];
          isPersonalitySet := true |}
  else st.

(** [obj.key] where [obj] is any value: a property of an object,
    [undefined] on other values. *)
Definition prop (obj : jsval) (key : string) : jsval :=
  match obj with
  | JObj props =>
      match List.find (fun kv => String.eqb (fst kv) key) props with
      | Some kv => snd kv
      | None => JUndefined
      end
  | _ => JUndefined
  end.

Section Conversation.
Variable stack : string -> jsval.
(** [ai.models.generateContent({model, contents, systemInstruction})]: the
    response object, or a failure. *)
Variable generateContent : list jsval -> js_error + jsval.

(** The entry one message of the payload becomes. Reading [.role] of an
    [undefined] or [null] message throws, and so does reading [.file] of an
    [undefined] or [null] content. *)
Definition entry_of_message (message : jsval) : js_error + jsval :=
  match message with
  | JUndefined =>
      inl (new_Error stack "Cannot read properties of undefined (reading 'role')")
  | JNull => inl (new_Error stack "Cannot read properties of null (reading 'role')")
  | _ =>
      let role := match prop message "role" with
                  | JStr r => if String.eqb r "user" then "user" else "model"
                  | _ => "model"
                  end in
      let content := prop message "content" in
      match content with
      | JStr text => inr (history_entry role [JObj [("text", content)]])
      | JUndefined =>
          inl (new_Error stack "Cannot read properties of undefined (reading 'file')")
      | JNull => inl (new_Error stack "Cannot read properties of null (reading 'file')")
      | _ =>
          if truthy (prop content "file") then
            inr (history_entry role
                   ((if truthy (prop content "text")
                     then [JObj [("text", prop content "text")]] else [])
                    ++ [JObj [("inlineData",
                               JObj [("mimeType", prop (prop content "file") "mimeType");
                                     ("data", prop (prop content "file") "data")])]]))
          else if truthy (prop content "text") then
            inr (history_entry role [JObj [("text", prop content "text")]])
          else inr (history_entry role [])
      end
  end.

(** [payload.forEach(...)]: entries are pushed one by one until a message
    throws. *)
Fixpoint push_messages (history : list jsval) (payload : list jsval)
    : list jsval * option js_error :=
  match payload with
  | [] => (history, None)
  | message :: rest =>
      match entry_of_message message with
      | inl e => (history, Some e)
      | inr entry => push_messages (history ++ [entry]) rest
      end
  end.

(** [conversation(payload)]: the new state and the returned text or the
    re-thrown error. A failure of the external call is logged and swallowed,
    after which reading [response.text] of the unset [response] throws. *)
Definition conversation (st : chat_state) (payload : list jsval)
    : chat_state * (js_error + jsval) :=
  let st1 := initializePersonality st in
  match push_messages (conversationHistory st1) payload with
  | (h, Some e) =>
      ({| conversationHistory := h; isPersonalitySet := isPersonalitySet st1 |}, inl e)
  | (h, None) =>
      let response :=
        match generateContent h with
        | inr response => response
        | inl _ => JUndefined
        end in
      match response with
      | JUndefined =>
          ({| conversationHistory := h; isPersonalitySet := isPersonalitySet st1 |},
           inl (new_Error stack "Cannot read properties of undefined (reading 'text')"))
      | JNull =>
          ({| conversationHistory := h; isPersonalitySet := isPersonalitySet st1 |},
           inl (new_Error stack "Cannot read properties of null (reading 'text')"))
      | _ =>
          let aiResponse := prop response "text" in
          ({| conversationHistory :=
                h ++ [history_entry "model" [JObj [("text", aiResponse)]]];
              isPersonalitySet := isPersonalitySet st1 |},
           inr aiResponse)
      end
  end.

(** [conversation] is an async function: a call runs up to the [await]
    of the external call and resumes when that call settles; other calls of
    the module may run in between.

    [conversation_start]: a call up to its [await]. The result is the state
    at that point with the contents handed to the external call, or with the
    error re-thrown when a message of the payload throws. *)
Definition conversation_start (st : chat_state) (payload : list jsval)
    : chat_state * (js_error + list jsval) :=
  let st1 := initializePersonality st in
  match push_messages (conversationHistory st1) payload with
  | (h, Some e) =>
      ({| conversationHistory := h; isPersonalitySet := isPersonalitySet st1 |}, inl e)
  | (h, None) =>
      ({| conversationHistory := h; isPersonalitySet := isPersonalitySet st1 |}, inr h)
  end.

(** [conversation_resume]: the same call from its [await] on, in the state
    the module has when the external call has settled with [settled]. *)
Definition conversation_resume (st : chat_state) (settled : js_error + jsval)
    : chat_state * (js_error + jsval) :=
  let response :=
    match settled with
    | inr response => response
    | inl _ => JUndefined
    end in
  match response with
  | JUndefined =>
      (st, inl (new_Error stack "Cannot read properties of undefined (reading 'text')"))
  | JNull =>
      (st, inl (new_Error stack "Cannot read properties of null (reading 'text')"))
  | _ =>
      let aiResponse := prop response "text" in
      ({| conversationHistory :=
            conversationHistory st ++ [history_entry "model" [JObj [("text", aiResponse)]]];
          isPersonalitySet := isPersonalitySet st |},
       inr aiResponse)
  end.

(** The steps of a run of the module: a call of [conversation] runs up to
    its [await]; the external call of a suspended [conversation] settles and
    that call runs to its end; [clearConversationHistory] is called. *)
Inductive chat_op : Type :=
| Call (payload : list jsval)
| Settle (settled : js_error + jsval)
| Clear.

(** A run: the module state and the number of suspended calls. A call whose
    payload throws is over at once; [Settle] needs a suspended call and is
    skipped when there is none. *)
Fixpoint run_chat (st : chat_state) (pending : nat) (ops : list chat_op)
    : chat_state * nat :=
  match ops with
  | [] => (st, pending)
  | Call payload :: rest =>
      match conversation_start st payload with
      | (st', inl _) => run_chat st' pending rest
      | (st', inr _) => run_chat st' (S pending) rest
      end
  | Settle settled :: rest =>
      match pending with
      | O => run_chat st O rest
      | S pending' => run_chat (fst (conversation_resume st settled)) pending' rest
      end
  | Clear :: rest => run_chat (clearConversationHistory st) pending rest
  end.
End Conversation.

End GeminiService.

(** ** utils/logger.js *)

Module Logger.

(** The object [logError] hands to [console.error]. [errorType] is
    [error.constructor.name]; [additionalInfo] is spread last and wins over
    the fixed keys; the stack is added afterwards in development. *)
Definition logError (NODE_ENV : jsval) (now : string) (endpoint : string)
    (error : js_error) (errorType : jsval) (additionalInfo : gmap string jsval)
    : gmap string jsval :=
  let fixed : gmap string jsval :=
    <["timestamp" := JStr now]>
      (<["endpoint" := JStr endpoint]>
         (<["status" := JStr "ERROR"]>
            (<["errorMessage" := err_message error]>
               (<["errorType" := errorType]> ∅)))) in
  let errorInfo := additionalInfo ∪ fixed in
  match NODE_ENV with
  | JStr s => if String.eqb s "development"
              then <["stack" := err_stack error]> errorInfo
              else errorInfo
  | _ => errorInfo
  end.

(** The context the two handlers pass to [logError]. *)
Definition handler_context (promptLength fileName fileSize : jsval) : gmap string jsval :=
  <["promptLength" := promptLength]>
    (<["fileName" := fileName]> (<["fileSize" := fileSize]> ∅)).

End Logger.

(** ** modules/genAI/API.js *)

Module Routes.

(** Errors on the upload path: those multer raises ([instanceof
    multer.MulterError], with a [code]) and plain ones. *)
Record upload_error : Type := mkUploadError {
  isMulterError : bool;
  error_code : jsval;
  error_message : string
}.

(** A response written without the response utilities (no timestamp). *)
Record direct_response : Type := mkDirect {
  direct_status : Z;
  direct_json : list (string * jsval)
}.

(** The [fileFilter] of [createUploadConfig(fileTypeConfig)]:
    [cb(null, true)] or [cb(new Error(errorMessage), false)]. *)
Definition fileFilter (fileTypeConfig : FileTypeSpec) (f : file) : upload_error + unit :=
  if includes (allowedMimeTypes fileTypeConfig) (mimetype f) then inr tt
  else inl {| isMulterError := false; error_code := JUndefined;
              error_message := errorMessage fileTypeConfig |}.

(** What an error-handling middleware does: answer, or [next(error)]. *)
Inductive error_outcome : Type :=
| Answered (r : direct_response)
| Forwarded (e : upload_error).

Definition code_is (e : upload_error) (c : string) : bool :=
  match error_code e with
  | JStr s => String.eqb s c
  | _ => false
  end.

Definition handleMulterError (e : upload_error) : error_outcome :=
  if isMulterError e && code_is e "LIMIT_FILE_SIZE" then
    Answered {| direct_status := 400;
                direct_json := [("status", JBool false); ("code", JNum 400);
                                ("message", JStr "File size exceeds the allowed limit");
                                ("errors", JStr (error_message e))] |}
  else if isMulterError e && code_is e "LIMIT_FILE_COUNT" then
    Answered {| direct_status := 400;
                direct_json := [("status", JBool false); ("code", JNum 400);
                                ("message", JStr "Too many files uploaded");
                                ("errors", JStr (error_message e))] |}
  else if str_includes (error_message e) "Only"
          && str_includes (error_message e) "files are allowed" then
    Answered {| direct_status := 400;
                direct_json := [("status", JBool false); ("code", JNum 400);
                                ("message", JStr (error_message e));
                                ("errors", JStr "Invalid file type")] |}
  else Forwarded e.

(** The router's last middleware: any error that reaches it. *)
Definition globalErrorHandler (NODE_ENV : jsval) (message : jsval) : direct_response :=
  {| direct_status := 500;
     direct_json := [("status", JBool false); ("code", JNum 500);
                     ("message", JStr "Internal server error");
                     ("errors",
                      match NODE_ENV with
                      | JStr s => if String.eqb s "development" then message
                                  else JStr "Something went wrong"
                      | _ => JStr "Something went wrong"
                      end)] |}.

(** How a request to a route ends. *)
Inductive route_result : Type :=
| ByMiddleware (r : response)
| ByErrorHandler (r : direct_response)
| ByHandler (t : list event).

Section TextRoute.
Variable NODE_ENV : jsval.
Variable toISOString : Z -> string.
Variable now : string.
Variable stack : string -> jsval.
Variable generateText : string -> js_error + jsval.
Variable generateFromFile : string -> fileData -> js_error + jsval.

(** [POST /generate-text]: [rateLimiter], [sanitizeRequestBody],
    [validatePrompt], [handleGenerateRequest]. An error thrown by a
    middleware goes to the router's error handler. *)
Definition post_generate_text (l : limiter) (ip remoteAddress : option string)
    (at_ms : Z) (body : option (gmap string jsval)) : limiter * route_result :=
  match rateLimiter toISOString l ip remoteAddress at_ms with
  | (l', Responded r) => (l', ByMiddleware r)
  | (l', Thrown e) => (l', ByErrorHandler (globalErrorHandler NODE_ENV (err_message e)))
  | (l', Next _) =>
      match sanitizeRequestBody stack body with
      | Responded r => (l', ByMiddleware r)
      | Thrown e => (l', ByErrorHandler (globalErrorHandler NODE_ENV (err_message e)))
      | Next body1 =>
          match validatePrompt now stack body1 with
          | Responded r => (l', ByMiddleware r)
          | Thrown e => (l', ByErrorHandler (globalErrorHandler NODE_ENV (err_message e)))
          | Next b2 =>
              (l', ByHandler
                     (trace (handleGenerateRequest NODE_ENV now stack
                               generateText generateFromFile
                               {| body := Some b2; upload := None |})))
          end
      end
  end.
End TextRoute.

End Routes.
Import Routes.

(** ** Vocabulary of the statements *)

(** Envelopes compared apart from their timestamp. *)
Definition erase_timestamp (e : envelope) : envelope :=
  {| status := status e; code := code e; message := ResponseHandler.message e;
     ResponseHandler.data := ResponseHandler.data e; meta := meta e;
     errors := errors e; timestamp := "" |}.

(** The specs the registry holds. *)
Definition registry_specs : list FileTypeSpec := [IMAGE; DOCUMENT; AUDIO; VIDEO].

(** The four categories as the routes name them, each with its registry
    entry, its ceiling in bytes and the message for a file above it. *)
Definition categories : list (string * FileTypeSpec * Z * string) :=
  [("image", IMAGE, 10485760%Z, "File size exceeds 10MB limit");
   ("document", DOCUMENT, 52428800%Z, "File size exceeds 50MB limit");
   ("audio", AUDIO, 104857600%Z, "File size exceeds 100MB limit");
   ("video", VIDEO, 209715200%Z, "File size exceeds 200MB limit")].

(** A name with its letters a-z turned into A-Z and every other code unit
    kept: two names with the same folding differ at most in the case of
    these letters. *)
Definition fold_letter (a : ascii) : ascii :=
  let n := N_of_ascii a in
  if ((97 <=? n) && (n <=? 122))%N then ascii_of_N (n - 32) else a.

Definition fold_letters : string -> string := map_string fold_letter.

(** ['a'] followed by 10000 spaces: one character once trimmed. *)
Definition padded_prompt : string := String "a" (repeat_char " " (Z.to_nat 10000)).

(** What the second loop does to one value. *)
Definition trim_value (v : jsval) : jsval :=
  match v with
  | JStr s => JStr (trim s)
  | _ => v
  end.

(** The limiter with the entry of one client replaced. *)
Definition set_entry (l : limiter) (cid : option string) (e : entry) : limiter :=
  {| maxRequests := maxRequests l; timeWindow := timeWindow l;
     requests := <[cid := e]> (requests l) |}.

(** The rejection the rate limiter sends at time [u]. *)
Definition tooMany (toISOString : Z -> string) (u : Z) : response :=
  sendValidationError (toISOString u)
    (JStr "Too many requests. Please try again later.") (JNum 429).

(** A run that neither encodes the upload nor calls the upstream service. *)
Definition no_upstream_work (t : list event) : Prop :=
  Forall (fun ev => is_upstream_work ev = false) t.

(** The client a request is counted for. *)
Definition client_of (c : call) : option string :=
  clientId (call_ip c) (call_remoteAddress c).

(** Of the outcomes of a run, those of the requests of client [k]. *)
Fixpoint outcomes_for (k : option string) (reqs : list call)
    (outs : list (outcome unit)) : list (outcome unit) :=
  match reqs, outs with
  | c :: reqs', o :: outs' =>
      if decide (client_of c = k) then o :: outcomes_for k reqs' outs'
      else outcomes_for k reqs' outs'
  | _, _ => []
  end.

(** Every stored count is at least 1 and at most the ceiling (at most 1 when
    the ceiling is below 1). *)
Definition counts_bounded (l : limiter) : Prop :=
  forall k e, requests l !! k = Some e ->
    (1 <= count e <= Z.max 1 (maxRequests l))%Z.


(** The upstream calls of a run. *)
Fixpoint upstream_calls (t : list event) : list (string * option fileData) :=
  match t with
  | [] => []
  | Upstream prompt payload :: t' => (prompt, payload) :: upstream_calls t'
  | _ :: t' => upstream_calls t'
  end.

(** The error [callGeminiAPI] throws for a failure [e] of the upstream
    service: [e]'s message behind a prefix, or the TypeError of the template
    literal when that message has no string conversion. *)
Definition rethrown (stack : string -> jsval) (e : js_error) : js_error :=
  match to_string (err_message e) with
  | Some text => new_Error stack ("Gemini API Error: " ++ text)
  | None => new_Error stack "Cannot convert object to primitive value"
  end.

(** Two upstream results that are both failures, or the same text. *)
Definition same_text (r1 r2 : js_error + jsval) : Prop :=
  match r1, r2 with
  | inl _, inl _ => True
  | inr v1, inr v2 => v1 = v2
  | _, _ => False
  end.

(** A history entry whose role is one of the two the upstream service
    accepts. *)
Definition entry_role_ok (entry : jsval) : Prop :=
  GeminiService.prop entry "role" = JStr "user" \/
  GeminiService.prop entry "role" = JStr "model".

(** What holds of the conversation state at every moment: a set flag means
    the history starts with the greeting, and every entry has a valid
    role. *)
Definition history_ok (st : GeminiService.chat_state) : Prop :=
  (GeminiService.isPersonalitySet st = true ->
     exists rest, GeminiService.conversationHistory st = GeminiService.greeting :: rest) /\
  Forall entry_role_ok (GeminiService.conversationHistory st).

(** What holds in addition between calls that do not overlap: the flag is
    unset only over an empty history. *)
Definition chat_invariant (st : GeminiService.chat_state) : Prop :=
  (GeminiService.isPersonalitySet st = false -> GeminiService.conversationHistory st = []) /\
  history_ok st.

(** Callers that wait for each call to return before the next step: a
    whole call of [conversation] with the outcome of its external call, or a
    call of [clearConversationHistory]. *)
Inductive chat_use : Type :=
| Converse (payload : list jsval) (settled : js_error + jsval)
| Reset.

Definition one_at_a_time (uses : list chat_use) : list GeminiService.chat_op :=
  flat_map (fun u => match u with
                     | Converse payload settled =>
                         [GeminiService.Call payload; GeminiService.Settle settled]
                     | Reset => [GeminiService.Clear]
                     end) uses.

(** * Properties *)

(** ** The response formatter *)

Section ResponseFormatter.
Variable now : string.

Lemma default_truthy (v d : jsval) :
  truthy d = false -> truthy (default v d) = truthy v.
Proof. destruct v; simpl; auto. Qed.

Lemma default_of_truthy (v d : jsval) : truthy v = true -> default v d = v.
Proof. destruct v; simpl; auto; discriminate. Qed.

(** An error envelope copies the status code into both places and keeps
    [errors] only when it is truthy. *)
Lemma sendErrorResponse_fields (message statusCode errs : jsval) :
  let r := sendErrorResponse now message statusCode errs in
  http_status r = default statusCode (JNum 500) /\
  code (json r) = default statusCode (JNum 500) /\
  status (json r) = false /\
  ResponseHandler.message (json r) = message /\
  errors (json r) = (if truthy errs then Some errs else None).
Proof.
  cbn. repeat split.
  rewrite default_truthy by reflexivity.
  destruct (truthy errs) eqn:E; [rewrite default_of_truthy|]; auto.
Qed.

(** C8 (as amended): the success envelope has status true, the given
    status code (200 when none is given) both as HTTP status and as [code],
    always a [data] key, never an [errors] key, and a [meta] key exactly
    when the meta argument is truthy: present for every object, absent for
    [null] and [undefined]. *)
Theorem sendSuccessResponse_envelope (d message m statusCode : jsval) :
  let r := sendSuccessResponse now d message m statusCode in
  status (json r) = true /\
  code (json r) = default statusCode (JNum 200) /\
  http_status r = default statusCode (JNum 200) /\
  ResponseHandler.data (json r) = Some d /\
  errors (json r) = None /\
  (is_Some (meta (json r)) <-> truthy m = true) /\
  (truthy m = true -> meta (json r) = Some m) /\
  (forall props, m = JObj props -> meta (json r) = Some m) /\
  (m = JNull \/ m = JUndefined -> meta (json r) = None).
Proof.
  cbn. rewrite default_truthy by reflexivity.
  repeat split.
  - destruct (truthy m); [reflexivity | intros [x Hx]; discriminate].
  - intros ->. eauto.
  - intros Hm. rewrite Hm, default_of_truthy; auto.
  - intros props ->. reflexivity.
  - intros [-> | ->]; reflexivity.
Qed.

(** C8, the claim as stated fails: a meta argument that is not [null] but
    falsy ([0], the empty string, [false]) leaves the envelope without a
    [meta] key. *)
Lemma sendSuccessResponse_falsy_meta_omitted :
  (JNum 0 <> JNull /\
   meta (json (sendSuccessResponse "2025-10-15T10:30:00.000Z" (JStr "text")
                 (JStr "Success") (JNum 0) (JNum 200))) = None) /\
  (JStr "" <> JNull /\
   meta (json (sendSuccessResponse "2025-10-15T10:30:00.000Z" (JStr "text")
                 (JStr "Success") (JStr "") (JNum 200))) = None) /\
  (JBool false <> JNull /\
   meta (json (sendSuccessResponse "2025-10-15T10:30:00.000Z" (JStr "text")
                 (JStr "Success") (JBool false) (JNum 200))) = None).
Proof. repeat split; discriminate. Qed.

(** C10: whatever its arguments, [sendValidationError] answers with HTTP
    status 400 and envelope code 400; its last argument only ever reaches
    the [errors] field, and only when it is truthy. *)
Theorem sendValidationError_always_400 (message validationErrors : jsval) :
  let r := sendValidationError now message validationErrors in
  http_status r = JNum 400 /\
  code (json r) = JNum 400 /\
  status (json r) = false /\
  ResponseHandler.message (json r) = message /\
  errors (json r) = (if truthy validationErrors then Some validationErrors else None).
Proof.
  unfold sendValidationError.
  destruct (sendErrorResponse_fields message (JNum 400) (default validationErrors JNull))
    as (H1 & H2 & H3 & H4 & H5).
  cbv zeta. rewrite H1, H2, H3, H4, H5. repeat split.
  rewrite default_truthy by reflexivity.
  destruct (truthy validationErrors) eqn:E; [rewrite default_of_truthy|]; auto.
Qed.

End ResponseFormatter.

Section InternalErrors.
Variables now1 now2 : string.
Variable NODE_ENV : jsval.

(** C6: the internal-error responder always answers 500 with the caller's
    public message; the [errors] field carries the error's raw message and
    stack exactly when [NODE_ENV] is ['development'], and is the fixed
    opaque string otherwise, so that outside development two different
    errors give envelopes that agree on everything but the timestamp. *)
Theorem sendInternalServerError_leak_boundary (e1 e2 : js_error) (m : jsval) :
  let r1 := snd (sendInternalServerError now1 NODE_ENV e1 m) in
  let r2 := snd (sendInternalServerError now2 NODE_ENV e2 m) in
  http_status r1 = JNum 500 /\
  code (json r1) = JNum 500 /\
  status (json r1) = false /\
  ResponseHandler.message (json r1) = default m (JStr "Internal server error") /\
  (errors (json r1)
     = Some (JObj [("message", err_message e1); ("stack", err_stack e1)])
   <-> NODE_ENV = JStr "development") /\
  (NODE_ENV <> JStr "development" ->
     errors (json r1) = Some (JStr "Internal server error occurred") /\
     http_status r1 = http_status r2 /\
     erase_timestamp (json r1) = erase_timestamp (json r2)).
Proof.
  cbn.
  assert (Hdev : forall s, String.eqb s "development" = true <-> JStr s = JStr "development").
  { intros s. rewrite String.eqb_eq. split; [intros -> | intros [= ->]]; reflexivity. }
  repeat split.
  - destruct NODE_ENV as [| | | | |s| |]; try discriminate.
    destruct (String.eqb s "development") eqn:E; [|discriminate].
    intros _. apply Hdev, E.
  - intros ->. reflexivity.
  - destruct NODE_ENV as [| | | | |s| |]; try reflexivity.
    destruct (String.eqb s "development") eqn:E; [|reflexivity].
    exfalso. apply H. apply Hdev, E.
  - destruct NODE_ENV as [| | | | |s| |]; try reflexivity.
    destruct (String.eqb s "development") eqn:E; [|reflexivity].
    exfalso. apply H. apply Hdev, E.
Qed.

End InternalErrors.

(** ** The file validator *)

Section FileValidator.

Lemma property_FILE_TYPES (key : list N) (c : FileTypeSpec) :
  property FILE_TYPES key = Some c -> In c registry_specs.
Proof.
  unfold FILE_TYPES, registry_specs. cbn [property].
  repeat (match goal with
          | |- context [same_units ?a ?b] => destruct (same_units a b)
          end; [intros [= <-]; cbn [In]; tauto |]).
  discriminate.
Qed.

Lemma getFileTypeConfig_registry (v : jsval) (c : FileTypeSpec) :
  getFileTypeConfig v = Some c -> In c registry_specs.
Proof.
  unfold getFileTypeConfig.
  destruct (negb (truthy v) || negb (String.eqb (typeof v) "string")); [discriminate|].
  destruct v; try discriminate. apply property_FILE_TYPES.
Qed.

(** The four category names of the routes resolve, in any letter case. *)
Lemma getFileTypeConfig_categories :
  getFileTypeConfig (JStr "image") = Some IMAGE /\
  getFileTypeConfig (JStr "document") = Some DOCUMENT /\
  getFileTypeConfig (JStr "audio") = Some AUDIO /\
  getFileTypeConfig (JStr "video") = Some VIDEO /\
  getFileTypeConfig (JStr "iMaGe") = Some IMAGE /\
  getFileTypeConfig (JStr "images") = None /\
  getFileTypeConfig (JStr "") = None /\
  getFileTypeConfig JNull = None /\
  getFileTypeConfig JUndefined = None.
Proof. repeat split. Qed.

Lemma includes_In (l : list string) (v : jsval) :
  includes l v = true <-> exists s, v = JStr s /\ In s l.
Proof.
  destruct v; simpl; try (split; [discriminate | intros (s0 & [=] & _)]).
  rewrite existsb_exists. split.
  - intros (x & Hx & Heq). apply String.eqb_eq in Heq. subst. eauto.
  - intros (s0 & [= <-] & Hin). exists s. split; [assumption | apply String.eqb_refl].
Qed.

Lemma registry_mime_nonempty (c : FileTypeSpec) :
  In c registry_specs -> ~ In "" (allowedMimeTypes c).
Proof.
  unfold registry_specs. simpl.
  intros [<- | [<- | [<- | [<- | []]]]]; simpl; intuition discriminate.
Qed.

(** Every ceiling of the registry is a whole number of MB, which is what
    the size message prints. *)
Lemma registry_ceiling_MB (c : FileTypeSpec) :
  In c registry_specs ->
  maxSize c = Math_round_div (maxSize c) (1024 * 1024) * (1024 * 1024) /\
  In (string_of_Z (Math_round_div (maxSize c) (1024 * 1024))) ["10"; "50"; "100"; "200"].
Proof.
  unfold registry_specs. simpl.
  intros [<- | [<- | [<- | [<- | []]]]]; vm_compute; intuition.
Qed.

Lemma isValidFileType_iff (f0 : file) (fileType : string) (c : FileTypeSpec) :
  getFileTypeConfig (JStr fileType) = Some c ->
  isValidFileType (Some f0) fileType = true <->
  exists mime, mimetype f0 = JStr mime /\ In mime (allowedMimeTypes c).
Proof.
  intros Hc. unfold isValidFileType. rewrite Hc.
  destruct (truthy (mimetype f0)) eqn:Ht; simpl.
  - apply includes_In.
  - split; [discriminate|].
    intros (mime & Hm & Hin). rewrite Hm in Ht. simpl in Ht.
    apply negb_false_iff, String.eqb_eq in Ht. subst mime.
    exfalso. eapply registry_mime_nonempty; eauto using getFileTypeConfig_registry.
Qed.

Lemma isValidFileSize_iff (f0 : file) (limit : Z) :
  isValidFileSize (Some f0) limit = true <->
  exists n, size f0 = JNum n /\ (n <= limit)%Z.
Proof.
  unfold isValidFileSize.
  destruct (size f0); simpl;
    try (split; [discriminate | intros (n & [=] & _)]).
  rewrite Z.leb_le. split; [eauto | intros (n & [= <-] & H); exact H].
Qed.

(** The validator on a file that is present, for a name the registry
    resolves. *)
Lemma validateFile_present (fileType : string) (c : FileTypeSpec) (f0 : file) :
  getFileTypeConfig (JStr fileType) = Some c ->
  validateFile (Some f0) fileType =
    if negb (isValidFileType (Some f0) fileType) then
      {| isValid := false; error := JStr (errorMessage c) |}
    else if negb (isValidFileSize (Some f0) (maxSize c)) then
      {| isValid := false;
         error := JStr ("File size exceeds "
                        ++ string_of_Z (Math_round_div (maxSize c) (1024 * 1024))
                        ++ "MB limit") |}
    else {| isValid := true; error := JNull |}.
Proof. intros Hc. unfold validateFile. rewrite Hc. reflexivity. Qed.

Lemma validateFile_resolved_iff (fileType : string) (c : FileTypeSpec)
    (f : option file) :
  getFileTypeConfig (JStr fileType) = Some c ->
  isValid (validateFile f fileType) = true <->
  exists f0 mime n,
    f = Some f0 /\ mimetype f0 = JStr mime /\ In mime (allowedMimeTypes c) /\
    size f0 = JNum n /\ (n <= maxSize c)%Z.
Proof.
  intros Hc. destruct f as [f0|].
  - rewrite (validateFile_present fileType c f0 Hc).
    pose proof (isValidFileType_iff f0 fileType c Hc) as Ht.
    pose proof (isValidFileSize_iff f0 (maxSize c)) as Hs.
    destruct (isValidFileType (Some f0) fileType);
      destruct (isValidFileSize (Some f0) (maxSize c)); simpl; split;
      try discriminate; try reflexivity.
    + intros _. destruct Ht as [(mime & Hm & Hin) _]; [reflexivity|].
      destruct Hs as [(n & Hn & Hle) _]; [reflexivity|].
      exists f0, mime, n. auto.
    + intros (f1 & mime & n & [= <-] & _ & _ & Hn & Hle).
      destruct Hs as [_ Hs]. apply Hs. eauto.
    + intros (f1 & mime & n & [= <-] & Hm & Hin & _).
      destruct Ht as [_ Ht]. apply Ht. eauto.
    + intros (f1 & mime & n & [= <-] & Hm & Hin & _).
      destruct Ht as [_ Ht]. apply Ht. eauto.
  - unfold validateFile. rewrite Hc. simpl. split; [discriminate|].
    intros (f0 & mime & n & [=] & _).
Qed.

(** The verdict on a file of an allowed type whose size is a number. *)
Lemma validateFile_sized (fileType : string) (c : FileTypeSpec) (f0 : file)
    (mime : string) (n : Z) :
  getFileTypeConfig (JStr fileType) = Some c ->
  mimetype f0 = JStr mime -> In mime (allowedMimeTypes c) -> size f0 = JNum n ->
  validateFile (Some f0) fileType =
    if (n <=? maxSize c)%Z then {| isValid := true; error := JNull |}
    else {| isValid := false;
            error := JStr ("File size exceeds "
                           ++ string_of_Z (Math_round_div (maxSize c) (1024 * 1024))
                           ++ "MB limit") |}.
Proof.
  intros Hc Hm Hin Hn. rewrite (validateFile_present fileType c f0 Hc).
  assert (Ht : isValidFileType (Some f0) fileType = true)
    by (apply (isValidFileType_iff f0 fileType c Hc); eauto).
  rewrite Ht. cbn [negb]. unfold isValidFileSize. rewrite Hn. cbn.
  destruct (n <=? maxSize c)%Z; reflexivity.
Qed.

(** C5 (as amended): for each of the four categories, under the name the
    routes give it, a file is valid exactly when it is present, its declared
    MIME type is one of the category's allowed ones, and its size is a
    number not above the category's ceiling (10, 50, 100 and 200 MB); a file
    of exactly the ceiling is valid, and one byte more is invalid with the
    message "File size exceeds <ceiling in MB>MB limit". *)
Theorem validateFile_valid_iff (f : option file) :
  Forall (fun '(C, c, ceiling, too_large) =>
            getFileTypeConfig (JStr C) = Some c /\
            maxSize c = ceiling /\
            (isValid (validateFile f C) = true <->
               exists f0 mime n,
                 f = Some f0 /\ mimetype f0 = JStr mime /\
                 In mime (allowedMimeTypes c) /\
                 size f0 = JNum n /\ (n <= ceiling)%Z) /\
            (forall f0 mime,
               mimetype f0 = JStr mime -> In mime (allowedMimeTypes c) ->
               (size f0 = JNum ceiling ->
                  validateFile (Some f0) C = {| isValid := true; error := JNull |}) /\
               (size f0 = JNum (ceiling + 1) ->
                  validateFile (Some f0) C
                  = {| isValid := false; error := JStr too_large |})))
         categories.
Proof.
  unfold categories.
  repeat (apply List.Forall_cons; [|]); [| | | |apply List.Forall_nil];
    (split; [reflexivity|]; split; [reflexivity|]; split;
     [ apply validateFile_resolved_iff; reflexivity
     | intros f0 mime Hm Hin; split; intros Hsz;
       match goal with
       | |- validateFile _ ?C = _ =>
           rewrite (validateFile_sized C _ f0 mime _ eq_refl Hm Hin Hsz)
       end; reflexivity ]).
Qed.

(** C5, the claim as first stated: a PNG whose size is the string "1024"
    is present, of an allowed type and, as JavaScript compares, not above the
    10 MB ceiling ("1024" <= 10485760 is true); it is invalid all the same,
    with the size message, because its size is not a number. *)
Theorem validateFile_rejects_numeric_string_size :
  In "image/png" (allowedMimeTypes IMAGE) /\
  (1024 <= maxSize IMAGE)%Z /\
  validateFile (Some (mkFile (JStr "cat.png") (JStr "image/png") (JStr "1024")
                        (Some "abc"))) "image"
  = {| isValid := false; error := JStr "File size exceeds 10MB limit" |}.
Proof.
  split; [cbn; tauto|]. split; [cbn; lia | reflexivity].
Qed.

(** The boundary on concrete files of each category. *)
Example validateFile_boundaries :
  validateFile (Some (mkFile (JStr "a.jpg") (JStr "image/jpeg") (JNum 10485760) None)) "image"
    = {| isValid := true; error := JNull |} /\
  validateFile (Some (mkFile (JStr "a.jpg") (JStr "image/jpeg") (JNum 10485761) None)) "image"
    = {| isValid := false; error := JStr "File size exceeds 10MB limit" |} /\
  validateFile (Some (mkFile (JStr "a.pdf") (JStr "application/pdf") (JNum 52428801) None))
               "document"
    = {| isValid := false; error := JStr "File size exceeds 50MB limit" |} /\
  validateFile (Some (mkFile (JStr "a.mp3") (JStr "audio/mpeg") (JNum 104857601) None)) "audio"
    = {| isValid := false; error := JStr "File size exceeds 100MB limit" |} /\
  validateFile (Some (mkFile (JStr "a.mp4") (JStr "video/mp4") (JNum 209715201) None)) "video"
    = {| isValid := false; error := JStr "File size exceeds 200MB limit" |} /\
  validateFile (Some (mkFile (JStr "a.mp4") (JStr "video/mp4") JNaN None)) "video"
    = {| isValid := false; error := JStr "File size exceeds 200MB limit" |}.
Proof. repeat split. Qed.

End FileValidator.

(** ** The prompt validator *)

Section PromptValidator.
Variable now : string.
Variable stack : string -> jsval.

Lemma trimStart_length (s : string) : (String.length (trimStart s) <= String.length s)%nat.
Proof.
  induction s as [|a s IH]; simpl; [lia|].
  destruct (is_white_space a); simpl; lia.
Qed.

Lemma trimEnd_length (s : string) : (String.length (trimEnd s) <= String.length s)%nat.
Proof.
  induction s as [|a s IH]; simpl; [lia|].
  destruct (trimEnd s); [destruct (is_white_space a)|]; simpl in *; lia.
Qed.

(** Trimming never lengthens a string. *)
Lemma trim_length (s : string) : (strlen (trim s) <= strlen s)%Z.
Proof.
  unfold strlen, trim.
  pose proof (trimEnd_length (trimStart s)). pose proof (trimStart_length s). lia.
Qed.

Lemma strlen_nonneg (s : string) : (0 <= strlen s)%Z.
Proof. unfold strlen. lia. Qed.

Lemma trim_empty : trim "" = "".
Proof. reflexivity. Qed.

(** C3 (as amended): the validator passes a body on exactly when its prompt
    is a string that is non-empty after trimming and whose untrimmed length
    is at most 10000 (so the trimmed length is between 1 and 10000); the
    body it passes on holds the trimmed prompt; a prompt of exactly 10000
    characters that is not all white space is accepted. *)
Theorem validatePrompt_accepts_iff (b : gmap string jsval) :
  (forall b',
     validatePrompt now stack (Some b) = Next b' <->
     exists s,
       get b "prompt" = JStr s /\
       (1 <= strlen (trim s) <= 10000)%Z /\
       (strlen s <= 10000)%Z /\
       b' = <["prompt" := JStr (trim s)]> b) /\
  (forall s,
     get b "prompt" = JStr s -> strlen s = 10000%Z -> trim s <> "" ->
     validatePrompt now stack (Some b) = Next (<["prompt" := JStr (trim s)]> b)).
Proof.
  assert (Hnz : forall s, (strlen (trim s) =? 0)%Z = false <-> (1 <= strlen (trim s))%Z).
  { intros s. pose proof (strlen_nonneg (trim s)). rewrite Z.eqb_neq. lia. }
  assert (Hstr : forall s,
    get b "prompt" = JStr s ->
    validatePrompt now stack (Some b) =
      if negb (negb (String.eqb s "")) then
        Responded (sendValidationError now
                     (JStr "Prompt is required in the request body") JUndefined)
      else if (strlen (trim s) =? 0)%Z then
        Responded (sendValidationError now (JStr "Prompt cannot be empty") JUndefined)
      else if (strlen s >? 10000)%Z then
        Responded (sendValidationError now
                     (JStr "Prompt is too long (maximum 10,000 characters)") JUndefined)
      else Next (<["prompt" := JStr (trim s)]> b)).
  { intros s Hs. unfold validatePrompt. rewrite Hs. reflexivity. }
  split.
  - intros b'. split.
    + unfold validatePrompt.
      destruct (get b "prompt") as [| | | | |s| |] eqn:Hp; cbn [truthy negb];
        try discriminate;
        try (match goal with |- context [negb ?x] => destruct x end; discriminate).
      destruct (String.eqb s ""); cbn [negb]; [discriminate|].
      destruct (strlen (trim s) =? 0)%Z eqn:Hz; [discriminate|].
      destruct (strlen s >? 10000)%Z eqn:Hl; [discriminate|].
      intros [= <-]. exists s.
      apply Hnz in Hz. pose proof (trim_length s).
      assert (strlen s <= 10000)%Z by lia.
      repeat split; auto; lia.
    + intros (s & Hs & [Hlo _] & Hraw & ->).
      rewrite (Hstr s Hs).
      destruct (String.eqb s "") eqn:He.
      * apply String.eqb_eq in He. subst s. rewrite trim_empty in Hlo.
        unfold strlen in Hlo. simpl in Hlo. lia.
      * cbn [negb]. apply Hnz in Hlo. rewrite Hlo.
        destruct (strlen s >? 10000)%Z eqn:Hl; [lia | reflexivity].
  - intros s Hs Hlen Hne.
    rewrite (Hstr s Hs).
    destruct (String.eqb s "") eqn:He.
    + apply String.eqb_eq in He. subst s. discriminate Hlen.
    + cbn [negb].
      assert (Hz : (strlen (trim s) =? 0)%Z = false).
      { apply Z.eqb_neq. unfold strlen. destruct (trim s); [congruence | simpl; lia]. }
      rewrite Hz.
      destruct (strlen s >? 10000)%Z eqn:Hl; [lia | reflexivity].
Qed.

End PromptValidator.

(** C3, the claim as stated fails: a string whose trimmed length is 1 but
    whose untrimmed length is 10001 is answered with the too-long error. *)
Lemma validatePrompt_rejects_padded_prompt :
  strlen (trim padded_prompt) = 1%Z /\
  strlen padded_prompt = 10001%Z /\
  validatePrompt "2025-10-15T10:30:00.000Z" (fun _ => JUndefined)
                 (Some {["prompt" := JStr padded_prompt]})
  = Responded (sendValidationError "2025-10-15T10:30:00.000Z"
                 (JStr "Prompt is too long (maximum 10,000 characters)") JUndefined).
Proof. repeat split; vm_compute; reflexivity. Qed.

(** The tests' boundary prompts: ['a'.repeat(10000)] passes,
    ['a'.repeat(10001)] does not. *)
Example validatePrompt_boundary :
  validatePrompt "T" (fun _ => JUndefined) (Some {["prompt" := JStr (repeat_char "a" (Z.to_nat 10000))]})
  = Next {["prompt" := JStr (repeat_char "a" (Z.to_nat 10000))]} /\
  validatePrompt "T" (fun _ => JUndefined) (Some {["prompt" := JStr (repeat_char "a" (Z.to_nat 10001))]})
  = Responded (sendValidationError "T"
                 (JStr "Prompt is too long (maximum 10,000 characters)") JUndefined).
Proof. split; vm_compute; reflexivity. Qed.

(** ** The body sanitizer *)

Section Sanitizer.
Variable stack : string -> jsval.

Lemma remove_dangerous_step (b : gmap string jsval) (key : string) :
  b !! "hasOwnProperty" = None ->
  remove_dangerous stack (inr b) key = inr (delete key b).
Proof.
  intros Hb. unfold remove_dangerous. rewrite Hb.
  destruct (b !! key) eqn:Hk; [reflexivity|].
  by rewrite delete_id.
Qed.

Lemma remove_dangerous_all (b : gmap string jsval) (keys : list string) :
  b !! "hasOwnProperty" = None ->
  foldl (remove_dangerous stack) (inr b) keys = inr (foldl (fun m k => delete k m) b keys).
Proof.
  revert b. induction keys as [|k keys IH]; intros b Hb; [reflexivity|].
  cbn [foldl]. rewrite remove_dangerous_step by assumption.
  apply IH. rewrite lookup_delete_None. by right.
Qed.

Lemma remove_dangerous_throws (keys : list string) (e : js_error) :
  foldl (remove_dangerous stack) (inl e) keys = inl e.
Proof. induction keys as [|k keys IH]; [reflexivity | exact IH]. Qed.

Lemma trim_field_lookup (b : gmap string jsval) (key k : string) :
  trim_field b key !! k = if decide (key = k) then trim_value <$> b !! k else b !! k.
Proof.
  unfold trim_field. case_decide as Hk.
  - subst k. destruct (b !! key) as [[]|] eqn:Hb; rewrite ?Hb; try reflexivity.
    by rewrite lookup_insert_eq.
  - destruct (b !! key) as [[]|]; try reflexivity.
    by rewrite lookup_insert_ne.
Qed.

(** The second loop, over any duplicate-free list of keys: the listed
    keys get trimmed, the others are untouched. The order of the keys is
    immaterial. *)
Lemma trim_fields_lookup (keys : list string) (b : gmap string jsval) (k : string) :
  NoDup keys ->
  foldl trim_field b keys !! k
  = if decide (k ∈ keys) then trim_value <$> b !! k else b !! k.
Proof.
  intros Hnd. revert b. induction Hnd as [|k0 keys Hnotin Hnd IH]; intros b.
  - cbn [foldl]. case_decide as H; [by apply not_elem_of_nil in H | reflexivity].
  - cbn [foldl]. rewrite IH, trim_field_lookup.
    destruct (decide (k0 = k)) as [->|Hne].
    + rewrite decide_False by assumption.
      rewrite decide_True by (apply elem_of_cons; by left). reflexivity.
    + destruct (decide (k ∈ keys)) as [Hin|Hout].
      * rewrite decide_True by (apply elem_of_cons; by right). reflexivity.
      * rewrite decide_False; [reflexivity|].
        rewrite elem_of_cons. intros [->|?]; congruence.
Qed.

Lemma trim_all_fields (b : gmap string jsval) :
  foldl trim_field b (object_keys b) = trim_value <$> b.
Proof.
  apply map_eq. intros k.
  rewrite trim_fields_lookup by apply NoDup_fst_map_to_list.
  rewrite lookup_fmap. case_decide as Hk; [reflexivity|].
  destruct (b !! k) as [v|] eqn:Hb; [|reflexivity].
  exfalso. apply Hk. unfold object_keys.
  apply list_elem_of_fmap. exists (k, v). split; [reflexivity|].
  by apply elem_of_map_to_list.
Qed.

(** X1: the sanitizer on a body that has no property of its own called
    [hasOwnProperty]: the three dangerous keys are gone, string values are
    trimmed, and every other key keeps its value. *)
Lemma sanitizeRequestBody_frame (b : gmap string jsval) :
  b !! "hasOwnProperty" = None ->
  exists b',
    sanitizeRequestBody stack (Some b) = Next (Some b') /\
    (forall k, k ∈ dangerousKeys -> b' !! k = None) /\
    (forall k, k ∉ dangerousKeys -> b' !! k = trim_value <$> b !! k) /\
    (forall k s, k ∉ dangerousKeys -> b !! k = Some (JStr s) ->
                 b' !! k = Some (JStr (trim s))) /\
    (forall k v, k ∉ dangerousKeys -> b !! k = Some v -> typeof v <> "string" ->
                 b' !! k = Some v) /\
    (forall k, b !! k = None -> b' !! k = None).
Proof.
  intros Hb.
  set (b1 := delete "prototype" (delete "constructor" (delete "__proto__" b))).
  assert (Hrun : sanitizeRequestBody stack (Some b) = Next (Some (trim_value <$> b1))).
  { unfold sanitizeRequestBody. rewrite remove_dangerous_all by assumption.
    cbn [foldl dangerousKeys]. fold b1. by rewrite trim_all_fields. }
  assert (Hin : forall k, k ∈ dangerousKeys -> b1 !! k = None).
  { intros k Hk. unfold dangerousKeys in Hk. unfold b1.
    rewrite !lookup_delete_None.
    set_unfold in Hk. destruct Hk as [->|[->|[->|[]]]]; auto. }
  assert (Hout : forall k, k ∉ dangerousKeys -> b1 !! k = b !! k).
  { intros k Hk. unfold dangerousKeys in Hk. unfold b1.
    rewrite !lookup_delete_ne; [reflexivity | | |];
      intros <-; apply Hk; set_solver. }
  exists (trim_value <$> b1). split; [exact Hrun|].
  repeat split.
  - intros k Hk. by rewrite lookup_fmap, Hin.
  - intros k Hk. by rewrite lookup_fmap, Hout.
  - intros k s Hk Hs. by rewrite lookup_fmap, Hout, Hs.
  - intros k v Hk Hv Hty. rewrite lookup_fmap, Hout, Hv by assumption.
    destruct v; try reflexivity. by destruct Hty.
  - intros k Hk. rewrite lookup_fmap.
    destruct (decide (k ∈ dangerousKeys)) as [Hd|Hd];
      [by rewrite Hin | by rewrite Hout, Hk].
Qed.

(** C9, where the code misses: on every body with a key of its own called
    [hasOwnProperty], whatever its value, the first loop throws at its first
    round; nothing is removed, nothing is trimmed and the request is not
    passed on. *)
Theorem sanitizeRequestBody_shadowed_hasOwnProperty (b : gmap string jsval) (v : jsval) :
  sanitizeRequestBody stack (Some (<["hasOwnProperty" := v]> b))
  = Thrown (new_Error stack "req.body.hasOwnProperty is not a function").
Proof.
  unfold sanitizeRequestBody, dangerousKeys. cbn [foldl].
  assert (H : remove_dangerous stack (inr (<["hasOwnProperty" := v]> b)) "__proto__"
              = inl (new_Error stack "req.body.hasOwnProperty is not a function")).
  { unfold remove_dangerous. by rewrite lookup_insert_eq. }
  rewrite H. reflexivity.
Qed.

(** The same on a JSON body a client can post. *)
Example sanitizeRequestBody_shadowed_body :
  sanitizeRequestBody stack
    (Some {["hasOwnProperty" := JNum 1; "constructor" := JStr "x";
            "prompt" := JStr "  hello  "]})
  = Thrown (new_Error stack "req.body.hasOwnProperty is not a function").
Proof. reflexivity. Qed.

End Sanitizer.

(** The frame property on a body with a dangerous key and a padded string. *)
Lemma sanitizeRequestBody_frame_witness :
  ({["prompt" := JStr "  hello  "; "constructor" := JStr "x"]} : gmap string jsval)
    !! "hasOwnProperty" = None /\
  exists b',
    sanitizeRequestBody (fun _ => JUndefined)
      (Some {["prompt" := JStr "  hello  "; "constructor" := JStr "x"]})
    = Next (Some b') /\
    (forall k, k ∈ dangerousKeys -> b' !! k = None) /\
    (forall k, k ∉ dangerousKeys ->
       b' !! k = trim_value <$>
                   ({["prompt" := JStr "  hello  "; "constructor" := JStr "x"]}
                      : gmap string jsval) !! k) /\
    (forall k s, k ∉ dangerousKeys ->
       ({["prompt" := JStr "  hello  "; "constructor" := JStr "x"]}
          : gmap string jsval) !! k = Some (JStr s) ->
       b' !! k = Some (JStr (trim s))) /\
    (forall k v, k ∉ dangerousKeys ->
       ({["prompt" := JStr "  hello  "; "constructor" := JStr "x"]}
          : gmap string jsval) !! k = Some v ->
       typeof v <> "string" -> b' !! k = Some v) /\
    (forall k,
       ({["prompt" := JStr "  hello  "; "constructor" := JStr "x"]}
          : gmap string jsval) !! k = None ->
       b' !! k = None).
Proof.
  split; [reflexivity|].
  apply (sanitizeRequestBody_frame (fun _ => JUndefined)
           {["prompt" := JStr "  hello  "; "constructor" := JStr "x"]}).
  reflexivity.
Defined.

(** The tests' bodies. *)
Example sanitizeRequestBody_examples :
  sanitizeRequestBody (fun _ => JUndefined)
    (Some {["prompt" := JStr "  test prompt  "; "number" := JNum 123;
            "boolean" := JBool true; "prototype" := JObj [("dangerous", JBool true)]]})
  = Next (Some {["prompt" := JStr "test prompt"; "number" := JNum 123;
                 "boolean" := JBool true]}) /\
  sanitizeRequestBody (fun _ => JUndefined) None = Next None.
Proof. split; [vm_compute|]; reflexivity. Qed.

(** ** The rate limiter *)

Section RateLimiter.
Variable toISOString : Z -> string.
(** One client. *)
Variables ip remoteAddress : option string.

Lemma rateLimiter_first (l : limiter) (now : Z) :
  requests l !! (clientId ip remoteAddress) = None ->
  rateLimiter toISOString l ip remoteAddress now
  = (set_entry l (clientId ip remoteAddress) {| count := 1; resetTime := now + timeWindow l |}, Next tt).
Proof. intros H. unfold rateLimiter. rewrite H. reflexivity. Qed.

Lemma rateLimiter_step (l : limiter) (e : entry) (now : Z) :
  requests l !! (clientId ip remoteAddress) = Some e ->
  rateLimiter toISOString l ip remoteAddress now
  = if (now >? resetTime e)%Z then
      (set_entry l (clientId ip remoteAddress) {| count := 1; resetTime := now + timeWindow l |}, Next tt)
    else if (count e >=? maxRequests l)%Z then (l, Responded (tooMany toISOString now))
    else (set_entry l (clientId ip remoteAddress) {| count := count e + 1; resetTime := resetTime e |}, Next tt).
Proof. intros H. unfold rateLimiter. rewrite H. reflexivity. Qed.

Lemma calls_cons (l : limiter) (now : Z) (rest : list Z) :
  calls toISOString l ip remoteAddress (now :: rest)
  = (fst (calls toISOString (fst (rateLimiter toISOString l ip remoteAddress now))
            ip remoteAddress rest),
     snd (rateLimiter toISOString l ip remoteAddress now)
     :: snd (calls toISOString (fst (rateLimiter toISOString l ip remoteAddress now))
               ip remoteAddress rest)).
Proof.
  cbn [calls].
  destruct (rateLimiter toISOString l ip remoteAddress now) as [l1 o]. cbn [fst snd].
  destruct (calls toISOString l1 ip remoteAddress rest) as [l2 os]. reflexivity.
Qed.

(** Calls that all fall at or before the reset time of the current window:
    the window stays, the count climbs by one per call up to the ceiling,
    and a call is let through exactly while the count is below it. *)
Lemma calls_in_window (ts : list Z) :
  forall (l : limiter) (c r : Z),
    requests l !! (clientId ip remoteAddress) = Some {| count := c; resetTime := r |} ->
    Forall (fun u => (u <= r)%Z) ts ->
    let run := calls toISOString l ip remoteAddress ts in
    requests (fst run) !! (clientId ip remoteAddress)
      = Some {| count := Z.max c (Z.min (c + Z.of_nat (length ts)) (maxRequests l));
                resetTime := r |} /\
    maxRequests (fst run) = maxRequests l /\
    timeWindow (fst run) = timeWindow l /\
    snd run = imap (fun i u => if (c + Z.of_nat i <? maxRequests l)%Z
                               then Next tt else Responded (tooMany toISOString u)) ts.
Proof.
  induction ts as [|u ts IH]; intros l c r Hl Hts; cbv zeta.
  - cbn. rewrite Hl. repeat split. f_equal. f_equal. lia.
  - apply Forall_cons in Hts as [Hu Hts].
    rewrite calls_cons, (rateLimiter_step l _ u Hl). cbn [count resetTime fst snd].
    destruct (Z.gtb_spec u r) as [?|_]; [lia|].
    destruct (Z.geb_spec c (maxRequests l)) as [Hfull|Hroom]; cbn [fst snd].
    + destruct (IH l c r Hl Hts) as (H1 & H2 & H3 & H4).
      rewrite H1, H2, H3, H4. repeat split.
      * f_equal. f_equal. cbn [length]. lia.
      * rewrite imap_cons. f_equal.
        { destruct (Z.ltb_spec (c + Z.of_nat 0) (maxRequests l)); [lia | reflexivity]. }
        apply imap_ext. intros i x _. cbn.
        destruct (Z.ltb_spec (c + Z.of_nat i) (maxRequests l));
          destruct (Z.ltb_spec (c + Z.of_nat (S i)) (maxRequests l)); (reflexivity || lia).
    + assert (Hl' : requests (set_entry l (clientId ip remoteAddress) {| count := c + 1; resetTime := r |}) !! (clientId ip remoteAddress)
                    = Some {| count := c + 1; resetTime := r |})
        by apply lookup_insert_eq.
      destruct (IH _ _ _ Hl' Hts) as (H1 & H2 & H3 & H4).
      rewrite H1, H2, H3, H4. cbn [set_entry maxRequests timeWindow]. repeat split.
      * f_equal. f_equal. cbn [length]. lia.
      * rewrite imap_cons. f_equal.
        { destruct (Z.ltb_spec (c + Z.of_nat 0) (maxRequests l)); [reflexivity | lia]. }
        apply imap_ext. intros i x _. cbn.
        destruct (Z.ltb_spec (c + 1 + Z.of_nat i) (maxRequests l));
          destruct (Z.ltb_spec (c + Z.of_nat (S i)) (maxRequests l)); (reflexivity || lia).
Qed.

(** A fresh limiter, a first call at [t0], then calls that all fall in the
    first window. *)
Lemma calls_first_window (N W t0 : Z) (ts : list Z) :
  Forall (fun u => (u <= t0 + W)%Z) ts ->
  let run := calls toISOString (createRateLimiter N W) ip remoteAddress (t0 :: ts) in
  requests (fst run) !! (clientId ip remoteAddress)
    = Some {| count := Z.max 1 (Z.min (1 + Z.of_nat (length ts)) N);
              resetTime := t0 + W |} /\
  maxRequests (fst run) = N /\
  timeWindow (fst run) = W /\
  snd run = Next tt :: imap (fun i u => if (1 + Z.of_nat i <? N)%Z
                                        then Next tt else Responded (tooMany toISOString u)) ts.
Proof.
  intros Hts. cbv zeta.
  rewrite calls_cons, rateLimiter_first by apply lookup_empty. cbn [fst snd].
  assert (Hl : requests (set_entry (createRateLimiter N W) (clientId ip remoteAddress)
                           {| count := 1; resetTime := t0 + W |}) !! (clientId ip remoteAddress)
               = Some {| count := 1; resetTime := t0 + W |})
    by apply lookup_insert_eq.
  destruct (calls_in_window ts _ _ _ Hl Hts) as (H1 & H2 & H3 & H4).
  cbn [createRateLimiter timeWindow] in *. rewrite H1, H2, H3, H4.
  repeat split.
Qed.

(** C4 (as amended): for a ceiling [N >= 1] and one client whose first call
    is at [t0] and whose later calls [ts] all fall at or before [t0 + W]:
    the first call and the calls up to the [N]-th are let through, every
    later one, so the [(N+1)]-th, is rejected; the stored count climbs by
    one per admitted call up to [N] and the reset time stays [t0 + W]; a
    call strictly after [t0 + W] is let through and stores count 1 with a
    new window, while a call at or before [t0 + W] keeps the window. In
    any state, the entry is replaced by a fresh one with count 1 exactly
    when [now > resetTime]; otherwise the count stays or grows by one. *)
Theorem rateLimiter_fixed_window (N W t0 : Z) (ts : list Z) :
  (1 <= N)%Z ->
  Forall (fun u => (u <= t0 + W)%Z) ts ->
  let run := calls toISOString (createRateLimiter N W) ip remoteAddress (t0 :: ts) in
  snd run !! 0%nat = Some (Next tt) /\
  (forall i u, ts !! i = Some u ->
     snd run !! S i = Some (if (Z.of_nat i + 1 <? N)%Z
                            then Next tt else Responded (tooMany toISOString u))) /\
  (forall u, ts !! Z.to_nat (N - 1) = Some u ->
     snd run !! Z.to_nat N = Some (Responded (tooMany toISOString u))) /\
  requests (fst run) !! (clientId ip remoteAddress)
    = Some {| count := Z.min (1 + Z.of_nat (length ts)) N; resetTime := t0 + W |} /\
  (forall t, (t > t0 + W)%Z ->
     rateLimiter toISOString (fst run) ip remoteAddress t
     = (set_entry (fst run) (clientId ip remoteAddress) {| count := 1; resetTime := t + W |}, Next tt)) /\
  (forall t, (t <= t0 + W)%Z ->
     exists c',
       requests (fst (rateLimiter toISOString (fst run) ip remoteAddress t)) !! (clientId ip remoteAddress)
         = Some {| count := c'; resetTime := t0 + W |} /\
       (Z.min (1 + Z.of_nat (length ts)) N <= c' <= N)%Z) /\
  (forall (l : limiter) (e : entry) (now : Z),
     requests l !! (clientId ip remoteAddress) = Some e ->
     let l' := fst (rateLimiter toISOString l ip remoteAddress now) in
     ((now > resetTime e)%Z ->
        requests l' !! (clientId ip remoteAddress) = Some {| count := 1; resetTime := now + timeWindow l |}) /\
     ((now <= resetTime e)%Z ->
        exists c', requests l' !! (clientId ip remoteAddress) = Some {| count := c'; resetTime := resetTime e |} /\
                   (count e <= c' <= count e + 1)%Z)).
Proof.
  intros HN Hts. cbv zeta.
  destruct (calls_first_window N W t0 ts Hts) as (H1 & H2 & H3 & H4).
  rewrite Z.max_r in H1 by lia.
  assert (Hidx : forall i u, ts !! i = Some u ->
    snd (calls toISOString (createRateLimiter N W) ip remoteAddress (t0 :: ts)) !! S i
    = Some (if (Z.of_nat i + 1 <? N)%Z then Next tt else Responded (tooMany toISOString u))).
  { intros i u Hi. rewrite H4. cbn [lookup list_lookup].
    change ((imap (fun i u => if (1 + Z.of_nat i <? N)%Z
                              then Next tt else Responded (tooMany toISOString u)) ts) !! i
            = Some (if (Z.of_nat i + 1 <? N)%Z then Next tt else Responded (tooMany toISOString u))).
    rewrite list_lookup_imap, Hi. cbn. rewrite (Z.add_comm 1). reflexivity. }
  split; [by rewrite H4|].
  split; [exact Hidx|].
  split.
  { intros u Hu. replace (Z.to_nat N) with (S (Z.to_nat (N - 1))) by lia.
    rewrite (Hidx _ _ Hu).
    destruct (Z.ltb_spec (Z.of_nat (Z.to_nat (N - 1)) + 1) N); [lia | reflexivity]. }
  split; [exact H1|].
  split; [|split].
  - intros t Ht. rewrite (rateLimiter_step _ _ t H1). cbn [count resetTime].
    destruct (Z.gtb_spec t (t0 + W)); [|lia]. by rewrite H3.
  - intros t Ht. rewrite (rateLimiter_step _ _ t H1). cbn [count resetTime].
    destruct (Z.gtb_spec t (t0 + W)); [lia|]. rewrite H2.
    destruct (Z.geb_spec (Z.min (1 + Z.of_nat (length ts)) N) N); cbn [fst].
    + eexists. split; [exact H1 | lia].
    + eexists. split; [apply lookup_insert_eq | lia].
  - intros l e now Hl. cbv zeta. rewrite (rateLimiter_step l e now Hl).
    split; intros Hnow.
    + destruct (Z.gtb_spec now (resetTime e)); [|lia]. apply lookup_insert_eq.
    + destruct (Z.gtb_spec now (resetTime e)); [lia|].
      destruct (Z.geb_spec (count e) (maxRequests l)); cbn [fst].
      * exists (count e). destruct e. split; [exact Hl | cbn; lia].
      * eexists. split; [apply lookup_insert_eq | lia].
Qed.

End RateLimiter.

(** The window property at [N = 2], [W = 10], calls at 0, 5 and 10. *)
Lemma rateLimiter_fixed_window_witness :
  (1 <= 2)%Z /\
  Forall (fun u => (u <= 0 + 10)%Z) [5%Z; 10%Z] /\
  (snd (calls (fun _ => "") (createRateLimiter 2 10) (Some "127.0.0.1") None
          (0%Z :: [5%Z; 10%Z])) !! 0%nat = Some (Next tt) /\
   (forall i u, [5%Z; 10%Z] !! i = Some u ->
      snd (calls (fun _ => "") (createRateLimiter 2 10) (Some "127.0.0.1") None
             (0%Z :: [5%Z; 10%Z])) !! S i
      = Some (if (Z.of_nat i + 1 <? 2)%Z
              then Next tt else Responded (tooMany (fun _ => "") u))) /\
   (forall u, [5%Z; 10%Z] !! Z.to_nat (2 - 1) = Some u ->
      snd (calls (fun _ => "") (createRateLimiter 2 10) (Some "127.0.0.1") None
             (0%Z :: [5%Z; 10%Z])) !! Z.to_nat 2
      = Some (Responded (tooMany (fun _ => "") u))) /\
   requests (fst (calls (fun _ => "") (createRateLimiter 2 10) (Some "127.0.0.1") None
                    (0%Z :: [5%Z; 10%Z]))) !! clientId (Some "127.0.0.1") None
     = Some {| count := Z.min (1 + Z.of_nat (length [5%Z; 10%Z])) 2; resetTime := 0 + 10 |} /\
   (forall t, (t > 0 + 10)%Z ->
      rateLimiter (fun _ => "")
        (fst (calls (fun _ => "") (createRateLimiter 2 10) (Some "127.0.0.1") None
                (0%Z :: [5%Z; 10%Z]))) (Some "127.0.0.1") None t
      = (set_entry
           (fst (calls (fun _ => "") (createRateLimiter 2 10) (Some "127.0.0.1") None
                   (0%Z :: [5%Z; 10%Z])))
           (clientId (Some "127.0.0.1") None) {| count := 1; resetTime := t + 10 |},
         Next tt)) /\
   (forall t, (t <= 0 + 10)%Z ->
      exists c',
        requests (fst (rateLimiter (fun _ => "")
                         (fst (calls (fun _ => "") (createRateLimiter 2 10)
                                 (Some "127.0.0.1") None (0%Z :: [5%Z; 10%Z])))
                         (Some "127.0.0.1") None t)) !! clientId (Some "127.0.0.1") None
          = Some {| count := c'; resetTime := 0 + 10 |} /\
        (Z.min (1 + Z.of_nat (length [5%Z; 10%Z])) 2 <= c' <= 2)%Z) /\
   (forall (l : limiter) (e : entry) (now : Z),
      requests l !! clientId (Some "127.0.0.1") None = Some e ->
      let l' := fst (rateLimiter (fun _ => "") l (Some "127.0.0.1") None now) in
      ((now > resetTime e)%Z ->
         requests l' !! clientId (Some "127.0.0.1") None
         = Some {| count := 1; resetTime := now + timeWindow l |}) /\
      ((now <= resetTime e)%Z ->
         exists c', requests l' !! clientId (Some "127.0.0.1") None
                    = Some {| count := c'; resetTime := resetTime e |} /\
                    (count e <= c' <= count e + 1)%Z))).
Proof.
  split; [lia|]. split; [repeat constructor; lia|].
  apply (rateLimiter_fixed_window (fun _ => "") (Some "127.0.0.1") None 2 10 0 [5%Z; 10%Z]).
  - lia.
  - repeat constructor; lia.
Defined.

(** C4, the claim as stated fails. With [N = 2] and [W = 10], after calls at
    0 and 5, the call at time 10 = 0 + W is rejected and the stored count
    stays 2: the window ends only strictly after [t0 + W]. With [N = 0] the
    first, that is the [(N+1)]-th, call is let through. *)
Lemma rateLimiter_boundary_call_rejected :
  (10 >= 0 + 10)%Z /\
  snd (calls (fun _ => "") (createRateLimiter 2 10) (Some "127.0.0.1") None
         [0%Z; 5%Z; 10%Z])
  = [Next tt; Next tt;
     Responded (sendValidationError ""
                  (JStr "Too many requests. Please try again later.") (JNum 429))] /\
  requests (fst (calls (fun _ => "") (createRateLimiter 2 10) (Some "127.0.0.1") None
                   [0%Z; 5%Z; 10%Z])) !! Some "127.0.0.1"
  = Some {| count := 2; resetTime := 10 |} /\
  snd (calls (fun _ => "") (createRateLimiter 0 10) (Some "127.0.0.1") None [0%Z])
  = [Next tt].
Proof. repeat split; try lia; vm_compute; reflexivity. Qed.

(** C1, where the code misses: with the limiter of the routes (100 requests
    per 15 minutes), the 101st request of one client within the window is
    rejected with the stated message, but with HTTP status 400 and envelope
    code 400; the 429 lands in the [errors] field. *)
Theorem rateLimiter_101st_request_answers_400 (toISOString : Z -> string) :
  snd (calls toISOString createRateLimiter_default (Some "203.0.113.7") None
         (repeat 1760000000000%Z 101)) !! 100%nat
  = Some (Responded
            {| http_status := JNum 400;
               json := {| status := false;
                          code := JNum 400;
                          message := JStr "Too many requests. Please try again later.";
                          ResponseHandler.data := None;
                          meta := None;
                          errors := Some (JNum 429);
                          timestamp := toISOString 1760000000000%Z |} |}).
Proof.
  change (repeat 1760000000000%Z 101)
    with (1760000000000%Z :: repeat 1760000000000%Z 100).
  destruct (calls_first_window toISOString (Some "203.0.113.7") None
              100 (15 * 60 * 1000) 1760000000000 (repeat 1760000000000%Z 100))
    as (_ & _ & _ & Hout).
  { apply List.Forall_forall. intros u Hu. apply repeat_spec in Hu. subst u. lia. }
  unfold createRateLimiter_default. rewrite Hout.
  change ((imap (fun i u => if (1 + Z.of_nat i <? 100)%Z
                            then Next tt
                            else Responded (tooMany toISOString u))
             (repeat 1760000000000%Z 100)) !! 99%nat = Some
           (Responded (tooMany toISOString 1760000000000%Z))).
  rewrite list_lookup_imap. reflexivity.
Qed.

(** ** The controller *)

Section FileFlow.
Variable NODE_ENV : jsval.
Variable now : string.
Variable stack : string -> jsval.
Variable base64 : string -> string.
Variable formatFileSize : jsval -> jsval.
Variable generateText : string -> js_error + jsval.
Variable generateFromFile : string -> fileData -> js_error + jsval.

(** Every run either passed file validation and then starts with the request
    log line followed by the encoding of the upload, or does no upstream
    work at all. *)
Lemma handleFileRequest_shape (req : request) (endpoint fileType : string) :
  let t := trace (handleFileRequest NODE_ENV now stack base64 formatFileSize
                    generateText generateFromFile req endpoint fileType) in
  (isValid (validateFile (upload req) fileType) = true /\
   exists rest, t = Log "REQUEST" endpoint (JStr fileType) :: Encode (upload req) :: rest) \/
  no_upstream_work t.
Proof.
  cbv zeta. unfold handleFileRequest, logRequest.
  destruct (body req) as [b|] eqn:Hb.
  2:{ right. cbn. repeat constructor. }
  destruct (get b "prompt") as [| | | | |p| |] eqn:Hp;
    try solve [right; cbn; repeat constructor].
  destruct (String.eqb (trim p) "") eqn:Hempty; [right; cbn; repeat constructor|].
  destruct (isValid (validateFile (upload req) fileType)) eqn:Hvalid; cbn [negb].
  - left. split; [reflexivity|].
    destruct (prepareFileForAPI base64 stack (upload req)) as [e|payload]; [cbn; eauto|].
    destruct (generateFromFile (trim p) payload) as [e|text] eqn:Hgen.
    + cbn. rewrite Hgen. cbn. destruct (to_string (err_message e)); cbn; eauto.
    + cbn. rewrite Hgen. destruct text; cbn; eauto.
  - right. cbn. repeat constructor.
Qed.

Lemma handleFileRequest_rejects (req : request) (endpoint fileType : string)
    (b : gmap string jsval) (p : string) :
  isValid (validateFile (upload req) fileType) = false ->
  body req = Some b -> get b "prompt" = JStr p -> trim p <> "" ->
  trace (handleFileRequest NODE_ENV now stack base64 formatFileSize
           generateText generateFromFile req endpoint fileType)
  = [Log "REQUEST" endpoint (JStr fileType);
     Log "VALIDATION_ERROR" endpoint (error (validateFile (upload req) fileType));
     Respond (sendValidationError now (error (validateFile (upload req) fileType))
                JUndefined)].
Proof.
  intros Hinvalid Hb Hp Hne.
  unfold handleFileRequest, logRequest. rewrite Hb, Hp.
  destruct (String.eqb (trim p) "") eqn:Hempty.
  - apply String.eqb_eq in Hempty. contradiction.
  - rewrite Hinvalid. reflexivity.
Qed.

(** C7 (as amended): when the file fails category validation, the handler
    neither encodes the file nor calls the upstream service, whatever the
    rest of the request; if moreover the request has a body whose prompt is a
    string that is non-empty after trimming, the run is: request log line,
    validation warning, and one response, the 400 validation-error envelope
    carrying the validator's message. In every run an upstream call comes
    after a successful validation and after the encoding of the upload. *)
Theorem handleFileRequest_validation_gate (req : request) (endpoint fileType : string) :
  let validation := validateFile (upload req) fileType in
  let t := trace (handleFileRequest NODE_ENV now stack base64 formatFileSize
                    generateText generateFromFile req endpoint fileType) in
  (isValid validation = false -> no_upstream_work t) /\
  (isValid validation = false ->
   forall b p, body req = Some b -> get b "prompt" = JStr p -> trim p <> "" ->
     t = [Log "REQUEST" endpoint (JStr fileType);
          Log "VALIDATION_ERROR" endpoint (error validation);
          Respond (sendValidationError now (error validation) JUndefined)] /\
     responses t = [sendValidationError now (error validation) JUndefined] /\
     http_status (sendValidationError now (error validation) JUndefined) = JNum 400 /\
     code (json (sendValidationError now (error validation) JUndefined)) = JNum 400 /\
     message (json (sendValidationError now (error validation) JUndefined))
       = error validation) /\
  (forall t1 t2 ev, is_upstream_work ev = true -> t = (t1 ++ ev :: t2)%list ->
     isValid validation = true) /\
  (forall t1 t2 prompt payload, t = (t1 ++ Upstream prompt payload :: t2)%list ->
     In (Encode (upload req)) t1).
Proof.
  cbv zeta.
  pose proof (handleFileRequest_shape req endpoint fileType) as Hshape. cbv zeta in Hshape.
  assert (Hnone : forall t t1 t2 ev,
            no_upstream_work t -> is_upstream_work ev = true ->
            t <> (t1 ++ ev :: t2)%list).
  { intros t t1 t2 ev Hno Hev ->. apply Forall_app in Hno as [_ Hno].
    apply Forall_cons in Hno as [Hno _]. congruence. }
  split; [|split; [|split]].
  - intros Hinvalid. destruct Hshape as [[Hvalid _]|Hno]; [congruence | exact Hno].
  - intros Hinvalid b p Hb Hp Hne.
    rewrite (handleFileRequest_rejects req endpoint fileType b p Hinvalid Hb Hp Hne).
    repeat split.
  - intros t1 t2 ev Hev Ht. destruct Hshape as [[Hvalid _]|Hno]; [exact Hvalid|].
    exfalso. exact (Hnone _ _ _ _ Hno Hev Ht).
  - intros t1 t2 prompt payload Ht. destruct Hshape as [[_ [rest Hrest]]|Hno].
    + rewrite Hrest in Ht.
      destruct t1 as [|a [|a' t1]]; cbn in Ht; try discriminate.
      injection Ht as _ <- _. right. left. reflexivity.
    + exfalso. exact (Hnone _ t1 t2 (Upstream prompt payload) Hno eq_refl Ht).
Qed.

(** C2, where the code misses: the handler calls [getFileTypeConfig] without
    an argument, gets [null], and [Object.entries(null)] throws; every request
    is answered with the 500 envelope and never with the list. *)
Theorem getSupportedFileTypes_always_500 :
  trace (getSupportedFileTypes NODE_ENV now stack)
  = [ConsoleError (new_Error stack "Cannot convert undefined or null to object");
     Respond (snd (sendInternalServerError now NODE_ENV
                     (new_Error stack "Cannot convert undefined or null to object")
                     (JStr "Failed to retrieve file types information")))] /\
  http_status (snd (sendInternalServerError now NODE_ENV
                      (new_Error stack "Cannot convert undefined or null to object")
                      (JStr "Failed to retrieve file types information"))) = JNum 500 /\
  message (json (snd (sendInternalServerError now NODE_ENV
                        (new_Error stack "Cannot convert undefined or null to object")
                        (JStr "Failed to retrieve file types information"))))
    = JStr "Failed to retrieve file types information" /\
  ResponseHandler.data
    (json (snd (sendInternalServerError now NODE_ENV
                  (new_Error stack "Cannot convert undefined or null to object")
                  (JStr "Failed to retrieve file types information")))) = None.
Proof. repeat split. Qed.

End FileFlow.

(** The sibling [getAllFileTypeConfigs] does list the four categories with
    their ceilings. *)
Example getAllFileTypeConfigs_lists_registry :
  map (fun e => (field e "type", field e "name", field e "maxSize", field e "maxSizeMB",
                 field e "fieldName"))
      getAllFileTypeConfigs
  = [(JStr "image", JStr "image", JNum 10485760, JNum 10, JStr "file");
     (JStr "document", JStr "document", JNum 52428800, JNum 50, JStr "file");
     (JStr "audio", JStr "audio", JNum 104857600, JNum 100, JStr "file");
     (JStr "video", JStr "video", JNum 209715200, JNum 200, JStr "file")].
Proof. reflexivity. Qed.

(** C7, the claim as stated fails. A request without a prompt and without a
    file: the file fails validation, yet the handler's own prompt check throws
    first and the response is the 500 envelope, not the validator's 400. *)
Lemma handleFileRequest_missing_prompt_answers_500 :
  isValid (validateFile None "image") = false /\
  responses (trace (handleFileRequest (JStr "production") "2025-10-15T10:30:00.000Z"
                      (fun _ => JUndefined) (fun bytes => bytes) (fun v => v)
                      (fun _ => inr (JStr "text")) (fun _ _ => inr (JStr "text"))
                      {| body := Some ∅; upload := None |}
                      "generate-from-image" "image"))
  = [{| http_status := JNum 500;
        json := {| status := false;
                   code := JNum 500;
                   message := JStr "Failed to generate content from image";
                   ResponseHandler.data := None;
                   meta := None;
                   errors := Some (JStr "Internal server error occurred");
                   timestamp := "2025-10-15T10:30:00.000Z" |} |}].
Proof. split; reflexivity. Qed.

(** Scenario C of the specification: a 15 MB JPEG on the image route. *)
Example handleFileRequest_oversized_image :
  responses (trace (handleFileRequest (JStr "production") "2025-10-15T10:30:00.000Z"
                      (fun _ => JUndefined) (fun bytes => bytes) (fun v => v)
                      (fun _ => inr (JStr "text")) (fun _ _ => inr (JStr "text"))
                      {| body := Some {["prompt" := JStr "Describe"]};
                         upload := Some (mkFile (JStr "big.jpg") (JStr "image/jpeg")
                                           (JNum 15728640) (Some "bytes")) |}
                      "generate-from-image" "image"))
  = [{| http_status := JNum 400;
        json := {| status := false;
                   code := JNum 400;
                   message := JStr "File size exceeds 10MB limit";
                   ResponseHandler.data := None;
                   meta := None;
                   errors := None;
                   timestamp := "2025-10-15T10:30:00.000Z" |} |}].
Proof. reflexivity. Qed.

(** * Further properties *)

(** ** Strings *)

(** String conversion on the values where it is not the identity: numbers
    above 2^53 and from 1e21 on, arrays, and objects with and without a
    [toString] of their own. *)
Example to_string_examples :
  to_string (JNum 9007199254740993) = Some "9007199254740992" /\
  to_string (JNum (2 ^ 64)) = Some "18446744073709552000" /\
  to_string (JNum (10 ^ 21)) = Some "1e+21" /\
  to_string (JNum (- 2 ^ 70)) = Some "-1.1805916207174113e+21" /\
  to_string (JNum (2 ^ 1024)) = Some "Infinity" /\
  to_string (JArr [JNum 1; JNull; JArr [JStr "a"; JUndefined]; JBool true]) = Some "1,,a,,true" /\
  to_string (JObj [("message", JStr "x")]) = Some "[object Object]" /\
  to_string (JObj [("toString", JNum 1)]) = None /\
  to_string (JArr [JStr "a"; JObj [("toString", JNull)]]) = None.
Proof. repeat split; vm_compute; reflexivity. Qed.

(** Upper-casing beyond the letters a-z: e with acute accent, sharp s,
    the micro sign and y with diaeresis. *)
Example toUpperCase_examples :
  toUpperCase "image" = code_units "IMAGE" /\
  toUpperCase (String (ascii_of_N 233) "") = [201%N] /\
  toUpperCase (String (ascii_of_N 223) "") = [83%N; 83%N] /\
  toUpperCase (String (ascii_of_N 181) "") = [924%N] /\
  toUpperCase (String (ascii_of_N 255) "") = [376%N] /\
  toUpperCase (String (ascii_of_N 247) "") = [247%N] /\
  toLowerCase (String (ascii_of_N 201) "IMAGE") = String (ascii_of_N 233) "image".
Proof. repeat split. Qed.

Lemma trimEnd_idempotent (s : string) : trimEnd (trimEnd s) = trimEnd s.
Proof.
  induction s as [|a s IH]; [reflexivity|].
  cbn [trimEnd]. destruct (trimEnd s) as [|b r] eqn:E.
  - destruct (is_white_space a) eqn:Ha; [reflexivity|].
    cbn [trimEnd]. rewrite Ha. reflexivity.
  - cbn [trimEnd] in *. rewrite IH. reflexivity.
Qed.

(** What [trimStart] returns is empty or starts with a character that is
    not white space, and [trimEnd] keeps such a first character. *)
Lemma trimStart_trimEnd_trimStart (s : string) :
  trimStart (trimEnd (trimStart s)) = trimEnd (trimStart s).
Proof.
  induction s as [|a s IH]; [reflexivity|].
  cbn [trimStart]. destruct (is_white_space a) eqn:Ha; [exact IH|].
  cbn [trimEnd]. destruct (trimEnd s); [rewrite Ha|]; cbn [trimStart]; rewrite Ha; reflexivity.
Qed.

Lemma trim_idempotent (s : string) : trim (trim s) = trim s.
Proof.
  unfold trim. rewrite trimStart_trimEnd_trimStart. apply trimEnd_idempotent.
Qed.

Lemma trim_value_idempotent (v : jsval) : trim_value (trim_value v) = trim_value v.
Proof. destruct v; cbn; try reflexivity. by rewrite trim_idempotent. Qed.

Lemma starts_with_spec (sub s : string) :
  starts_with sub s = true <-> exists post, s = sub ++ post.
Proof.
  revert s. induction sub as [|a sub IH]; intros s; cbn.
  - split; [eauto | reflexivity].
  - destruct s as [|b s]; [split; [discriminate | intros [post [=]]]|].
    rewrite andb_true_iff, IH. split.
    + intros [Hab [post ->]]. apply Ascii.eqb_eq in Hab. subst b. eauto.
    + intros [post [= -> ->]]. split; [apply Ascii.eqb_refl | eauto].
Qed.

(** [s.includes(sub)] holds exactly when [sub] occurs somewhere in [s]. *)
Lemma str_includes_spec (s sub : string) :
  str_includes s sub = true <-> exists pre post, s = pre ++ sub ++ post.
Proof.
  induction s as [|a s IH]; cbn [str_includes].
  - rewrite orb_false_r, starts_with_spec. split.
    + intros [post ->]. exists "", post. reflexivity.
    + intros (pre & post & H). destruct pre; [eauto | discriminate].
  - rewrite orb_true_iff, starts_with_spec, IH. split.
    + intros [[post ->] | (pre & post & ->)].
      * exists "", post. reflexivity.
      * exists (String a pre), post. reflexivity.
    + intros (pre & post & H). destruct pre as [|b pre].
      * left. eauto.
      * right. injection H as -> ->. eauto.
Qed.

(** ** The middleware, continued *)

Lemma not_dangerous (k : string) :
  k <> "__proto__" -> k <> "constructor" -> k <> "prototype" -> k ∉ dangerousKeys.
Proof.
  intros H1 H2 H3. unfold dangerousKeys. rewrite list_elem_of_In. cbn.
  intros [?|[?|[?|[]]]]; congruence.
Qed.

Lemma sanitized_lookup (b : gmap string jsval) (k : string) :
  (trim_value <$> delete "prototype" (delete "constructor" (delete "__proto__" b))) !! k
  = if decide (k ∈ dangerousKeys) then None else trim_value <$> b !! k.
Proof.
  rewrite lookup_fmap. unfold dangerousKeys. case_decide as Hk.
  - assert (Hnone : delete "prototype" (delete "constructor" (delete "__proto__" b)) !! k
                    = None); [|by rewrite Hnone].
    rewrite !lookup_delete_None. set_unfold in Hk.
    destruct Hk as [->|[->|[->|[]]]]; auto.
  - rewrite !lookup_delete_ne; [reflexivity | | |]; intros <-; apply Hk; set_solver.
Qed.

Section MiddlewareMore.
Variable now : string.
Variable stack : string -> jsval.

Lemma sanitizeRequestBody_explicit (b : gmap string jsval) :
  b !! "hasOwnProperty" = None ->
  sanitizeRequestBody stack (Some b)
  = Next (Some (trim_value <$>
                  delete "prototype" (delete "constructor" (delete "__proto__" b)))).
Proof.
  intros Hb. unfold sanitizeRequestBody. rewrite remove_dangerous_all by assumption.
  cbn [foldl dangerousKeys]. by rewrite trim_all_fields.
Qed.

(** X2: sanitizing twice is sanitizing once: the body the sanitizer passes on
    is passed on unchanged by a second run. *)
Theorem sanitizeRequestBody_idempotent (b : gmap string jsval) :
  b !! "hasOwnProperty" = None ->
  exists b1,
    sanitizeRequestBody stack (Some b) = Next (Some b1) /\
    sanitizeRequestBody stack (Some b1) = Next (Some b1).
Proof.
  intros Hb. eexists. split; [by apply sanitizeRequestBody_explicit|].
  rewrite sanitizeRequestBody_explicit.
  - do 2 f_equal. apply map_eq. intros k.
    rewrite sanitized_lookup, sanitized_lookup.
    case_decide as Hk; [reflexivity|].
    destruct (b !! k) as [v|]; cbn; [|reflexivity].
    by rewrite trim_value_idempotent.
  - rewrite sanitized_lookup. rewrite decide_False by (apply not_dangerous; discriminate).
    by rewrite Hb.
Qed.

(** X3: on the text route the sanitizer runs before the prompt validator, so
    the validator sees the trimmed prompt: the two together pass a body on
    exactly when its prompt is a string whose trimmed length is between 1 and
    10000, and what is passed on is the sanitized body. *)
Theorem sanitize_then_validatePrompt (b b2 : gmap string jsval) :
  b !! "hasOwnProperty" = None ->
  (exists body1,
     sanitizeRequestBody stack (Some b) = Next body1 /\
     validatePrompt now stack body1 = Next b2) <->
  (exists s,
     get b "prompt" = JStr s /\
     (1 <= strlen (trim s) <= 10000)%Z /\
     sanitizeRequestBody stack (Some b) = Next (Some b2)).
Proof.
  intros Hb. rewrite (sanitizeRequestBody_explicit b Hb).
  set (b1 := trim_value <$> delete "prototype" (delete "constructor" (delete "__proto__" b))).
  assert (Hp : b1 !! "prompt" = trim_value <$> b !! "prompt").
  { unfold b1. rewrite sanitized_lookup.
    by rewrite decide_False by (apply not_dangerous; discriminate). }
  assert (Hnz : forall s, (strlen (trim s) =? 0)%Z = false <-> (1 <= strlen (trim s))%Z).
  { intros s. pose proof (strlen_nonneg (trim s)). rewrite Z.eqb_neq. lia. }
  split.
  - intros (body1 & [= <-] & Hv). unfold validatePrompt, get in Hv. rewrite Hp in Hv.
    unfold get.
    destruct (b !! "prompt") as [[| | | | |s| |]|]; cbn in Hv; try discriminate;
      try (destruct b0; discriminate);
      try (destruct (negb (z =? 0)%Z); discriminate).
    destruct (String.eqb (trim s) ""); cbn [negb] in Hv; [discriminate|].
    rewrite trim_idempotent in Hv.
    destruct (strlen (trim s) =? 0)%Z eqn:Hz; [discriminate|].
    destruct (strlen (trim s) >? 10000)%Z eqn:Hl; [discriminate|].
    injection Hv as <-. exists s. apply Hnz in Hz.
    split; [reflexivity|]. split; [lia|].
    do 2 f_equal. symmetry. apply insert_id. rewrite Hp. reflexivity.
  - intros (s & Hs & [Hlo Hhi] & [= <-]). eexists. split; [reflexivity|].
    unfold get in Hs. destruct (b !! "prompt") as [v|] eqn:E; [|discriminate]. subst v.
    unfold validatePrompt, get. rewrite Hp. cbn [fmap option_fmap option_map trim_value truthy].
    destruct (String.eqb (trim s) "") eqn:He.
    { apply String.eqb_eq in He. rewrite He in Hlo. unfold strlen in Hlo. cbn in Hlo. lia. }
    cbn [negb]. rewrite trim_idempotent.
    apply Hnz in Hlo. rewrite Hlo.
    destruct (strlen (trim s) >? 10000)%Z eqn:Hl; [lia|].
    f_equal. apply insert_id. by rewrite Hp.
Qed.

End MiddlewareMore.

(** An instance: a body with padded strings and a dangerous key. *)
Lemma sanitizeRequestBody_idempotent_witness :
  ({["prompt" := JStr "  hello  "; "constructor" := JStr "x"]} : gmap string jsval)
    !! "hasOwnProperty" = None /\
  exists b1,
    sanitizeRequestBody (fun _ => JUndefined)
      (Some {["prompt" := JStr "  hello  "; "constructor" := JStr "x"]})
    = Next (Some b1) /\
    sanitizeRequestBody (fun _ => JUndefined) (Some b1) = Next (Some b1).
Proof.
  split; [reflexivity|].
  apply (sanitizeRequestBody_idempotent (fun _ => JUndefined)
           {["prompt" := JStr "  hello  "; "constructor" := JStr "x"]}).
  reflexivity.
Defined.

(** An instance: a padded prompt that the two middlewares pass on trimmed. *)
Lemma sanitize_then_validatePrompt_witness :
  ({["prompt" := JStr "  hello  "]} : gmap string jsval) !! "hasOwnProperty" = None /\
  ((exists body1,
      sanitizeRequestBody (fun _ => JUndefined) (Some {["prompt" := JStr "  hello  "]})
      = Next body1 /\
      validatePrompt "T" (fun _ => JUndefined) body1 = Next {["prompt" := JStr "hello"]}) <->
   (exists s,
      get {["prompt" := JStr "  hello  "]} "prompt" = JStr s /\
      (1 <= strlen (trim s) <= 10000)%Z /\
      sanitizeRequestBody (fun _ => JUndefined) (Some {["prompt" := JStr "  hello  "]})
      = Next (Some {["prompt" := JStr "hello"]}))).
Proof.
  split; [reflexivity|].
  apply (sanitize_then_validatePrompt "T" (fun _ => JUndefined)
           {["prompt" := JStr "  hello  "]} {["prompt" := JStr "hello"]}).
  reflexivity.
Defined.

Section Guards.
Variable now : string.
Variable stack : string -> jsval.

(** X4: the prompt validator never throws on a request that has a body, and its
    checks are tried in a fixed order, the first failure deciding the
    message: missing or falsy prompt, then not a string, then empty after
    trimming (however long the white space is), then longer than 10000. *)
Theorem validatePrompt_first_failure_wins (b : gmap string jsval) :
  let p := get b "prompt" in
  let reject msg := Responded (sendValidationError now (JStr msg) JUndefined) in
  (forall e, validatePrompt now stack (Some b) <> Thrown e) /\
  (truthy p = false ->
     validatePrompt now stack (Some b) = reject "Prompt is required in the request body") /\
  (truthy p = true -> typeof p <> "string" ->
     validatePrompt now stack (Some b) = reject "Prompt must be a string") /\
  (forall s, p = JStr s -> s <> "" -> trim s = "" ->
     validatePrompt now stack (Some b) = reject "Prompt cannot be empty") /\
  (forall s, p = JStr s -> trim s <> "" -> (strlen s > 10000)%Z ->
     validatePrompt now stack (Some b)
     = reject "Prompt is too long (maximum 10,000 characters)").
Proof.
  cbv zeta. unfold validatePrompt. repeat split.
  - intros e. destruct (get b "prompt") as [| | | | |s| |]; cbn [truthy negb];
      try discriminate;
      try (match goal with |- context [negb ?x] => destruct x end; discriminate).
    destruct (String.eqb s ""); cbn [negb]; [discriminate|].
    destruct (strlen (trim s) =? 0)%Z; [discriminate|].
    destruct (strlen s >? 10000)%Z; discriminate.
  - intros ->. reflexivity.
  - intros Ht Hty. rewrite Ht. cbn [negb].
    destruct (get b "prompt"); try reflexivity. by destruct Hty.
  - intros s -> Hne Hempty. cbn [truthy].
    destruct (String.eqb s "") eqn:He; [apply String.eqb_eq in He; contradiction|].
    cbn [negb]. rewrite Hempty. reflexivity.
  - intros s -> Hne Hlong. cbn [truthy].
    destruct (String.eqb s "") eqn:He.
    { apply String.eqb_eq in He. subst s. by destruct Hne. }
    cbn [negb].
    destruct (strlen (trim s) =? 0)%Z eqn:Hz.
    { apply Z.eqb_eq in Hz. unfold strlen in Hz. destruct (trim s); [by destruct Hne|].
      cbn in Hz. lia. }
    destruct (strlen s >? 10000)%Z eqn:Hl; [reflexivity | lia].
Qed.

(** X5: the content-type gate lets a request through exactly when the header is
    present and has [multipart/form-data] somewhere in it, in this letter
    case, whatever comes before or after (such as a boundary parameter);
    every other request gets the 400 envelope. *)
Theorem validateContentType_accepts_iff (contentType : option string) :
  (validateContentType now contentType = Next tt <->
     exists pre post, contentType = Some (pre ++ "multipart/form-data" ++ post)) /\
  (validateContentType now contentType = Next tt \/
   validateContentType now contentType
   = Responded (sendValidationError now
                  (JStr "Content-Type must be multipart/form-data for file uploads")
                  JUndefined)).
Proof.
  unfold validateContentType. destruct contentType as [s|].
  - cbn [truthy].
    pose proof (str_includes_spec s "multipart/form-data") as Hspec.
    destruct (String.eqb s "") eqn:He; cbn [negb orb].
    + apply String.eqb_eq in He. subst s. split; [|by right].
      split; [discriminate|]. intros (pre & post & [= H]).
      destruct pre; discriminate.
    + destruct (str_includes s "multipart/form-data"); cbn [negb]; split; auto.
      * split; [intros _|reflexivity].
        destruct Hspec as [(pre & post & ->) _]; eauto.
      * split; [discriminate|]. intros (pre & post & [= ->]).
        destruct Hspec as [_ Hspec]. discriminate Hspec. eauto.
  - split; [|by right]. split; [discriminate | intros (pre & post & [=])].
Qed.

(** X6: on the upload routes [validateFileUpload] runs before the handler, so
    the handler's validator never reports a missing file: a request that
    passed the middleware fails [validateFile] only on type or size. *)
Theorem validateFileUpload_then_validateFile (fileType : string) (c : FileTypeSpec)
    (f : option file) :
  getFileTypeConfig (JStr fileType) = Some c ->
  validateFileUpload now fileType f = Next fileType ->
  error (validateFile f fileType) <> JStr (name c ++ " file is required") /\
  (isValid (validateFile f fileType) = false ->
     error (validateFile f fileType) = JStr (errorMessage c) \/
     exists mb, error (validateFile f fileType)
                = JStr ("File size exceeds " ++ string_of_Z mb ++ "MB limit")).
Proof.
  intros Hc Hup. destruct f as [f0|]; [|discriminate].
  pose proof (getFileTypeConfig_registry _ _ Hc) as Hreg.
  unfold validateFile. rewrite Hc.
  destruct (isValidFileType (Some f0) fileType); cbn [negb].
  - destruct (isValidFileSize (Some f0) (maxSize c)); cbn [negb isValid error].
    + split; [discriminate|]. discriminate.
    + split; [|eauto].
      unfold registry_specs in Hreg. cbn in Hreg.
      destruct Hreg as [<- | [<- | [<- | [<- | []]]]]; vm_compute; discriminate.
  - cbn [isValid error]. split; [|auto].
    unfold registry_specs in Hreg. cbn in Hreg.
    destruct Hreg as [<- | [<- | [<- | [<- | []]]]]; vm_compute; discriminate.
Qed.

End Guards.

(** An instance: an oversized JPEG on the image route. *)
Lemma validateFileUpload_then_validateFile_witness :
  getFileTypeConfig (JStr "image") = Some IMAGE /\
  validateFileUpload "T" "image"
    (Some (mkFile (JStr "big.jpg") (JStr "image/jpeg") (JNum 15728640) None))
  = Next "image" /\
  error (validateFile (Some (mkFile (JStr "big.jpg") (JStr "image/jpeg") (JNum 15728640) None))
           "image")
    <> JStr (name IMAGE ++ " file is required") /\
  (isValid (validateFile
              (Some (mkFile (JStr "big.jpg") (JStr "image/jpeg") (JNum 15728640) None))
              "image") = false ->
     error (validateFile
              (Some (mkFile (JStr "big.jpg") (JStr "image/jpeg") (JNum 15728640) None))
              "image") = JStr (errorMessage IMAGE) \/
     exists mb,
       error (validateFile
                (Some (mkFile (JStr "big.jpg") (JStr "image/jpeg") (JNum 15728640) None))
                "image")
       = JStr ("File size exceeds " ++ string_of_Z mb ++ "MB limit")).
Proof.
  split; [reflexivity|]. split; [reflexivity|].
  apply (validateFileUpload_then_validateFile "T" "image" IMAGE
           (Some (mkFile (JStr "big.jpg") (JStr "image/jpeg") (JNum 15728640) None)));
    reflexivity.
Defined.

(** ** The rate limiter, continued *)

Section RateLimiterClients.
Variable toISOString : Z -> string.

Lemma serve_cons (l : limiter) (c : call) (rest : list call) :
  serve toISOString l (c :: rest)
  = (fst (serve toISOString
            (fst (rateLimiter toISOString l (call_ip c) (call_remoteAddress c) (call_time c)))
            rest),
     snd (rateLimiter toISOString l (call_ip c) (call_remoteAddress c) (call_time c))
     :: snd (serve toISOString
               (fst (rateLimiter toISOString l (call_ip c) (call_remoteAddress c)
                       (call_time c)))
               rest)).
Proof.
  cbn [serve].
  destruct (rateLimiter toISOString l (call_ip c) (call_remoteAddress c) (call_time c))
    as [l1 o]. cbn [fst snd].
  destruct (serve toISOString l1 rest) as [l2 os]. reflexivity.
Qed.

(** One call touches the entry of its own client only, and never the
    parameters. *)
Lemma rateLimiter_frame (l : limiter) (ip ra : option string) (now : Z) :
  let l' := fst (rateLimiter toISOString l ip ra now) in
  maxRequests l' = maxRequests l /\
  timeWindow l' = timeWindow l /\
  (forall k, k <> clientId ip ra -> requests l' !! k = requests l !! k) /\
  is_Some (requests l' !! clientId ip ra).
Proof.
  cbv zeta. destruct (requests l !! clientId ip ra) as [e|] eqn:He.
  - rewrite (rateLimiter_step toISOString ip ra l e now He).
    destruct (now >? resetTime e)%Z; [|destruct (count e >=? maxRequests l)%Z];
      cbn [fst set_entry maxRequests timeWindow requests]; repeat split;
      try (intros k Hk; by rewrite lookup_insert_ne);
      try (rewrite lookup_insert_eq; eauto); eauto.
  - rewrite (rateLimiter_first toISOString ip ra l now He).
    cbn [fst set_entry maxRequests timeWindow requests]. repeat split.
    + intros k Hk. by rewrite lookup_insert_ne.
    + rewrite lookup_insert_eq. eauto.
Qed.

(** What a call does for its client depends on the parameters and on that
    client's entry only. *)
Lemma rateLimiter_local (l1 l2 : limiter) (ip ra : option string) (now : Z) :
  maxRequests l1 = maxRequests l2 ->
  timeWindow l1 = timeWindow l2 ->
  requests l1 !! clientId ip ra = requests l2 !! clientId ip ra ->
  snd (rateLimiter toISOString l1 ip ra now) = snd (rateLimiter toISOString l2 ip ra now) /\
  requests (fst (rateLimiter toISOString l1 ip ra now)) !! clientId ip ra
  = requests (fst (rateLimiter toISOString l2 ip ra now)) !! clientId ip ra.
Proof.
  intros HN HW He.
  destruct (requests l2 !! clientId ip ra) as [e|] eqn:He2.
  - rewrite (rateLimiter_step toISOString ip ra l1 e now He),
            (rateLimiter_step toISOString ip ra l2 e now He2), HN, HW.
    destruct (now >? resetTime e)%Z; [|destruct (count e >=? maxRequests l2)%Z];
      cbn [fst snd set_entry requests]; rewrite ?lookup_insert_eq, ?He, ?He2; auto.
  - rewrite (rateLimiter_first toISOString ip ra l1 now He),
            (rateLimiter_first toISOString ip ra l2 now He2), HW.
    cbn [fst snd set_entry requests]. by rewrite !lookup_insert_eq.
Qed.

Lemma serve_isolated (k : option string) (reqs : list call) :
  forall l1 l2 : limiter,
    maxRequests l1 = maxRequests l2 ->
    timeWindow l1 = timeWindow l2 ->
    requests l1 !! k = requests l2 !! k ->
    outcomes_for k reqs (snd (serve toISOString l1 reqs))
    = snd (serve toISOString l2 (filter (fun c => client_of c = k) reqs)) /\
    requests (fst (serve toISOString l1 reqs)) !! k
    = requests (fst (serve toISOString l2 (filter (fun c => client_of c = k) reqs))) !! k.
Proof.
  induction reqs as [|c reqs IH]; intros l1 l2 HN HW He; [by split|].
  rewrite serve_cons. cbn [fst snd outcomes_for].
  pose proof (rateLimiter_frame l1 (call_ip c) (call_remoteAddress c) (call_time c))
    as (HN1 & HW1 & Hother & _). cbv zeta in *.
  rewrite filter_cons. destruct (decide (client_of c = k)) as [Hc|Hc].
  - rewrite serve_cons. cbn [fst snd].
    pose proof (rateLimiter_frame l2 (call_ip c) (call_remoteAddress c) (call_time c))
      as (HN2 & HW2 & _ & _). cbv zeta in *.
    unfold client_of in Hc. subst k.
    destruct (rateLimiter_local l1 l2 _ _ (call_time c) HN HW He) as [Ho Hst].
    destruct (IH _ _ (eq_trans HN1 (eq_trans HN (eq_sym HN2)))
                     (eq_trans HW1 (eq_trans HW (eq_sym HW2))) Hst) as [IH1 IH2].
    split; [by rewrite Ho, IH1 | exact IH2].
  - apply IH; [congruence | congruence |].
    rewrite Hother by (unfold client_of in Hc; congruence). exact He.
Qed.

(** X7: clients do not affect each other: in any interleaving of requests, the
    outcomes of client [k]'s requests and its final entry are those of a
    limiter that saw only [k]'s requests. *)
Theorem rateLimiter_clients_isolated (N W : Z) (k : option string) (reqs : list call) :
  outcomes_for k reqs (snd (serve toISOString (createRateLimiter N W) reqs))
  = snd (serve toISOString (createRateLimiter N W)
           (filter (fun c => client_of c = k) reqs)) /\
  requests (fst (serve toISOString (createRateLimiter N W) reqs)) !! k
  = requests (fst (serve toISOString (createRateLimiter N W)
                     (filter (fun c => client_of c = k) reqs))) !! k.
Proof. by apply serve_isolated. Qed.

Lemma rateLimiter_counts_bounded (l : limiter) (ip ra : option string) (now : Z) :
  counts_bounded l -> counts_bounded (fst (rateLimiter toISOString l ip ra now)).
Proof.
  intros Hl k e'.
  pose proof (rateLimiter_frame l ip ra now) as (HN & _ & Hother & _). cbv zeta in *.
  rewrite HN. destruct (decide (k = clientId ip ra)) as [->|Hk].
  2:{ rewrite Hother by assumption. apply Hl. }
  destruct (requests l !! clientId ip ra) as [e|] eqn:He.
  - pose proof (Hl _ _ He) as Hb.
    rewrite (rateLimiter_step toISOString ip ra l e now He).
    destruct (now >? resetTime e)%Z.
    + cbn [fst set_entry requests]. rewrite lookup_insert_eq. intros [= <-]. cbn. lia.
    + destruct (Z.geb_spec (count e) (maxRequests l)); cbn [fst set_entry requests].
      * rewrite He. intros [= <-]. exact Hb.
      * rewrite lookup_insert_eq. intros [= <-]. cbn. lia.
  - rewrite (rateLimiter_first toISOString ip ra l now He).
    cbn [fst set_entry requests]. rewrite lookup_insert_eq. intros [= <-]. cbn. lia.
Qed.

(** X8: whatever requests arrive, from whichever clients and at whatever times,
    the limiter keeps its two parameters and every stored count stays
    between 1 and the ceiling. *)
Theorem serve_keeps_counts_bounded (N W : Z) (reqs : list call) :
  let l := fst (serve toISOString (createRateLimiter N W) reqs) in
  maxRequests l = N /\ timeWindow l = W /\ counts_bounded l.
Proof.
  cbv zeta.
  assert (H : forall l, counts_bounded l ->
            maxRequests (fst (serve toISOString l reqs)) = maxRequests l /\
            timeWindow (fst (serve toISOString l reqs)) = timeWindow l /\
            counts_bounded (fst (serve toISOString l reqs))).
  { induction reqs as [|c reqs IH]; intros l Hl; [cbn; auto|].
    rewrite serve_cons. cbn [fst].
    pose proof (rateLimiter_frame l (call_ip c) (call_remoteAddress c) (call_time c))
      as (HN & HW & _ & _). cbv zeta in *.
    destruct (IH _ (rateLimiter_counts_bounded l (call_ip c) (call_remoteAddress c)
                      (call_time c) Hl)) as (H1 & H2 & H3).
    split; [congruence | split; [congruence | exact H3]]. }
  apply (H (createRateLimiter N W)).
  intros k e Hk. cbn in Hk. by rewrite lookup_empty in Hk.
Qed.

(** X9: the map only grows: after any requests its keys are the keys it had
    plus the clients seen; no entry is ever removed. *)
Theorem serve_never_evicts (l : limiter) (reqs : list call) :
  dom (requests (fst (serve toISOString l reqs)))
  = dom (requests l) ∪ list_to_set (client_of <$> reqs).
Proof.
  revert l. induction reqs as [|c reqs IH]; intros l.
  - cbn. by rewrite union_empty_r_L.
  - rewrite serve_cons. cbn [fst]. rewrite IH.
    pose proof (rateLimiter_frame l (call_ip c) (call_remoteAddress c) (call_time c))
      as (_ & _ & Hother & Hmine). cbv zeta in *.
    rewrite fmap_cons, list_to_set_cons.
    apply set_eq. intros k. rewrite !elem_of_union, !elem_of_dom, elem_of_singleton.
    unfold client_of at 2.
    destruct (decide (k = clientId (call_ip c) (call_remoteAddress c))) as [->|Hk].
    + tauto.
    + rewrite Hother by assumption. tauto.
Qed.

End RateLimiterClients.

Section RateLimiterBurst.
Variable toISOString : Z -> string.
Variables ip remoteAddress : option string.

Lemma calls_app (ts1 ts2 : list Z) :
  forall l : limiter,
    calls toISOString l ip remoteAddress (ts1 ++ ts2)
    = (fst (calls toISOString (fst (calls toISOString l ip remoteAddress ts1))
              ip remoteAddress ts2),
       (snd (calls toISOString l ip remoteAddress ts1)
        ++ snd (calls toISOString (fst (calls toISOString l ip remoteAddress ts1))
                  ip remoteAddress ts2))%list).
Proof.
  induction ts1 as [|t ts1 IH]; intros l.
  - cbn [app calls fst snd].
    by destruct (calls toISOString l ip remoteAddress ts2).
  - change ((t :: ts1) ++ ts2)%list with (t :: (ts1 ++ ts2))%list.
    rewrite !calls_cons, IH. reflexivity.
Qed.

(** While the count has room for all of them, calls are all let through. *)
Lemma imap_all_admitted (ts : list Z) :
  forall c N : Z,
    (c + Z.of_nat (length ts) <= N)%Z ->
    imap (fun i u => if (c + Z.of_nat i <? N)%Z
                     then Next tt else Responded (tooMany toISOString u)) ts
    = replicate (length ts) (Next tt).
Proof.
  induction ts as [|u ts IH]; intros c N Hc; [reflexivity|].
  cbn [length] in *. rewrite imap_cons, replicate_S. f_equal.
  - destruct (Z.ltb_spec (c + Z.of_nat 0) N); [reflexivity | lia].
  - rewrite <- (IH (c + 1)%Z N) by lia.
    apply imap_ext. intros i x _. cbn. by replace (c + 1 + Z.of_nat i)%Z
      with (c + Z.of_nat (S i))%Z by lia.
Qed.

(** X10: the window is fixed, not sliding: a client whose first call is at [t0]
    can place [N - 1] more calls at the very end of that window and [N] calls
    one millisecond later; all [2 N] are let through. *)
Theorem rateLimiter_burst_across_boundary (N W t0 : Z) :
  (1 <= N)%Z -> (0 <= W)%Z ->
  snd (calls toISOString (createRateLimiter N W) ip remoteAddress
         (t0 :: replicate (Z.to_nat (N - 1)) (t0 + W)%Z
             ++ replicate (Z.to_nat N) (t0 + W + 1)%Z))
  = replicate (Z.to_nat (2 * N)) (Next tt).
Proof.
  intros HN HW.
  change (t0 :: replicate (Z.to_nat (N - 1)) (t0 + W)%Z
             ++ replicate (Z.to_nat N) (t0 + W + 1)%Z)%list
    with ((t0 :: replicate (Z.to_nat (N - 1)) (t0 + W)%Z)
             ++ replicate (Z.to_nat N) (t0 + W + 1)%Z)%list.
  rewrite calls_app. cbn [snd].
  destruct (calls_first_window toISOString ip remoteAddress N W t0
              (replicate (Z.to_nat (N - 1)) (t0 + W)%Z))
    as (He & HmaxN & HwinW & Hout).
  { apply Forall_forall. intros u Hu. apply elem_of_replicate in Hu as [-> _]. lia. }
  set (l1 := fst (calls toISOString (createRateLimiter N W) ip remoteAddress
                    (t0 :: replicate (Z.to_nat (N - 1)) (t0 + W)%Z))) in *.
  rewrite Hout, length_replicate in *.
  rewrite imap_all_admitted by (rewrite length_replicate; lia).
  rewrite length_replicate.
  replace (Z.to_nat N) with (S (Z.to_nat (N - 1))) at 1 by lia.
  rewrite replicate_S, calls_cons. cbn [snd].
  rewrite (rateLimiter_step toISOString ip remoteAddress l1 _ (t0 + W + 1) He).
  cbn [count resetTime].
  destruct (Z.gtb_spec (t0 + W + 1) (t0 + W)) as [_|?]; [|lia]. cbn [fst snd].
  set (l2 := set_entry l1 (clientId ip remoteAddress)
               {| count := 1; resetTime := t0 + W + 1 + timeWindow l1 |}).
  assert (Hl2 : requests l2 !! clientId ip remoteAddress
                = Some {| count := 1; resetTime := t0 + W + 1 + timeWindow l1 |})
    by apply lookup_insert_eq.
  destruct (calls_in_window toISOString ip remoteAddress
              (replicate (Z.to_nat (N - 1)) (t0 + W + 1)%Z) l2 _ _ Hl2)
    as (_ & _ & _ & Hout2).
  { apply Forall_forall. intros u Hu. apply elem_of_replicate in Hu as [-> _]. lia. }
  rewrite Hout2. cbn [l2 set_entry maxRequests]. rewrite HmaxN.
  rewrite imap_all_admitted by (rewrite length_replicate; lia).
  rewrite length_replicate.
  change (Next tt :: replicate (Z.to_nat (N - 1)) (Next tt))
    with (replicate (S (Z.to_nat (N - 1))) (@Next unit tt)).
  change (Next tt :: replicate (Z.to_nat (N - 1)) (Next tt))
    with (replicate (S (Z.to_nat (N - 1))) (@Next unit tt)).
  rewrite <- replicate_add. f_equal. lia.
Qed.

(** X11: A call is rejected only inside a window whose count has reached the
    ceiling, and a rejection changes nothing: neither the count nor the
    reset time, so rejected calls never postpone the reset. *)
Theorem rateLimiter_rejection (l l' : limiter) (now : Z) (r : response) :
  rateLimiter toISOString l ip remoteAddress now = (l', Responded r) ->
  l' = l /\
  r = tooMany toISOString now /\
  exists e,
    requests l !! clientId ip remoteAddress = Some e /\
    (now <= resetTime e)%Z /\ (maxRequests l <= count e)%Z.
Proof.
  intros H.
  destruct (requests l !! clientId ip remoteAddress) as [e|] eqn:He.
  - rewrite (rateLimiter_step toISOString ip remoteAddress l e now He) in H.
    destruct (Z.gtb_spec now (resetTime e)); [discriminate|].
    destruct (Z.geb_spec (count e) (maxRequests l)); [|discriminate].
    injection H as <- <-. eauto 6.
  - rewrite (rateLimiter_first toISOString ip remoteAddress l now He) in H. discriminate.
Qed.

End RateLimiterBurst.

(** An instance: [N = 2], [W = 10], calls at 0, 10, 11, 11. *)
Lemma rateLimiter_burst_across_boundary_witness :
  (1 <= 2)%Z /\ (0 <= 10)%Z /\
  snd (calls (fun _ => "") (createRateLimiter 2 10) (Some "127.0.0.1") None
         (0%Z :: replicate (Z.to_nat (2 - 1)) (0 + 10)%Z
             ++ replicate (Z.to_nat 2) (0 + 10 + 1)%Z))
  = replicate (Z.to_nat (2 * 2)) (Next tt).
Proof.
  split; [lia|]. split; [lia|].
  apply (rateLimiter_burst_across_boundary (fun _ => "") (Some "127.0.0.1") None 2 10 0); lia.
Defined.

(** An instance: the third call of a client within a window of ceiling 2. *)
Lemma rateLimiter_rejection_witness :
  rateLimiter (fun _ => "")
    (set_entry (createRateLimiter 2 10) (Some "127.0.0.1") {| count := 2; resetTime := 10 |})
    (Some "127.0.0.1") None 7
  = (set_entry (createRateLimiter 2 10) (Some "127.0.0.1") {| count := 2; resetTime := 10 |},
     Responded (tooMany (fun _ => "") 7)) /\
  (set_entry (createRateLimiter 2 10) (Some "127.0.0.1") {| count := 2; resetTime := 10 |}
   = set_entry (createRateLimiter 2 10) (Some "127.0.0.1") {| count := 2; resetTime := 10 |} /\
   tooMany (fun _ => "") 7 = tooMany (fun _ => "") 7 /\
   exists e,
     requests (set_entry (createRateLimiter 2 10) (Some "127.0.0.1")
                 {| count := 2; resetTime := 10 |}) !! clientId (Some "127.0.0.1") None
     = Some e /\
     (7 <= resetTime e)%Z /\
     (maxRequests (set_entry (createRateLimiter 2 10) (Some "127.0.0.1")
                     {| count := 2; resetTime := 10 |}) <= count e)%Z).
Proof.
  split; [reflexivity|].
  apply (rateLimiter_rejection (fun _ => "") (Some "127.0.0.1") None
           (set_entry (createRateLimiter 2 10) (Some "127.0.0.1")
              {| count := 2; resetTime := 10 |})
           (set_entry (createRateLimiter 2 10) (Some "127.0.0.1")
              {| count := 2; resetTime := 10 |})
           7 (tooMany (fun _ => "") 7)).
  reflexivity.
Defined.

(** ** The file validator, continued *)

(** The lookup goes through the upper-cased name only. *)
Lemma getFileTypeConfig_upper (s : string) :
  getFileTypeConfig (JStr s) = property FILE_TYPES (toUpperCase s).
Proof.
  unfold getFileTypeConfig. cbn [truthy typeof].
  destruct s; reflexivity.
Qed.

(** Upper-casing does not see the case of a letter a-z. *)
Lemma upper_unit_fold (a : ascii) :
  upper_unit (N_of_ascii (fold_letter a)) = upper_unit (N_of_ascii a).
Proof. destruct a as [[] [] [] [] [] [] [] []]; reflexivity. Qed.

Lemma toUpperCase_fold (s : string) : toUpperCase (fold_letters s) = toUpperCase s.
Proof.
  induction s as [|a s IH]; [reflexivity|].
  cbn [fold_letters map_string toUpperCase].
  rewrite upper_unit_fold. f_equal. exact IH.
Qed.

Lemma getFileTypeConfig_fold (s s' : string) :
  fold_letters s = fold_letters s' ->
  getFileTypeConfig (JStr s) = getFileTypeConfig (JStr s').
Proof.
  intros H. rewrite !getFileTypeConfig_upper.
  by rewrite <- (toUpperCase_fold s), <- (toUpperCase_fold s'), H.
Qed.

(** X12: the registry lookup does not see the case of the letters a-z: two
    names that differ at most in it resolve alike and give the same verdict
    on every file (the same result altogether when the name resolves), and
    every spelling of image, document, audio and video resolves to that
    category's own entry. *)
Theorem getFileTypeConfig_case_insensitive (s s' : string) :
  fold_letters s = fold_letters s' ->
  getFileTypeConfig (JStr s) = getFileTypeConfig (JStr s') /\
  (forall f,
     isValid (validateFile f s) = isValid (validateFile f s') /\
     (is_Some (getFileTypeConfig (JStr s)) -> validateFile f s = validateFile f s')) /\
  Forall (fun '(C, c, _, _) =>
            fold_letters s = fold_letters C -> getFileTypeConfig (JStr s) = Some c)
         categories.
Proof.
  intros Hs. pose proof (getFileTypeConfig_fold s s' Hs) as Hc.
  split; [exact Hc|]. split.
  - intros f. unfold validateFile, isValidFileType. rewrite <- Hc.
    destruct (getFileTypeConfig (JStr s)) as [c|].
    + split; [|intros _]; destruct f; reflexivity.
    + split; [reflexivity|]. by intros [? [=]].
  - unfold categories.
    repeat (apply List.Forall_cons; [|]); [| | | |apply List.Forall_nil];
      intros HC;
      match type of HC with
      | _ = fold_letters ?C => rewrite (getFileTypeConfig_fold s C HC)
      end; reflexivity.
Qed.

(** An instance: "Image" and "iMAGE". *)
Lemma getFileTypeConfig_case_insensitive_witness :
  fold_letters "Image" = fold_letters "iMAGE" /\
  getFileTypeConfig (JStr "Image") = getFileTypeConfig (JStr "iMAGE") /\
  (forall f,
     isValid (validateFile f "Image") = isValid (validateFile f "iMAGE") /\
     (is_Some (getFileTypeConfig (JStr "Image")) ->
      validateFile f "Image" = validateFile f "iMAGE")) /\
  Forall (fun '(C, c, _, _) =>
            fold_letters "Image" = fold_letters C ->
            getFileTypeConfig (JStr "Image") = Some c)
         categories.
Proof.
  split; [reflexivity|].
  apply (getFileTypeConfig_case_insensitive "Image" "iMAGE"). reflexivity.
Defined.

Lemma registry_names_resolve (c : FileTypeSpec) :
  In c registry_specs -> getFileTypeConfig (JStr (name c)) = Some c.
Proof.
  unfold registry_specs. cbn.
  intros [<- | [<- | [<- | [<- | []]]]]; reflexivity.
Qed.

Lemma registry_messages_nonempty (c : FileTypeSpec) :
  In c registry_specs -> errorMessage c <> "".
Proof.
  unfold registry_specs. cbn.
  intros [<- | [<- | [<- | [<- | []]]]]; discriminate.
Qed.

(** X13: the validator's verdict and its message go together: a valid result
    has [error = null], an invalid one has a non-empty string, so the 400
    envelope built from it always has a message. *)
Theorem validateFile_error_iff_invalid (f : option file) (fileType : string) :
  (isValid (validateFile f fileType) = true <-> error (validateFile f fileType) = JNull) /\
  (isValid (validateFile f fileType) = false ->
     exists msg, error (validateFile f fileType) = JStr msg /\ msg <> "").
Proof.
  unfold validateFile.
  destruct (getFileTypeConfig (JStr fileType)) as [c|] eqn:Hc.
  2:{ cbn. split; [split; discriminate|]. intros _. eexists. split; [reflexivity|].
      discriminate. }
  pose proof (registry_messages_nonempty c (getFileTypeConfig_registry _ _ Hc)) as Hmsg.
  destruct f as [f0|].
  2:{ cbn. split; [split; discriminate|]. intros _. eexists. split; [reflexivity|].
      destruct (name c); discriminate. }
  destruct (isValidFileType (Some f0) fileType); cbn [negb].
  - destruct (isValidFileSize (Some f0) (maxSize c)); cbn [negb isValid error].
    + split; [split; reflexivity | discriminate].
    + split; [split; discriminate|]. intros _. eexists. split; [reflexivity|]. discriminate.
  - cbn [isValid error]. split; [split; discriminate|]. eauto.
Qed.

(** What a valid verdict tells about the file. *)
Lemma validateFile_valid_inv (f : option file) (fileType : string) :
  isValid (validateFile f fileType) = true ->
  exists f0 c mime,
    f = Some f0 /\
    getFileTypeConfig (JStr fileType) = Some c /\
    mimetype f0 = JStr mime /\ In mime (allowedMimeTypes c) /\ mime <> "".
Proof.
  unfold validateFile.
  destruct (getFileTypeConfig (JStr fileType)) as [c|] eqn:Hc; [|discriminate].
  destruct f as [f0|]; [|discriminate].
  destruct (isValidFileType (Some f0) fileType) eqn:Ht; [|discriminate].
  intros _.
  apply (isValidFileType_iff f0 fileType c Hc) in Ht as (mime & Hm & Hin).
  exists f0, c, mime. repeat split; auto.
  intros ->. eapply registry_mime_nonempty; eauto using getFileTypeConfig_registry.
Qed.

Section Encoding.
Variable base64 : string -> string.
Variable stack : string -> jsval.

(** X14: after a successful validation the encoding can fail for one reason
    only, a file object without a buffer; otherwise the payload pairs the
    declared MIME type, one of the category's allowed ones, with the base64
    text of the bytes. *)
Theorem prepareFileForAPI_after_validation (f : option file) (fileType : string) :
  isValid (validateFile f fileType) = true ->
  exists f0 c mime,
    f = Some f0 /\
    getFileTypeConfig (JStr fileType) = Some c /\
    mimetype f0 = JStr mime /\ In mime (allowedMimeTypes c) /\
    prepareFileForAPI base64 stack f
    = match buffer f0 with
      | Some bytes => inr {| mimeType := JStr mime; FileValidation.data := base64 bytes |}
      | None => inl (new_Error stack "Invalid file object - missing buffer or mimetype")
      end.
Proof.
  intros Hvalid.
  destruct (validateFile_valid_inv f fileType Hvalid)
    as (f0 & c & mime & -> & Hc & Hm & Hin & Hne).
  exists f0, c, mime. repeat split; auto.
  unfold prepareFileForAPI. destruct (buffer f0); [|reflexivity].
  rewrite Hm. cbn [truthy].
  destruct (String.eqb_spec mime ""); [contradiction | reflexivity].
Qed.

End Encoding.

(** An instance: a small PNG with its bytes. *)
Lemma prepareFileForAPI_after_validation_witness :
  isValid (validateFile (Some (mkFile (JStr "cat.png") (JStr "image/png") (JNum 3)
                                 (Some "abc"))) "image") = true /\
  exists f0 c mime,
    Some (mkFile (JStr "cat.png") (JStr "image/png") (JNum 3) (Some "abc")) = Some f0 /\
    getFileTypeConfig (JStr "image") = Some c /\
    mimetype f0 = JStr mime /\ In mime (allowedMimeTypes c) /\
    prepareFileForAPI (fun bytes => bytes) (fun _ => JUndefined)
      (Some (mkFile (JStr "cat.png") (JStr "image/png") (JNum 3) (Some "abc")))
    = match buffer f0 with
      | Some bytes => inr {| mimeType := JStr mime; FileValidation.data := bytes |}
      | None => inl (new_Error (fun _ => JUndefined)
                       "Invalid file object - missing buffer or mimetype")
      end.
Proof.
  split; [reflexivity|].
  apply (prepareFileForAPI_after_validation (fun bytes => bytes) (fun _ => JUndefined)
           (Some (mkFile (JStr "cat.png") (JStr "image/png") (JNum 3) (Some "abc")))
           "image").
  reflexivity.
Defined.

(** ** The upload filter of the routes *)

(** X15: the filter multer runs for a category accepts exactly the files whose
    declared type the validator accepts for that category, and what it
    rejects is answered by [handleMulterError] with a 400 carrying the
    category's message; a filter rejection never reaches the router's 500
    handler. *)
Theorem fileFilter_agrees_with_validator (c : FileTypeSpec) (f0 : file) :
  In c registry_specs ->
  (fileFilter c f0 = inr tt <-> isValidFileType (Some f0) (name c) = true) /\
  (forall e, fileFilter c f0 = inl e ->
     handleMulterError e
     = Answered {| direct_status := 400;
                   direct_json := [("status", JBool false); ("code", JNum 400);
                                   ("message", JStr (errorMessage c));
                                   ("errors", JStr "Invalid file type")] |}).
Proof.
  intros Hreg. pose proof (registry_names_resolve c Hreg) as Hc. split.
  - rewrite (isValidFileType_iff f0 (name c) c Hc), <- includes_In.
    unfold fileFilter. destruct (includes (allowedMimeTypes c) (mimetype f0));
      split; (reflexivity || discriminate).
  - intros e. unfold fileFilter.
    destruct (includes (allowedMimeTypes c) (mimetype f0)); [discriminate|].
    intros [= <-]. unfold registry_specs in Hreg. cbn in Hreg.
    destruct Hreg as [<- | [<- | [<- | [<- | []]]]]; reflexivity.
Qed.

(** An instance: a PDF sent to the image route. *)
Lemma fileFilter_agrees_with_validator_witness :
  In IMAGE registry_specs /\
  (fileFilter IMAGE (mkFile (JStr "a.pdf") (JStr "application/pdf") (JNum 10) None) = inr tt
   <-> isValidFileType (Some (mkFile (JStr "a.pdf") (JStr "application/pdf") (JNum 10) None))
         (name IMAGE) = true) /\
  (forall e,
     fileFilter IMAGE (mkFile (JStr "a.pdf") (JStr "application/pdf") (JNum 10) None) = inl e ->
     handleMulterError e
     = Answered {| direct_status := 400;
                   direct_json := [("status", JBool false); ("code", JNum 400);
                                   ("message", JStr (errorMessage IMAGE));
                                   ("errors", JStr "Invalid file type")] |}).
Proof.
  split; [left; reflexivity|].
  apply (fileFilter_agrees_with_validator IMAGE
           (mkFile (JStr "a.pdf") (JStr "application/pdf") (JNum 10) None)).
  left. reflexivity.
Defined.

(** ** The response formatter, continued *)

Section Responders.
Variable now : string.




End Responders.

(** ** The controller, continued *)

Section TextFlow.
Variable NODE_ENV : jsval.
Variable now : string.
Variable stack : string -> jsval.
Variable base64 : string -> string.
Variable formatFileSize : jsval -> jsval.
Variable generateText : string -> js_error + jsval.
Variable generateFromFile : string -> fileData -> js_error + jsval.

(** X17: the text handler. With a prompt that is a non-empty string after
    trimming it calls the upstream service once, with the trimmed prompt and
    no payload: a text answers 200 with the text as [data]; a failure answers
    500 with the error re-thrown as "Gemini API Error: ..." (or with the
    TypeError of that template literal when the failure's message has no
    string conversion); an [undefined] or a [null] text answers 500 as well,
    each with the TypeError of reading its [length]. With any other request
    it answers 500 without calling the upstream service. *)
Theorem handleTextRequest_outcomes (req : request) (endpoint : string) :
  let t := trace (handleTextRequest NODE_ENV now stack generateText generateFromFile
                    req endpoint) in
  let failure e :=
    [snd (sendInternalServerError now NODE_ENV e (JStr "Failed to generate content"))] in
  (forall b p, body req = Some b -> get b "prompt" = JStr p -> trim p <> "" ->
     upstream_calls t = [(trim p, None)] /\
     (forall text, generateText (trim p) = inr text ->
        text <> JUndefined -> text <> JNull ->
        responses t = [sendSuccessResponse now text (JStr "Content generated successfully")
                         JUndefined JUndefined]) /\
     (generateText (trim p) = inr JUndefined ->
        responses t
        = failure (new_Error stack "Cannot read properties of undefined (reading 'length')")) /\
     (generateText (trim p) = inr JNull ->
        responses t
        = failure (new_Error stack "Cannot read properties of null (reading 'length')")) /\
     (forall e, generateText (trim p) = inl e ->
        responses t = failure (rethrown stack e))) /\
  (body req = None ->
     upstream_calls t = [] /\
     responses t
     = failure (new_Error stack "Cannot read properties of undefined (reading 'prompt')")) /\
  (forall b, body req = Some b ->
     (forall p, get b "prompt" = JStr p -> trim p = "") ->
     upstream_calls t = [] /\
     responses t = failure (new_Error stack "Valid prompt is required")).
Proof.
  cbv zeta. unfold handleTextRequest, logRequest. split; [|split].
  - intros b p Hb Hp Hne. rewrite Hb, Hp.
    destruct (String.eqb_spec (trim p) ""); [contradiction|].
    destruct (generateText (trim p)) as [e|text] eqn:Hgen.
    + cbn. rewrite Hgen. unfold rethrown.
      destruct (to_string (err_message e)) eqn:Hmsg; cbn;
        (split; [reflexivity|]); (split; [discriminate|]);
        (split; [discriminate|]); (split; [discriminate|]);
        intros e' [= <-]; rewrite Hmsg; reflexivity.
    + cbn. rewrite Hgen.
      destruct text; cbn;
        (split; [reflexivity|]);
        (split; [intros text' [= <-] ? ?; first [reflexivity | contradiction]|]);
        (split; [intros [=]; reflexivity|]);
        (split; [intros [=]; reflexivity | discriminate]).
  - intros Hb. rewrite Hb. cbn. split; reflexivity.
  - intros b Hb Hp. rewrite Hb.
    destruct (get b "prompt") as [| | | | |p| |]; try (cbn; split; reflexivity).
    rewrite (Hp p eq_refl). cbn. split; reflexivity.
Qed.

(** X18: every run of a handler ends with exactly one response, sent last, and
    calls the upstream service at most once. *)
Theorem handlers_respond_once (req : request) (endpoint fileType : string) :
  let once t :=
    length (responses t) = 1%nat /\
    (length (upstream_calls t) <= 1)%nat /\
    exists t0 r, t = (t0 ++ [Respond r])%list in
  once (trace (handleTextRequest NODE_ENV now stack generateText generateFromFile
                 req endpoint)) /\
  once (trace (handleFileRequest NODE_ENV now stack base64 formatFileSize generateText
                 generateFromFile req endpoint fileType)) /\
  once (trace (getSupportedFileTypes NODE_ENV now stack)).
Proof.
  cbv zeta. split; [|split].
  - unfold handleTextRequest, logRequest.
    destruct (body req) as [b|].
    2:{ cbn. repeat split; [lia|]. eexists [_; _], _. reflexivity. }
    destruct (get b "prompt") as [| | | | |p| |];
      try (cbn; repeat split; [lia|]; eexists [_; _; _], _; reflexivity).
    destruct (String.eqb (trim p) "");
      [cbn; repeat split; [lia|]; eexists [_; _; _], _; reflexivity|].
    destruct (generateText (trim p)) as [e|text] eqn:Hgen.
    + cbn. rewrite Hgen. cbn. destruct (to_string (err_message e)); cbn;
        (repeat split; [lia|]; eexists [_; _; _; _], _; reflexivity).
    + cbn. rewrite Hgen.
      destruct text; cbn; repeat split; try lia;
        first [eexists [_; _; _], _; reflexivity | eexists [_; _; _; _], _; reflexivity].
  - unfold handleFileRequest, logRequest.
    destruct (body req) as [b|].
    2:{ cbn. repeat split; [lia|]. eexists [_; _], _. reflexivity. }
    destruct (get b "prompt") as [| | | | |p| |];
      try (cbn; repeat split; [lia|]; eexists [_; _; _], _; reflexivity).
    destruct (String.eqb (trim p) "");
      [cbn; repeat split; [lia|]; eexists [_; _; _], _; reflexivity|].
    destruct (isValid (validateFile (upload req) fileType)); cbn [negb].
    2:{ cbn. repeat split; [lia|]. eexists [_; _], _. reflexivity. }
    destruct (prepareFileForAPI base64 stack (upload req)) as [e|payload].
    { cbn. repeat split; [lia|]. eexists [_; _; _; _], _. reflexivity. }
    destruct (generateFromFile (trim p) payload) as [e|text] eqn:Hgen.
    + cbn. rewrite Hgen. cbn. destruct (to_string (err_message e)); cbn;
        (repeat split; [lia|]; eexists [_; _; _; _; _], _; reflexivity).
    + cbn. rewrite Hgen.
      destruct text; cbn; repeat split; try lia;
        first [eexists [_; _; _; _], _; reflexivity
              | eexists [_; _; _; _; _], _; reflexivity].
  - cbn. repeat split; [lia|]. eexists [_], _. reflexivity.
Qed.

End TextFlow.

Section FileFlowMore.
Variable NODE_ENV : jsval.
Variable now : string.
Variable stack : string -> jsval.
Variable base64 : string -> string.
Variable formatFileSize : jsval -> jsval.
Variable generateText : string -> js_error + jsval.
Variable generateFromFile : string -> fileData -> js_error + jsval.

(** X19: the upload handler once the prompt check and the file validation have
    passed. Without a buffer the encoding throws and the answer is 500 with
    no upstream call. With a buffer the upstream service is called once with
    the trimmed prompt and the payload (declared MIME type, base64 text): a
    text answers 200 with the text as [data], the file metadata as [meta] and
    the category in the message; a failure answers 500 with the category in
    the message, for the error re-thrown as "Gemini API Error: ..." (or the
    TypeError of that template literal when the failure's message has no
    string conversion). *)
Theorem handleFileRequest_after_validation (req : request) (endpoint fileType : string)
    (b : gmap string jsval) (p : string) (f0 : file) :
  body req = Some b -> get b "prompt" = JStr p -> trim p <> "" ->
  upload req = Some f0 ->
  isValid (validateFile (Some f0) fileType) = true ->
  let t := trace (handleFileRequest NODE_ENV now stack base64 formatFileSize
                    generateText generateFromFile req endpoint fileType) in
  let failure e :=
    [snd (sendInternalServerError now NODE_ENV e
            (JStr ("Failed to generate content from " ++ fileType)))] in
  (buffer f0 = None ->
     upstream_calls t = [] /\
     responses t
     = failure (new_Error stack "Invalid file object - missing buffer or mimetype")) /\
  (forall bytes, buffer f0 = Some bytes ->
     let payload := {| mimeType := mimetype f0; FileValidation.data := base64 bytes |} in
     upstream_calls t = [(trim p, Some payload)] /\
     (forall text, generateFromFile (trim p) payload = inr text ->
        text <> JUndefined -> text <> JNull ->
        responses t
        = [sendSuccessResponse now text
             (JStr ("Content generated successfully from " ++ fileType))
             (formatFileMetadata formatFileSize now (Some f0)) JUndefined] /\
        meta (json (sendSuccessResponse now text
                      (JStr ("Content generated successfully from " ++ fileType))
                      (formatFileMetadata formatFileSize now (Some f0)) JUndefined))
        = Some (formatFileMetadata formatFileSize now (Some f0))) /\
     (forall e, generateFromFile (trim p) payload = inl e ->
        responses t = failure (rethrown stack e))).
Proof.
  intros Hb Hp Hne Hf Hvalid. cbv zeta.
  destruct (validateFile_valid_inv (Some f0) fileType Hvalid)
    as (f1 & c & mime & [= <-] & Hc & Hm & Hin & Hmime).
  assert (Hprep : prepareFileForAPI base64 stack (Some f0)
                  = match buffer f0 with
                    | Some bytes =>
                        inr {| mimeType := JStr mime; FileValidation.data := base64 bytes |}
                    | None =>
                        inl (new_Error stack
                               "Invalid file object - missing buffer or mimetype")
                    end).
  { unfold prepareFileForAPI. destruct (buffer f0); [|reflexivity].
    rewrite Hm. cbn [truthy].
    destruct (String.eqb_spec mime ""); [contradiction | reflexivity]. }
  unfold handleFileRequest, logRequest. rewrite Hb, Hp, Hf, Hvalid.
  destruct (String.eqb_spec (trim p) ""); [contradiction|]. cbn [negb].
  rewrite Hprep. split.
  - intros Hbuf. rewrite Hbuf. cbn. split; reflexivity.
  - intros bytes Hbuf. rewrite Hbuf, <- Hm.
    destruct (generateFromFile (trim p)
                {| mimeType := mimetype f0; FileValidation.data := base64 bytes |})
      as [e|text] eqn:Hgen.
    + cbn. rewrite Hgen. unfold rethrown.
      destruct (to_string (err_message e)) eqn:Hmsg; cbn;
        (split; [reflexivity|]); (split; [discriminate|]);
        intros e' [= <-]; rewrite Hmsg; reflexivity.
    + cbn. rewrite Hgen.
      destruct text; cbn; repeat split; try discriminate;
        try (by intros text' [= <-] ? ?);
        match goal with
        | H : inr _ = inr _ |- _ => injection H as <-; first [reflexivity | congruence]
        end.
Qed.

End FileFlowMore.

(** An instance: a PNG with its bytes and a padded prompt. *)
Lemma handleFileRequest_after_validation_witness :
  body {| body := Some {["prompt" := JStr " Describe "]};
          upload := Some (mkFile (JStr "cat.png") (JStr "image/png") (JNum 3)
                            (Some "abc")) |}
  = Some {["prompt" := JStr " Describe "]} /\
  get {["prompt" := JStr " Describe "]} "prompt" = JStr " Describe " /\
  trim " Describe " <> "" /\
  upload {| body := Some {["prompt" := JStr " Describe "]};
            upload := Some (mkFile (JStr "cat.png") (JStr "image/png") (JNum 3)
                              (Some "abc")) |}
  = Some (mkFile (JStr "cat.png") (JStr "image/png") (JNum 3) (Some "abc")) /\
  isValid (validateFile (Some (mkFile (JStr "cat.png") (JStr "image/png") (JNum 3)
                                 (Some "abc"))) "image") = true /\
  (buffer (mkFile (JStr "cat.png") (JStr "image/png") (JNum 3) (Some "abc")) = None ->
     upstream_calls
       (trace (handleFileRequest (JStr "production") "T" (fun _ => JUndefined)
                 (fun bytes => bytes) (fun v => v)
                 (fun _ => inr (JStr "text")) (fun _ _ => inr (JStr "a cat"))
                 {| body := Some {["prompt" := JStr " Describe "]};
                    upload := Some (mkFile (JStr "cat.png") (JStr "image/png") (JNum 3)
                                      (Some "abc")) |}
                 "generate-from-image" "image")) = [] /\
     responses
       (trace (handleFileRequest (JStr "production") "T" (fun _ => JUndefined)
                 (fun bytes => bytes) (fun v => v)
                 (fun _ => inr (JStr "text")) (fun _ _ => inr (JStr "a cat"))
                 {| body := Some {["prompt" := JStr " Describe "]};
                    upload := Some (mkFile (JStr "cat.png") (JStr "image/png") (JNum 3)
                                      (Some "abc")) |}
                 "generate-from-image" "image"))
     = [snd (sendInternalServerError "T" (JStr "production")
               (new_Error (fun _ => JUndefined)
                  "Invalid file object - missing buffer or mimetype")
               (JStr ("Failed to generate content from " ++ "image")))]) /\
  (forall bytes,
     buffer (mkFile (JStr "cat.png") (JStr "image/png") (JNum 3) (Some "abc")) = Some bytes ->
     upstream_calls
       (trace (handleFileRequest (JStr "production") "T" (fun _ => JUndefined)
                 (fun bytes => bytes) (fun v => v)
                 (fun _ => inr (JStr "text")) (fun _ _ => inr (JStr "a cat"))
                 {| body := Some {["prompt" := JStr " Describe "]};
                    upload := Some (mkFile (JStr "cat.png") (JStr "image/png") (JNum 3)
                                      (Some "abc")) |}
                 "generate-from-image" "image"))
     = [(trim " Describe ",
         Some {| mimeType := JStr "image/png"; FileValidation.data := bytes |})] /\
     (forall text,
        (fun _ _ => inr (JStr "a cat") : js_error + jsval)
          (trim " Describe ")
          {| mimeType := JStr "image/png"; FileValidation.data := bytes |} = inr text ->
        text <> JUndefined -> text <> JNull ->
        responses
          (trace (handleFileRequest (JStr "production") "T" (fun _ => JUndefined)
                    (fun bytes => bytes) (fun v => v)
                    (fun _ => inr (JStr "text")) (fun _ _ => inr (JStr "a cat"))
                    {| body := Some {["prompt" := JStr " Describe "]};
                       upload := Some (mkFile (JStr "cat.png") (JStr "image/png") (JNum 3)
                                         (Some "abc")) |}
                    "generate-from-image" "image"))
        = [sendSuccessResponse "T" text
             (JStr ("Content generated successfully from " ++ "image"))
             (formatFileMetadata (fun v => v) "T"
                (Some (mkFile (JStr "cat.png") (JStr "image/png") (JNum 3) (Some "abc"))))
             JUndefined] /\
        meta (json (sendSuccessResponse "T" text
                      (JStr ("Content generated successfully from " ++ "image"))
                      (formatFileMetadata (fun v => v) "T"
                         (Some (mkFile (JStr "cat.png") (JStr "image/png") (JNum 3)
                                  (Some "abc"))))
                      JUndefined))
        = Some (formatFileMetadata (fun v => v) "T"
                  (Some (mkFile (JStr "cat.png") (JStr "image/png") (JNum 3)
                           (Some "abc"))))) /\
     (forall e,
        (fun _ _ => inr (JStr "a cat") : js_error + jsval)
          (trim " Describe ")
          {| mimeType := JStr "image/png"; FileValidation.data := bytes |} = inl e ->
        responses
          (trace (handleFileRequest (JStr "production") "T" (fun _ => JUndefined)
                    (fun bytes => bytes) (fun v => v)
                    (fun _ => inr (JStr "text")) (fun _ _ => inr (JStr "a cat"))
                    {| body := Some {["prompt" := JStr " Describe "]};
                       upload := Some (mkFile (JStr "cat.png") (JStr "image/png") (JNum 3)
                                         (Some "abc")) |}
                    "generate-from-image" "image"))
        = [snd (sendInternalServerError "T" (JStr "production")
                  (rethrown (fun _ => JUndefined) e)
                  (JStr ("Failed to generate content from " ++ "image")))])).
Proof.
  split; [reflexivity|]. split; [reflexivity|]. split; [discriminate|].
  split; [reflexivity|]. split; [reflexivity|].
  apply (handleFileRequest_after_validation (JStr "production") "T" (fun _ => JUndefined)
           (fun bytes => bytes) (fun v => v)
           (fun _ => inr (JStr "text")) (fun _ _ => inr (JStr "a cat"))
           {| body := Some {["prompt" := JStr " Describe "]};
              upload := Some (mkFile (JStr "cat.png") (JStr "image/png") (JNum 3)
                                (Some "abc")) |}
           "generate-from-image" "image"
           {["prompt" := JStr " Describe "]} " Describe "
           (mkFile (JStr "cat.png") (JStr "image/png") (JNum 3) (Some "abc")));
    (reflexivity || discriminate).
Defined.

Section ErrorDetails.
Variable NODE_ENV : jsval.
Variable now : string.
Variable base64 : string -> string.
Variable formatFileSize : jsval -> jsval.

Lemma not_development :
  NODE_ENV <> JStr "development" ->
  match NODE_ENV with
  | JStr s => String.eqb s "development"
  | _ => false
  end = false.
Proof.
  intros H. destruct NODE_ENV as [| | | | |s| |]; try reflexivity.
  destruct (String.eqb_spec s "development"); [|reflexivity].
  subst s. by destruct H.
Qed.

(** X20: outside development the responses of the two handlers do not depend on
    what went wrong: with two upstream services that fail on the same calls
    (with whatever errors) and return the same texts otherwise, and with any
    stack traces, the responses to a request are equal. *)
Theorem handlers_hide_error_details
    (stack1 stack2 : string -> jsval)
    (generateText1 generateText2 : string -> js_error + jsval)
    (generateFromFile1 generateFromFile2 : string -> fileData -> js_error + jsval)
    (req : request) (endpoint fileType : string) :
  NODE_ENV <> JStr "development" ->
  (forall p, same_text (generateText1 p) (generateText2 p)) ->
  (forall p fd, same_text (generateFromFile1 p fd) (generateFromFile2 p fd)) ->
  responses (trace (handleTextRequest NODE_ENV now stack1 generateText1 generateFromFile1
                      req endpoint))
  = responses (trace (handleTextRequest NODE_ENV now stack2 generateText2 generateFromFile2
                        req endpoint)) /\
  responses (trace (handleFileRequest NODE_ENV now stack1 base64 formatFileSize
                      generateText1 generateFromFile1 req endpoint fileType))
  = responses (trace (handleFileRequest NODE_ENV now stack2 base64 formatFileSize
                        generateText2 generateFromFile2 req endpoint fileType)).
Proof.
  intros Hprod HT HF. pose proof (not_development Hprod) as Hdev. split.
  - unfold handleTextRequest, logRequest.
    destruct (body req) as [b|]; [|cbn; by rewrite Hdev].
    destruct (get b "prompt") as [| | | | |p| |]; try (cbn; by rewrite Hdev).
    destruct (String.eqb (trim p) ""); [cbn; by rewrite Hdev|].
    specialize (HT (trim p)).
    destruct (generateText1 (trim p)) as [e1|text1] eqn:H1;
      destruct (generateText2 (trim p)) as [e2|text2] eqn:H2;
      cbn in HT; try contradiction.
    + cbn. rewrite H1, H2. cbn.
      destruct (to_string (err_message e1)); destruct (to_string (err_message e2));
        cbn; by rewrite Hdev.
    + subst text2. cbn. rewrite H1, H2.
      destruct text1; cbn; rewrite ?Hdev; reflexivity.
  - unfold handleFileRequest, logRequest.
    destruct (body req) as [b|]; [|cbn; by rewrite Hdev].
    destruct (get b "prompt") as [| | | | |p| |]; try (cbn; by rewrite Hdev).
    destruct (String.eqb (trim p) ""); [cbn; by rewrite Hdev|].
    destruct (isValid (validateFile (upload req) fileType)); [|reflexivity].
    cbn [negb]. unfold prepareFileForAPI.
    destruct (upload req) as [f0|]; [|cbn; by rewrite Hdev].
    destruct (buffer f0) as [bytes|]; [|cbn; by rewrite Hdev].
    destruct (truthy (mimetype f0)); cbn [negb]; [|cbn; by rewrite Hdev].
    specialize (HF (trim p)
                  {| mimeType := mimetype f0; FileValidation.data := base64 bytes |}).
    destruct (generateFromFile1 (trim p)
                {| mimeType := mimetype f0; FileValidation.data := base64 bytes |})
      as [e1|text1] eqn:H1;
      destruct (generateFromFile2 (trim p)
                  {| mimeType := mimetype f0; FileValidation.data := base64 bytes |})
        as [e2|text2] eqn:H2;
      cbn in HF; try contradiction.
    + cbn. rewrite H1, H2. cbn.
      destruct (to_string (err_message e1)); destruct (to_string (err_message e2));
        cbn; by rewrite Hdev.
    + subst text2. cbn. rewrite H1, H2.
      destruct text1; cbn; rewrite ?Hdev; reflexivity.
Qed.

End ErrorDetails.

(** An instance: two upstream services failing with different errors. *)
Lemma handlers_hide_error_details_witness :
  JStr "production" <> JStr "development" /\
  (forall p : string,
     same_text (inl (mkError (JStr "quota exceeded") (JStr "at a.js:1")) : js_error + jsval)
               (inl (mkError (JStr "bad API key") (JStr "at b.js:2")))) /\
  (forall (p : string) (fd : fileData),
     same_text (inl (mkError (JStr "quota exceeded") (JStr "at a.js:1")) : js_error + jsval)
               (inl (mkError (JStr "bad API key") (JStr "at b.js:2")))) /\
  responses (trace (handleTextRequest (JStr "production") "T" (fun _ => JStr "trace 1")
                      (fun _ => inl (mkError (JStr "quota exceeded") (JStr "at a.js:1")))
                      (fun _ _ => inl (mkError (JStr "quota exceeded") (JStr "at a.js:1")))
                      {| body := Some {["prompt" := JStr "hi"]}; upload := None |}
                      "generate-text"))
  = responses (trace (handleTextRequest (JStr "production") "T" (fun _ => JStr "trace 2")
                        (fun _ => inl (mkError (JStr "bad API key") (JStr "at b.js:2")))
                        (fun _ _ => inl (mkError (JStr "bad API key") (JStr "at b.js:2")))
                        {| body := Some {["prompt" := JStr "hi"]}; upload := None |}
                        "generate-text")) /\
  responses (trace (handleFileRequest (JStr "production") "T" (fun _ => JStr "trace 1")
                      (fun bytes => bytes) (fun v => v)
                      (fun _ => inl (mkError (JStr "quota exceeded") (JStr "at a.js:1")))
                      (fun _ _ => inl (mkError (JStr "quota exceeded") (JStr "at a.js:1")))
                      {| body := Some {["prompt" := JStr "hi"]}; upload := None |}
                      "generate-text" "image"))
  = responses (trace (handleFileRequest (JStr "production") "T" (fun _ => JStr "trace 2")
                        (fun bytes => bytes) (fun v => v)
                        (fun _ => inl (mkError (JStr "bad API key") (JStr "at b.js:2")))
                        (fun _ _ => inl (mkError (JStr "bad API key") (JStr "at b.js:2")))
                        {| body := Some {["prompt" := JStr "hi"]}; upload := None |}
                        "generate-text" "image")).
Proof.
  split; [discriminate|]. split; [intros; exact I|]. split; [intros; exact I|].
  apply (handlers_hide_error_details (JStr "production") "T" (fun bytes => bytes) (fun v => v)
           (fun _ => JStr "trace 1") (fun _ => JStr "trace 2")
           (fun _ => inl (mkError (JStr "quota exceeded") (JStr "at a.js:1")))
           (fun _ => inl (mkError (JStr "bad API key") (JStr "at b.js:2")))
           (fun _ _ => inl (mkError (JStr "quota exceeded") (JStr "at a.js:1")))
           (fun _ _ => inl (mkError (JStr "bad API key") (JStr "at b.js:2")))
           {| body := Some {["prompt" := JStr "hi"]}; upload := None |}
           "generate-text" "image").
  - discriminate.
  - intros; exact I.
  - intros; exact I.
Defined.

Section ServiceGuard.
Variable NODE_ENV : jsval.
Variable now : string.
Variable stack : string -> jsval.
Variable generateContent : jsval -> js_error + jsval.

(** X21: under the text handler the service's own guard against an empty prompt
    never fires: the handler has already refused prompts that are empty
    after trimming, so its runs are those of a handler that passes the
    trimmed prompt straight to the external call. *)
Theorem generateText_guard_unreachable (req : request) (endpoint : string) :
  trace (handleTextRequest NODE_ENV now stack
           (GeminiService.generateText stack generateContent)
           (GeminiService.generateFromFile generateContent) req endpoint)
  = trace (handleTextRequest NODE_ENV now stack
             (fun prompt => generateContent (JStr prompt))
             (GeminiService.generateFromFile generateContent) req endpoint).
Proof.
  unfold handleTextRequest, logRequest.
  destruct (body req) as [b|]; [|reflexivity].
  destruct (get b "prompt") as [| | | | |p| |]; try reflexivity.
  destruct (String.eqb (trim p) "") eqn:He; [reflexivity|].
  unfold callGeminiAPI, GeminiService.generateText. cbn [truthy].
  rewrite He. reflexivity.
Qed.

End ServiceGuard.

(** ** The text route *)

Lemma get_insert_eq (b : gmap string jsval) (key : string) (v : jsval) :
  get (<[key := v]> b) key = v.
Proof. unfold get. by rewrite lookup_insert_eq. Qed.

Section TextRouteProps.
Variable NODE_ENV : jsval.
Variable toISOString : Z -> string.
Variable now : string.
Variable stack : string -> jsval.
Variable generateText : string -> js_error + jsval.
Variable generateFromFile : string -> fileData -> js_error + jsval.

(** What the two middlewares of the text route make of a string prompt. *)
Lemma text_route_validation (b : gmap string jsval) (s : string) :
  b !! "hasOwnProperty" = None ->
  get b "prompt" = JStr s ->
  exists b1,
    sanitizeRequestBody stack (Some b) = Next (Some b1) /\
    validatePrompt now stack (Some b1)
    = if String.eqb (trim s) "" then
        Responded (sendValidationError now
                     (JStr "Prompt is required in the request body") JUndefined)
      else if (strlen (trim s) >? 10000)%Z then
        Responded (sendValidationError now
                     (JStr "Prompt is too long (maximum 10,000 characters)") JUndefined)
      else Next (<["prompt" := JStr (trim s)]> b1).
Proof.
  intros Hb Hs. eexists. split; [by apply sanitizeRequestBody_explicit|].
  set (b1 := trim_value <$> delete "prototype" (delete "constructor" (delete "__proto__" b))).
  assert (Hp : get b1 "prompt" = JStr (trim s)).
  { unfold get, b1. rewrite sanitized_lookup.
    rewrite decide_False by (apply not_dangerous; discriminate).
    unfold get in Hs. destruct (b !! "prompt") as [v|]; [|discriminate]. by subst v. }
  unfold validatePrompt. rewrite Hp. cbn [truthy].
  destruct (String.eqb_spec (trim s) "") as [He|He]; cbn [negb]; [reflexivity|].
  rewrite trim_idempotent.
  destruct (strlen (trim s) =? 0)%Z eqn:Hz; [|reflexivity].
  apply Z.eqb_eq in Hz. unfold strlen in Hz.
  destruct (trim s); [by destruct He | cbn in Hz; lia].
Qed.

(** X22: [POST /generate-text] from end to end. A client over its limit is
    answered by the limiter whatever it sends. For an admitted request whose
    body has no key [hasOwnProperty] of its own: a string prompt with a
    trimmed length between 1 and 10000 reaches the upstream service, once and
    trimmed, and a text comes back as a 200 envelope; a missing prompt and
    also a prompt of white space only are answered
    "Prompt is required in the request body" (the sanitizer has emptied it
    before the validator looks); a prompt longer than 10000 after trimming is
    answered with the too-long message. *)
Theorem post_generate_text_end_to_end (l : limiter) (ip remoteAddress : option string)
    (at_ms : Z) (body : option (gmap string jsval)) :
  let out := post_generate_text NODE_ENV toISOString now stack generateText generateFromFile
               l ip remoteAddress at_ms body in
  let reject msg := ByMiddleware (sendValidationError now (JStr msg) JUndefined) in
  (forall r, snd (rateLimiter toISOString l ip remoteAddress at_ms) = Responded r ->
     out = (l, ByMiddleware (tooMany toISOString at_ms))) /\
  (snd (rateLimiter toISOString l ip remoteAddress at_ms) = Next tt ->
   forall b, body = Some b -> b !! "hasOwnProperty" = None ->
     fst out = fst (rateLimiter toISOString l ip remoteAddress at_ms) /\
     (forall s, get b "prompt" = JStr s -> (1 <= strlen (trim s) <= 10000)%Z ->
        exists t,
          snd out = ByHandler t /\
          upstream_calls t = [(trim s, None)] /\
          (forall text, generateText (trim s) = inr text ->
             text <> JUndefined -> text <> JNull ->
             responses t
             = [sendSuccessResponse now text (JStr "Content generated successfully")
                  JUndefined JUndefined])) /\
     (b !! "prompt" = None ->
        snd out = reject "Prompt is required in the request body") /\
     (forall s, get b "prompt" = JStr s -> trim s = "" ->
        snd out = reject "Prompt is required in the request body") /\
     (forall s, get b "prompt" = JStr s -> (strlen (trim s) > 10000)%Z ->
        snd out = reject "Prompt is too long (maximum 10,000 characters)")).
Proof.
  cbv zeta. unfold post_generate_text.
  destruct (rateLimiter toISOString l ip remoteAddress at_ms) as [l' o] eqn:Hlim.
  cbn [fst snd]. split.
  - intros r ->.
    destruct (requests l !! clientId ip remoteAddress) as [e|] eqn:He.
    + rewrite (rateLimiter_step toISOString ip remoteAddress l e at_ms He) in Hlim.
      destruct (at_ms >? resetTime e)%Z; [discriminate|].
      destruct (count e >=? maxRequests l)%Z; [|discriminate].
      by injection Hlim as <- <-.
    + rewrite (rateLimiter_first toISOString ip remoteAddress l at_ms He) in Hlim.
      discriminate.
  - intros -> b -> Hb. split; [|split; [|split; [|split]]].
    + destruct (sanitizeRequestBody stack (Some b)) as [body1| |];
        [destruct (validatePrompt now stack body1)|..]; reflexivity.
    + intros s Hs [Hlo Hhi].
      destruct (text_route_validation b s Hb Hs) as (b1 & -> & ->).
      destruct (String.eqb_spec (trim s) "") as [He|He].
      { rewrite He in Hlo. unfold strlen in Hlo. cbn in Hlo. lia. }
      destruct (strlen (trim s) >? 10000)%Z eqn:Hl; [lia|].
      eexists. split; [reflexivity|].
      unfold handleGenerateRequest, handleTextRequest, logRequest. cbn [Controller.body].
      rewrite get_insert_eq, trim_idempotent.
      destruct (String.eqb_spec (trim s) ""); [contradiction|].
      destruct (generateText (trim s)) as [e|text] eqn:Hgen.
      * cbn. rewrite Hgen. cbn. destruct (to_string (err_message e)); cbn;
          (split; [reflexivity | discriminate]).
      * cbn. rewrite Hgen.
        destruct text; cbn; (split; [reflexivity|]);
          intros text' [= <-] ? ?; (reflexivity || contradiction).
    + intros Hnone.
      rewrite (sanitizeRequestBody_explicit stack b Hb).
      unfold validatePrompt, get. rewrite sanitized_lookup.
      rewrite decide_False by (apply not_dangerous; discriminate).
      rewrite Hnone. reflexivity.
    + intros s Hs He.
      destruct (text_route_validation b s Hb Hs) as (b1 & -> & ->).
      rewrite He. reflexivity.
    + intros s Hs Hlong.
      destruct (text_route_validation b s Hb Hs) as (b1 & -> & ->).
      destruct (String.eqb_spec (trim s) "") as [He|He].
      { rewrite He in Hlong. unfold strlen in Hlong. cbn in Hlong. lia. }
      destruct (strlen (trim s) >? 10000)%Z eqn:Hl; [reflexivity | lia].
Qed.

End TextRouteProps.

(** Scenarios A and B of the specification on a fresh limiter, and a prompt
    of spaces. *)
Example post_generate_text_scenarios :
  snd (post_generate_text (JStr "production") (fun _ => "T") "T" (fun _ => JUndefined)
         (fun _ => inr (JStr "AI is...")) (fun _ _ => inr (JStr "AI is..."))
         (createRateLimiter 100 900000) (Some "203.0.113.7") None 1760000000000
         (Some {["prompt" := JStr "Explain AI"]}))
  = ByHandler [Log "REQUEST" "generate-text" JNull;
               Upstream "Explain AI" None;
               Log "SUCCESS" "generate-text" JUndefined;
               Respond (sendSuccessResponse "T" (JStr "AI is...")
                          (JStr "Content generated successfully") JUndefined JUndefined)] /\
  snd (post_generate_text (JStr "production") (fun _ => "T") "T" (fun _ => JUndefined)
         (fun _ => inr (JStr "AI is...")) (fun _ _ => inr (JStr "AI is..."))
         (createRateLimiter 100 900000) (Some "203.0.113.7") None 1760000000000
         (Some ∅))
  = ByMiddleware (sendValidationError "T" (JStr "Prompt is required in the request body")
                    JUndefined) /\
  snd (post_generate_text (JStr "production") (fun _ => "T") "T" (fun _ => JUndefined)
         (fun _ => inr (JStr "AI is...")) (fun _ _ => inr (JStr "AI is..."))
         (createRateLimiter 100 900000) (Some "203.0.113.7") None 1760000000000
         (Some {["prompt" := JStr "   "]}))
  = ByMiddleware (sendValidationError "T" (JStr "Prompt is required in the request body")
                    JUndefined).
Proof. repeat split; vm_compute; reflexivity. Qed.

(** ** The conversation service *)

Section ConversationProps.
Variable stack : string -> jsval.
Variable generateContent : list jsval -> js_error + jsval.

Lemma entry_of_message_role (message entry : jsval) :
  GeminiService.entry_of_message stack message = inr entry -> entry_role_ok entry.
Proof.
  unfold GeminiService.entry_of_message.
  assert (Hrole : forall parts,
    entry_role_ok
      (GeminiService.history_entry
         match GeminiService.prop message "role" with
         | JStr r => if String.eqb r "user" then "user" else "model"
         | _ => "model"
         end parts)).
  { intros parts. unfold entry_role_ok.
    destruct (GeminiService.prop message "role"); try (right; reflexivity).
    destruct (String.eqb s "user"); [left | right]; reflexivity. }
  destruct message; try discriminate;
    (destruct (GeminiService.prop _ "content") as [| | | | | | |] eqn:Hc; try discriminate;
     [ | | | | | ]; try (intros [= <-]; apply Hrole);
     (destruct (truthy (GeminiService.prop _ "file"));
      [|destruct (truthy (GeminiService.prop _ "text"))]; intros [= <-]; apply Hrole)).
Qed.

(** The loop only appends, and what it appends has valid roles. *)
Lemma push_messages_appends (payload : list jsval) :
  forall h : list jsval,
    exists added,
      fst (GeminiService.push_messages stack h payload) = (h ++ added)%list /\
      Forall entry_role_ok added /\
      (length added <= length payload)%nat /\
      (snd (GeminiService.push_messages stack h payload) = None ->
       length added = length payload).
Proof.
  induction payload as [|m payload IH]; intros h.
  - exists []. cbn. rewrite app_nil_r. auto.
  - cbn [GeminiService.push_messages].
    destruct (GeminiService.entry_of_message stack m) as [e|entry] eqn:Hm.
    + exists []. cbn. rewrite app_nil_r.
      split; [reflexivity|]. split; [constructor|]. split; [lia | discriminate].
    + destruct (IH (h ++ [entry])%list) as (added & H1 & H2 & H3 & H4).
      exists (entry :: added). rewrite H1, <- app_assoc. cbn.
      split; [reflexivity|]. split; [|split].
      * constructor; [by eapply entry_of_message_role | exact H2].
      * lia.
      * intros Hn. by rewrite H4.
Qed.

Lemma greeting_role_ok : entry_role_ok GeminiService.greeting.
Proof. right. reflexivity. Qed.

Lemma history_ok_append (st : GeminiService.chat_state) (added : list jsval) :
  history_ok st ->
  Forall entry_role_ok added ->
  history_ok {| GeminiService.conversationHistory :=
                  (GeminiService.conversationHistory st ++ added)%list;
                GeminiService.isPersonalitySet := GeminiService.isPersonalitySet st |}.
Proof.
  intros (H1 & H2) Hadded. split; cbn.
  - intros Hflag. destruct (H1 Hflag) as [rest ->]. cbn. eauto.
  - by apply Forall_app.
Qed.

Lemma initializePersonality_ok (st : GeminiService.chat_state) :
  history_ok st -> history_ok (GeminiService.initializePersonality st).
Proof.
  intros Hst. unfold GeminiService.initializePersonality.
  destruct (negb (GeminiService.isPersonalitySet st)
            && (length (GeminiService.conversationHistory st) =? 0)%nat) eqn:E;
    [|exact Hst].
  apply andb_prop in E as [_ E]. apply Nat.eqb_eq in E.
  destruct (GeminiService.conversationHistory st); [|discriminate].
  split; cbn; [eauto|]. constructor; [exact greeting_role_ok | constructor].
Qed.

(** After [initializePersonality] the flag is set whenever the state had
    the shape that calls one at a time keep. *)
Lemma initializePersonality_sets_flag (st : GeminiService.chat_state) :
  chat_invariant st ->
  GeminiService.isPersonalitySet (GeminiService.initializePersonality st) = true.
Proof.
  intros (H0 & _). unfold GeminiService.initializePersonality.
  destruct (GeminiService.isPersonalitySet st) eqn:Hflag; cbn [negb andb]; [exact Hflag|].
  rewrite (H0 eq_refl). reflexivity.
Qed.

Lemma conversation_start_shape (st : GeminiService.chat_state) (payload : list jsval) :
  exists added,
    Forall entry_role_ok added /\
    fst (GeminiService.conversation_start stack st payload)
    = {| GeminiService.conversationHistory :=
           (GeminiService.conversationHistory (GeminiService.initializePersonality st)
            ++ added)%list;
         GeminiService.isPersonalitySet :=
           GeminiService.isPersonalitySet (GeminiService.initializePersonality st) |}.
Proof.
  unfold GeminiService.conversation_start.
  destruct (push_messages_appends payload
              (GeminiService.conversationHistory (GeminiService.initializePersonality st)))
    as (added & Hh & Hadded & _).
  destruct (GeminiService.push_messages stack
              (GeminiService.conversationHistory (GeminiService.initializePersonality st))
              payload) as [h err].
  cbn [fst] in Hh. subst h. exists added. split; [exact Hadded|].
  destruct err; reflexivity.
Qed.

Lemma conversation_start_ok (st : GeminiService.chat_state) (payload : list jsval) :
  history_ok st -> history_ok (fst (GeminiService.conversation_start stack st payload)).
Proof.
  intros Hst. destruct (conversation_start_shape st payload) as (added & Hadded & ->).
  apply (history_ok_append (GeminiService.initializePersonality st));
    [by apply initializePersonality_ok | exact Hadded].
Qed.

Lemma conversation_resume_shape (st : GeminiService.chat_state)
    (settled : js_error + jsval) :
  exists added,
    Forall entry_role_ok added /\
    fst (GeminiService.conversation_resume stack st settled)
    = {| GeminiService.conversationHistory :=
           (GeminiService.conversationHistory st ++ added)%list;
         GeminiService.isPersonalitySet := GeminiService.isPersonalitySet st |}.
Proof.
  unfold GeminiService.conversation_resume.
  destruct (match settled with inr response => response | inl _ => JUndefined end);
    try (exists []; split; [constructor|]; cbn [fst]; rewrite app_nil_r;
         by destruct st);
    (eexists [_]; split; [|reflexivity]; constructor; [right; reflexivity | constructor]).
Qed.

Lemma conversation_resume_ok (st : GeminiService.chat_state)
    (settled : js_error + jsval) :
  history_ok st -> history_ok (fst (GeminiService.conversation_resume stack st settled)).
Proof.
  intros Hst. destruct (conversation_resume_shape st settled) as (added & Hadded & ->).
  by apply history_ok_append.
Qed.

(** A call that runs to its end without another step in between is the
    call up to its [await] followed by its resumption. *)
Lemma conversation_start_resume (st : GeminiService.chat_state) (payload : list jsval) :
  GeminiService.conversation stack generateContent st payload
  = match GeminiService.conversation_start stack st payload with
    | (st1, inl e) => (st1, inl e)
    | (st1, inr contents) =>
        GeminiService.conversation_resume stack st1 (generateContent contents)
    end.
Proof.
  unfold GeminiService.conversation, GeminiService.conversation_start,
    GeminiService.conversation_resume.
  destruct (GeminiService.push_messages stack
              (GeminiService.conversationHistory (GeminiService.initializePersonality st))
              payload) as [h [e|]]; [reflexivity|].
  cbn [GeminiService.conversationHistory GeminiService.isPersonalitySet].
  destruct (generateContent h) as [e|response]; [reflexivity|].
  destruct response; reflexivity.
Qed.

Lemma run_chat_history_ok (ops : list GeminiService.chat_op) :
  forall st pending,
    history_ok st -> history_ok (fst (GeminiService.run_chat stack st pending ops)).
Proof.
  induction ops as [|op ops IH]; intros st pending Hst; [exact Hst|].
  destruct op as [payload|settled|]; cbn [GeminiService.run_chat].
  - pose proof (conversation_start_ok st payload Hst) as Hstart.
    destruct (GeminiService.conversation_start stack st payload) as [st' [e|contents]];
      by apply IH.
  - destruct pending as [|pending']; apply IH; [exact Hst|].
    by apply conversation_resume_ok.
  - apply IH. split; [discriminate | constructor].
Qed.

Lemma run_chat_one_at_a_time (uses : list chat_use) :
  forall st,
    chat_invariant st ->
    chat_invariant (fst (GeminiService.run_chat stack st 0 (one_at_a_time uses))).
Proof.
  induction uses as [|u uses IH]; intros st Hst; [exact Hst|].
  destruct u as [payload settled|]; cbn [one_at_a_time flat_map app GeminiService.run_chat].
  - pose proof (initializePersonality_sets_flag st Hst) as Hflag.
    destruct Hst as (_ & Hok).
    pose proof (conversation_start_ok st payload Hok) as Hstart.
    destruct (conversation_start_shape st payload) as (added & _ & Hshape).
    destruct (GeminiService.conversation_start stack st payload) as [st' [e|contents]];
      cbn [fst] in Hstart, Hshape.
    + apply IH. split; [|exact Hstart].
      rewrite Hshape. cbn. rewrite Hflag. discriminate.
    + apply IH.
      pose proof (conversation_resume_ok st' settled Hstart) as Hres.
      destruct (conversation_resume_shape st' settled) as (added' & _ & Hshape').
      split; [|exact Hres].
      rewrite Hshape', Hshape. cbn. rewrite Hflag. discriminate.
  - apply IH. split; [reflexivity|]. split; [discriminate | constructor].
Qed.

(** X23: the conversation state under concurrent use. A call of
    [conversation] runs up to its [await] and resumes later; in between,
    other calls may start, resume or clear the history. Whatever the order of
    these steps and whatever the external service answers, a set greeting
    flag means the history starts with the greeting, and every entry has the
    role 'user' or 'model'. When callers wait for each call before the next
    step, the flag is moreover unset only over an empty history. That does not
    hold of overlapping calls: a clear between a call's [await] and its
    resumption leaves the answer alone in the history, with the flag
    unset. *)
Theorem run_chat_keeps_invariant :
  (forall ops,
     history_ok (fst (GeminiService.run_chat stack GeminiService.initial_chat 0 ops))) /\
  (forall uses,
     chat_invariant
       (fst (GeminiService.run_chat stack GeminiService.initial_chat 0
               (one_at_a_time uses)))) /\
  (forall props,
     fst (GeminiService.run_chat stack GeminiService.initial_chat 0
            [GeminiService.Call []; GeminiService.Clear;
             GeminiService.Settle (inr (JObj props))])
     = {| GeminiService.conversationHistory :=
            [GeminiService.history_entry "model"
               [JObj [("text", GeminiService.prop (JObj props) "text")]]];
          GeminiService.isPersonalitySet := false |}).
Proof.
  split; [|split].
  - intros ops. apply run_chat_history_ok. split; [discriminate | constructor].
  - intros uses. apply run_chat_one_at_a_time.
    split; [reflexivity|]. split; [discriminate | constructor].
  - intros props. reflexivity.
Qed.

(** X24: one call with a payload whose messages all convert. The entries of the
    payload are appended in order after the history (after the greeting on a
    first call). If the external call answers, one model entry with the
    answer's text follows and the text is returned. If it fails, the call
    throws, and the payload's entries stay in the history: nothing is rolled
    back. *)
Theorem conversation_history_growth (st : GeminiService.chat_state)
    (payload entries : list jsval) :
  Forall2 (fun message entry => GeminiService.entry_of_message stack message = inr entry)
          payload entries ->
  let h1 := GeminiService.conversationHistory (GeminiService.initializePersonality st) in
  let out := GeminiService.conversation stack generateContent st payload in
  (forall response, generateContent (h1 ++ entries)%list = inr response ->
     response <> JUndefined -> response <> JNull ->
     snd out = inr (GeminiService.prop response "text") /\
     GeminiService.conversationHistory (fst out)
     = (h1 ++ entries
          ++ [GeminiService.history_entry "model"
                [JObj [("text", GeminiService.prop response "text")]]])%list) /\
  (forall e, generateContent (h1 ++ entries)%list = inl e ->
     snd out
     = inl (new_Error stack "Cannot read properties of undefined (reading 'text')") /\
     GeminiService.conversationHistory (fst out) = (h1 ++ entries)%list).
Proof.
  intros Hpayload. cbv zeta.
  assert (Hpush : forall h,
            GeminiService.push_messages stack h payload = ((h ++ entries)%list, None)).
  { induction Hpayload as [|m e payload entries Hm _ IH]; intros h.
    - cbn. by rewrite app_nil_r.
    - cbn [GeminiService.push_messages]. rewrite Hm, IH, <- app_assoc. reflexivity. }
  unfold GeminiService.conversation. rewrite Hpush. split.
  - intros response -> Hu Hn.
    destruct response; try contradiction;
      (split; [reflexivity | cbn; by rewrite <- app_assoc]).
  - intros e ->. split; reflexivity.
Qed.

End ConversationProps.

(** An instance: a first call with one user message. *)
Lemma conversation_history_growth_witness :
  Forall2 (fun message entry =>
             GeminiService.entry_of_message (fun _ => JUndefined) message = inr entry)
          [JObj [("role", JStr "user"); ("content", JStr "Hi")]]
          [GeminiService.history_entry "user" [JObj [("text", JStr "Hi")]]] /\
  (let h1 := GeminiService.conversationHistory
               (GeminiService.initializePersonality GeminiService.initial_chat) in
   let out := GeminiService.conversation (fun _ => JUndefined)
                (fun _ => inr (JObj [("text", JStr "Halo")]))
                GeminiService.initial_chat
                [JObj [("role", JStr "user"); ("content", JStr "Hi")]] in
   (forall response,
      (fun _ : list jsval => inr (JObj [("text", JStr "Halo")]) : js_error + jsval)
        (h1 ++ [GeminiService.history_entry "user" [JObj [("text", JStr "Hi")]]])%list
      = inr response ->
      response <> JUndefined -> response <> JNull ->
      snd out = inr (GeminiService.prop response "text") /\
      GeminiService.conversationHistory (fst out)
      = (h1 ++ [GeminiService.history_entry "user" [JObj [("text", JStr "Hi")]]]
           ++ [GeminiService.history_entry "model"
                 [JObj [("text", GeminiService.prop response "text")]]])%list) /\
   (forall e,
      (fun _ : list jsval => inr (JObj [("text", JStr "Halo")]) : js_error + jsval)
        (h1 ++ [GeminiService.history_entry "user" [JObj [("text", JStr "Hi")]]])%list
      = inl e ->
      snd out
      = inl (new_Error (fun _ => JUndefined)
               "Cannot read properties of undefined (reading 'text')") /\
      GeminiService.conversationHistory (fst out)
      = (h1 ++ [GeminiService.history_entry "user" [JObj [("text", JStr "Hi")]]])%list)).
Proof.
  split; [repeat constructor|].
  apply (conversation_history_growth (fun _ => JUndefined)
           (fun _ => inr (JObj [("text", JStr "Halo")]))
           GeminiService.initial_chat
           [JObj [("role", JStr "user"); ("content", JStr "Hi")]]
           [GeminiService.history_entry "user" [JObj [("text", JStr "Hi")]]]).
  repeat constructor.
Defined.

(** ** The error log *)

(** X25: the object [logError] writes carries the error's stack exactly in
    development, provided the caller's context has no [stack] key of its own
    (the handlers pass prompt length, file name and file size); the context's
    keys are logged as given, and the error message is logged in every
    mode. *)
Theorem logError_stack_only_in_development (NODE_ENV : jsval) (now endpoint : string)
    (error : js_error) (errorType : jsval) (additionalInfo : gmap string jsval) :
  additionalInfo !! "stack" = None ->
  let info := Logger.logError NODE_ENV now endpoint error errorType additionalInfo in
  (is_Some (info !! "stack") <-> NODE_ENV = JStr "development") /\
  (NODE_ENV = JStr "development" -> info !! "stack" = Some (err_stack error)) /\
  (forall k v, additionalInfo !! k = Some v -> info !! k = Some v) /\
  (additionalInfo !! "errorMessage" = None ->
     info !! "errorMessage" = Some (err_message error)).
Proof.
  intros Hstack. cbv zeta. unfold Logger.logError.
  set (fixed := <["timestamp" := JStr now]>
                  (<["endpoint" := JStr endpoint]>
                     (<["status" := JStr "ERROR"]>
                        (<["errorMessage" := err_message error]>
                           (<["errorType" := errorType]> (∅ : gmap string jsval)))))).
  assert (Hfs : fixed !! "stack" = None) by reflexivity.
  assert (Hfm : fixed !! "errorMessage" = Some (err_message error)) by reflexivity.
  assert (Hus : (additionalInfo ∪ fixed) !! "stack" = None)
    by (apply lookup_union_None; split; assumption).
  assert (Hdev : forall s, String.eqb s "development" = true <-> JStr s = JStr "development").
  { intros s. rewrite String.eqb_eq. split; [intros -> | intros [= ->]]; reflexivity. }
  assert (Hk : forall k v, additionalInfo !! k = Some v ->
                           (additionalInfo ∪ fixed) !! k = Some v)
    by (intros k v Hkv; by apply lookup_union_Some_l).
  assert (Hm : additionalInfo !! "errorMessage" = None ->
               (additionalInfo ∪ fixed) !! "errorMessage" = Some (err_message error))
    by (intros Hnone; by rewrite lookup_union_r).
  destruct NODE_ENV as [| | | | |s| |];
    try (rewrite Hus; split; [split; [intros [x Hx]; discriminate | discriminate]|];
         split; [discriminate|]; split; assumption).
  destruct (String.eqb s "development") eqn:Hs.
  - apply Hdev in Hs. split; [|split; [|split]].
    + rewrite lookup_insert_eq. split; eauto.
    + intros _. apply lookup_insert_eq.
    + intros k v Hkv. rewrite lookup_insert_ne; [by apply Hk|].
      intros <-. congruence.
    + intros Hnone. rewrite lookup_insert_ne by discriminate. by apply Hm.
  - rewrite Hus. split; [|split; [|split]]; try assumption.
    + split; [intros [x Hx]; discriminate|].
      intros Heq. apply Hdev in Heq. congruence.
    + intros Heq. apply Hdev in Heq. congruence.
Qed.

(** An instance: the context of the upload handler, in production. *)
Lemma logError_stack_only_in_development_witness :
  Logger.handler_context (JNum 8) (JStr "cat.png") (JNum 3) !! "stack" = None /\
  (let info := Logger.logError (JStr "production") "T" "generate-from-image"
                 (mkError (JStr "Gemini API Error: quota") (JStr "at a.js:1")) (JStr "Error")
                 (Logger.handler_context (JNum 8) (JStr "cat.png") (JNum 3)) in
   (is_Some (info !! "stack") <-> JStr "production" = JStr "development") /\
   (JStr "production" = JStr "development" ->
      info !! "stack"
      = Some (err_stack (mkError (JStr "Gemini API Error: quota") (JStr "at a.js:1")))) /\
   (forall k v,
      Logger.handler_context (JNum 8) (JStr "cat.png") (JNum 3) !! k = Some v ->
      info !! k = Some v) /\
   (Logger.handler_context (JNum 8) (JStr "cat.png") (JNum 3) !! "errorMessage" = None ->
      info !! "errorMessage"
      = Some (err_message (mkError (JStr "Gemini API Error: quota") (JStr "at a.js:1"))))).
Proof.
  split; [reflexivity|].
  apply (logError_stack_only_in_development (JStr "production") "T" "generate-from-image"
           (mkError (JStr "Gemini API Error: quota") (JStr "at a.js:1")) (JStr "Error")
           (Logger.handler_context (JNum 8) (JStr "cat.png") (JNum 3))).
  reflexivity.
Defined.

(** ** File metadata and the advertised categories *)

Lemma or_else_truthy (a d : jsval) : truthy d = true -> truthy (or_else a d) = true.
Proof. intros Hd. unfold or_else. destruct (truthy a) eqn:E; assumption. Qed.

(** The metadata is [null] exactly when there is no file; otherwise it is
    an object (so the success envelope keeps it as [meta]) whose name and
    MIME type are never missing or empty (falling back to 'unknown'), whose
    size is the file's size or 0, and whose name, type and size are the
    file's own whenever those are truthy. *)
Lemma formatFileMetadata_fields (formatFileSize : jsval -> jsval) (now : string)
    (f : option file) :
  (formatFileMetadata formatFileSize now f = JNull <-> f = None) /\
  (forall f0, f = Some f0 ->
     let m := formatFileMetadata formatFileSize now f in
     truthy m = true /\
     truthy (field m "originalName") = true /\
     truthy (field m "mimeType") = true /\
     (truthy (field m "size") = true \/ field m "size" = JNum 0) /\
     field m "sizeFormatted" = formatFileSize (field m "size") /\
     field m "uploadedAt" = JStr now /\
     (truthy (originalname f0) = true -> field m "originalName" = originalname f0) /\
     (truthy (mimetype f0) = true -> field m "mimeType" = mimetype f0) /\
     (truthy (size f0) = true -> field m "size" = size f0)).
Proof.
  split.
  - destruct f; cbn; split; (discriminate || reflexivity).
  - intros f0 ->. cbn.
    split; [reflexivity|].
    split; [by apply or_else_truthy|].
    split; [by apply or_else_truthy|].
    split; [unfold or_else; destruct (truthy (size f0)) eqn:E; auto|].
    split; [reflexivity|]. split; [reflexivity|].
    unfold or_else. repeat split; intros ->; reflexivity.
Qed.

(** X26: the list for clients and the validator agree: every listed entry names
    a category the registry resolves, with that category's byte ceiling, its
    allowed MIME types and its field name, and the listed MB figure is
    exactly the ceiling; every category a name resolves to is listed. *)
Theorem getAllFileTypeConfigs_agrees_with_registry :
  Forall (fun e =>
            exists c,
              field e "type" = JStr (name c) /\
              field e "name" = JStr (name c) /\
              getFileTypeConfig (field e "type") = Some c /\
              field e "maxSize" = JNum (maxSize c) /\
              (exists mb, field e "maxSizeMB" = JNum mb /\
                          (mb * (1024 * 1024))%Z = maxSize c) /\
              field e "allowedMimeTypes" = JArr (map JStr (allowedMimeTypes c)) /\
              field e "fieldName" = JStr (fieldName c))
         getAllFileTypeConfigs /\
  (forall s c, getFileTypeConfig (JStr s) = Some c ->
     exists e, In e getAllFileTypeConfigs /\ field e "name" = JStr (name c)).
Proof.
  split.
  - unfold getAllFileTypeConfigs, FILE_TYPES. cbn [map].
    repeat constructor.
    + exists IMAGE. repeat split. by exists 10%Z.
    + exists DOCUMENT. repeat split. by exists 50%Z.
    + exists AUDIO. repeat split. by exists 100%Z.
    + exists VIDEO. repeat split. by exists 200%Z.
  - intros s c Hc. apply getFileTypeConfig_registry in Hc.
    unfold registry_specs in Hc. cbn in Hc.
    destruct Hc as [<- | [<- | [<- | [<- | []]]]].
    + eexists. split; [left; reflexivity | reflexivity].
    + eexists. split; [right; left; reflexivity | reflexivity].
    + eexists. split; [do 2 right; left; reflexivity | reflexivity].
    + eexists. split; [do 3 right; left; reflexivity | reflexivity].
Qed.
